(** * spawn-burst: the cache-coordination protocol of [src/index.ts]

    The package spawns [perl -we <script> cmd cacheFile cacheMaxAgeSec
    validator] and turns the exit status, stdout and stderr of that
    process into a returned string or a thrown [Error].  The protocol
    itself is the Perl script built by [buildCmdLine]; the Node side is
    [processResult].

    The development embeds both: the script as a program in a small
    state-and-failure monad over the data file, the two output streams
    and a log of the system calls it issues; the Node side as a pure
    function of the process result.  What the operating system, the
    clock and the spawned command do is read from an environment record,
    one per invocation. *)

From Stdlib Require Import ZArith List String Ascii Bool Lia DecimalString.
From Stdlib Require Import Permutation.
Import ListNotations.
Open Scope string_scope.
Open Scope Z_scope.

(* ================================================================== *)
(** ** Text *)

Module Text.

(** The newline character and the one-character string holding it. *)
Definition nl : ascii := Ascii.ascii_of_nat 10.
Definition NL : string := String nl EmptyString.

(** Perl's and JavaScript's interpolation of an integer: its decimal
    numeral, with a leading minus sign when negative. *)
Definition dec (z : Z) : string := NilZero.string_of_int (Z.to_int z).

(** [s] holds no newline character. *)
Fixpoint no_nl (s : string) : bool :=
  match s with
  | EmptyString => true
  | String c r => negb (Ascii.eqb c nl) && no_nl r
  end.

(** Splits [s] at its first newline: the text before it and the text
    after it; [None] when [s] holds no newline. *)
Fixpoint cut_nl (s : string) : option (string * string) :=
  match s with
  | EmptyString => None
  | String c r =>
      if Ascii.eqb c nl then Some (EmptyString, r)
      else match cut_nl r with
           | Some (a, b) => Some (String c a, b)
           | None => None
           end
  end.

(** White space as [String.prototype.trim] sees it, on the one-byte
    characters: tab, line feed, vertical tab, form feed, carriage return
    and space. *)
Definition is_space (c : ascii) : bool :=
  let n := nat_of_ascii c in
  ((9 <=? n) && (n <=? 13))%nat || (n =? 32)%nat.

Fixpoint trimStart (s : string) : string :=
  match s with
  | EmptyString => EmptyString
  | String c r => if is_space c then trimStart r else s
  end.

Fixpoint trimEnd (s : string) : string :=
  match s with
  | EmptyString => EmptyString
  | String c r =>
      match trimEnd r with
      | EmptyString => if is_space c then EmptyString else String c EmptyString
      | r' => String c r'
      end
  end.

Definition trim (s : string) : string := trimEnd (trimStart s).

(** [t] occurs in [s]. *)
Definition includes (s t : string) : Prop :=
  exists a b, s = a ++ t ++ b.

End Text.

(* ================================================================== *)
(** ** Patterns

    The validator is handed to Perl's regular-expression engine, which
    is not part of the package.  The fragment below is what the
    statements about matching need: literal characters, the wildcard,
    the two line anchors, sequence, alternation and iteration, under the
    two modifiers [/s] and [/m] as perlre defines them. *)

Module Regex.
Import Text.

Inductive pattern : Type :=
| Eps                                  (* the empty pattern *)
| Chr (c : ascii)                      (* a literal character *)
| Any                                  (* . *)
| Bol                                  (* ^ *)
| Eol                                  (* $ *)
| Seq (p q : pattern)                  (* pq *)
| Alt (p q : pattern)                  (* p|q *)
| Star (p : pattern).                  (* p* *)

(** One or more repetitions, [p+]. *)
Definition Plus (p : pattern) : pattern := Seq p (Star p).

Record modifiers : Type := mkMods {
  dotall : bool;        (* /s : the wildcard matches a newline too *)
  multiline : bool      (* /m : ^ and $ match at every line *)
}.

(** A compiled pattern, the value of [qr/.../]. *)
Record regex : Type := mkRegex { pat : pattern; mods : modifiers }.

Section Matching.
Variable m : modifiers.
Variable text : list ascii.

Definition at_pos (i : nat) : option ascii := nth_error text i.

Definition is_nl_at (i : nat) : bool :=
  match at_pos i with
  | Some c => Ascii.eqb c nl
  | None => false
  end.

(** [.] at position [i]. *)
Definition any_at (i : nat) : bool :=
  match at_pos i with
  | Some c => dotall m || negb (Ascii.eqb c nl)
  | None => false
  end.

Definition chr_at (c : ascii) (i : nat) : bool :=
  match at_pos i with
  | Some d => Ascii.eqb c d
  | None => false
  end.

(** [^]: the start of the text; under [/m] also after a newline that
    is not the last character. *)
Definition bol_at (i : nat) : bool :=
  (i =? 0)%nat
  || (multiline m && (i <? List.length text)%nat && is_nl_at (i - 1)).

(** [$]: the end of the text or before a final newline; under [/m]
    before any newline. *)
Definition eol_at (i : nat) : bool :=
  (i =? List.length text)%nat
  || ((S i =? List.length text)%nat && is_nl_at i)
  || (multiline m && is_nl_at i).

Fixpoint iterate (f : list nat -> list nat) (n : nat) (ps : list nat)
  : list nat :=
  match n with
  | O => ps
  | S n' => ps ++ iterate f n' (f ps)
  end.

(** The positions at which a match of [p] can end when it starts at
    one of the positions [starts]. *)
Fixpoint ends (p : pattern) (starts : list nat) : list nat :=
  match p with
  | Eps => starts
  | Chr c => map S (filter (chr_at c) starts)
  | Any => map S (filter any_at starts)
  | Bol => filter bol_at starts
  | Eol => filter eol_at starts
  | Seq a b => ends b (ends a starts)
  | Alt a b => ends a starts ++ ends b starts
  | Star a => iterate (ends a) (List.length text) starts
  end.

(** The pattern is found somewhere in the text. *)
Definition found_in (p : pattern) : bool :=
  match ends p (seq 0 (S (List.length text))) with
  | [] => false
  | _ :: _ => true
  end.
End Matching.

(** [$text =~ $re]. *)
Definition matches (re : regex) (s : string) : bool :=
  found_in (mods re) (list_ascii_of_string s) (pat re).

End Regex.

(* ================================================================== *)
(** ** The world of one Perl process *)

Module Sys.
Import Text.

(** The data file: its bytes, its modification time in seconds and its
    permission bits. *)
Record file : Type := mkFile {
  content : string;
  mtime : Z;
  mode : Z
}.

(** [0600]: read and write for the owner, nothing for group and others. *)
Definition owner_rw : Z := 6 * 64.

(** The two files the script opens: [$cacheFile] and [$cacheFile.lock]. *)
Inductive target : Type := DataFile | LockFile.

Inductive lock_kind : Type := LOCK_SH | LOCK_EX.

(** Which of the two [readCache] calls: the one before the singleton
    lock (line 131) or the one after it (line 140). *)
Inductive snap : Type := Pre | Post.

(** The places where the script checks a system call with [or die]. *)
Inductive site : Type :=
| OpenLock | FlockLock                          (* lines 136, 137 *)
| OpenRead (k : snap) | FlockRead (k : snap)
| SeekRead (k : snap)                           (* lines 164-166 *)
| OpenWrite | ChmodWrite | FlockWrite
| SeekWrite | TruncateWrite.                    (* lines 180-184 *)

(** The calls the process issues, in the order it issues them. *)
Inductive event : Type :=
| EvQr                                          (* qr/$validator/s *)
| EvOpen (t : target)
| EvFlock (t : target) (k : lock_kind)
| EvSeek
| EvSlurp                                       (* <$fh> with $/ undefined *)
| EvStat
| EvClose
| EvChmod (bits : Z)
| EvTruncate
| EvPrintFile (s : string)                      (* print $fh ... *)
| EvExec (cmd : string).                        (* qx{$cmd} *)

(** Why the script died. *)
Inductive failure : Type :=
| OpenLockFailed | FlockLockFailed
| OpenReadFailed | FlockReadFailed | SeekReadFailed
| InvalidFormat                                 (* line 170 *)
| NonzeroStatus (st : Z)                        (* line 153 *)
| NotValid (data : string)                      (* line 154 *)
| OpenWriteFailed | ChmodFailed | FlockWriteFailed
| SeekWriteFailed | TruncateFailed.

(** What [qx{$cmd}] yields: the wait status [$?], the captured stdout,
    and what the command wrote to the stderr it inherits. *)
Record cmd_result : Type := mkCmd {
  wait_status : Z;
  cmd_stdout : string;
  cmd_stderr : string
}.

(** Everything outside the script that one invocation depends on. *)
Record env : Type := mkEnv {
  pid : Z;                          (* $$ *)
  now : snap -> Z;                  (* time() inside each readCache *)
  now_write : Z;                    (* the clock while writeCache runs *)
  localtime : string;               (* scalar(localtime) *)
  create_mode : Z;                  (* mode of a file that open creates *)
  sys_ok : site -> bool;            (* does the checked call succeed *)
  errstr : string;                  (* $! after a failed call *)
  errno : Z;                        (* errno when die is reached *)
  qx : string -> cmd_result;        (* running a shell command line *)
  meanwhile : option file -> option file
                                    (* what other processes make of the
                                       data file while this one waits
                                       for the singleton lock *)
}.

(** The state the script acts on. *)
Record world : Type := mkWorld {
  dataFile : option file;           (* None: no such file yet *)
  out : string;                     (* the process's stdout so far *)
  err : string;                     (* the process's stderr so far *)
  child : Z;                        (* $? *)
  log : list event
}.

Definition boot (f : option file) : world :=
  mkWorld f EmptyString EmptyString 0 [].

(** How a computation ends: with a value, by [die], or by [exit]. *)
Inductive result (A : Type) : Type :=
| Ret (a : A)
| Die (why : failure)
| Exit (code : Z).
Arguments Ret {A} a.
Arguments Die {A} why.
Arguments Exit {A} code.

Definition M (A : Type) : Type := world -> result A * world.

Definition ret {A} (a : A) : M A := fun w => (Ret a, w).

Definition bind {A B} (c : M A) (k : A -> M B) : M B :=
  fun w =>
    match c w with
    | (Ret a, w') => k a w'
    | (Die why, w') => (Die why, w')
    | (Exit code, w') => (Exit code, w')
    end.

Declare Scope perl_scope.
Delimit Scope perl_scope with perl.
Notation "x <- c ;; k" := (bind c (fun x => k))
  (at level 61, c at next level, right associativity) : perl_scope.
Notation "' p <- c ;; k" := (bind c (fun x => match x with p => k end))
  (at level 61, p pattern, c at next level, right associativity) : perl_scope.
Notation "c ;; k" := (bind c (fun _ => k))
  (at level 61, right associativity) : perl_scope.
Open Scope perl_scope.

(** [die(msg)]: the message goes to stderr and the process ends. *)
Definition die {A} (why : failure) (msg : string) : M A :=
  fun w => (Die why,
            mkWorld (dataFile w) (out w) (err w ++ msg) (child w) (log w)).

(** [exit(code)]. *)
Definition exit {A} (code : Z) : M A := fun w => (Exit code, w).

(** [print $data]. *)
Definition print (s : string) : M unit :=
  fun w => (Ret tt,
            mkWorld (dataFile w) (out w ++ s) (err w) (child w) (log w)).

Definition emit (ev : event) : M unit :=
  fun w => (Ret tt,
            mkWorld (dataFile w) (out w) (err w) (child w) (log w ++ [ev])).

Definition get_file : M (option file) := fun w => (Ret (dataFile w), w).

Definition set_file (f : option file) : M unit :=
  fun w => (Ret tt, mkWorld f (out w) (err w) (child w) (log w)).

(** A system call on an existing handle, checked by [or die]: issued,
    and fatal when the system refuses it. *)
Definition checked (e : env) (s : site) (ev : event)
           (why : failure) (msg : string) : M unit :=
  emit ev ;;
  if sys_ok e s then ret tt else die why msg.

(** [open($fh, "+>>", $file) or die]: opens for reading and appending,
    creating an empty file when there is none. *)
Definition open_data (e : env) (s : site) (clock : Z)
           (why : failure) (msg : string) : M unit :=
  emit (EvOpen DataFile) ;;
  if sys_ok e s then
    f <- get_file ;;
    match f with
    | Some _ => ret tt
    | None => set_file (Some (mkFile EmptyString clock (create_mode e)))
    end
  else die why msg.

(** [<$fh>] in slurp mode, from offset 0: the whole content. *)
Definition slurp : M string :=
  emit EvSlurp ;;
  f <- get_file ;;
  ret (match f with Some f => content f | None => EmptyString end).

(** [stat($fh)->mtime]. *)
Definition stat_mtime : M Z :=
  emit EvStat ;;
  f <- get_file ;;
  ret (match f with Some f => mtime f | None => 0 end).

(** [chmod(0600, $file) or die]. *)
Definition chmod (e : env) (bits : Z) (msg : string) : M unit :=
  checked e ChmodWrite (EvChmod bits) ChmodFailed msg ;;
  f <- get_file ;;
  match f with
  | Some f => set_file (Some (mkFile (content f) (mtime f) bits))
  | None => ret tt
  end.

(** [truncate($fh, 0) or die]. *)
Definition truncate (e : env) (msg : string) : M unit :=
  checked e TruncateWrite EvTruncate TruncateFailed msg ;;
  f <- get_file ;;
  match f with
  | Some f => set_file (Some (mkFile EmptyString (now_write e) (mode f)))
  | None => ret tt
  end.

(** [print $fh s] on a handle opened for appending: [s] lands at the
    end of the file.  The script does not check the call. *)
Definition print_file (e : env) (s : string) : M unit :=
  emit (EvPrintFile s) ;;
  f <- get_file ;;
  match f with
  | Some f => set_file (Some (mkFile (content f ++ s) (now_write e) (mode f)))
  | None => ret tt
  end.

(** [qx{$cmd}]: runs the command; its stdout is the value, its stderr
    goes to the script's own stderr, its wait status to [$?]. *)
Definition backticks (e : env) (cmd : string) : M string :=
  emit (EvExec cmd) ;;
  fun w =>
    let r := qx e cmd in
    (Ret (cmd_stdout r),
     mkWorld (dataFile w) (out w) (err w ++ cmd_stderr r)
             (wait_status r) (log w)).

Definition get_child : M Z := fun w => (Ret (child w), w).

(** The time a process spends blocked in [flock($singleton, LOCK_EX)]:
    the other processes go on and may rewrite the data file. *)
Definition others (e : env) : M unit :=
  f <- get_file ;;
  set_file (meanwhile e f).

End Sys.

(* ================================================================== *)
(** ** The script of [buildCmdLine] (lines 123-188) *)

Module Script.
Import Text Regex Sys.

(** [SpawnBurstOptions].  [cacheMaxAgeSec] is an integer number of
    seconds; [validator] is the pattern that Perl parses the option's
    text into. *)
Record SpawnBurstOptions : Type := mkOptions {
  cmd : string;
  cacheFile : string;
  cacheMaxAgeSec : Z;
  validator : pattern
}.

(** [qr/$validator/s] (line 128): only the modifier [/s] is given. *)
Definition qr (p : pattern) : M regex :=
  emit EvQr ;;
  ret (mkRegex p (mkMods true false)).

(** The match of [$content] against the pattern of line 170, which is
    anchored at both ends: a first group of one or more characters other
    than newline, the newline after it, and a second group that, under
    [/s], takes all the rest. *)
Definition parse_record (s : string) : option (string * string) :=
  match cut_nl s with
  | Some (writer, data) =>
      if (writer =? EmptyString)%string then None else Some (writer, data)
  | None => None
  end.

(** [readCache] (lines 162-174): the triple [($writer, $data, $age)]. *)
Definition readCache (e : env) (k : snap) (file : string)
  : M (string * string * Z) :=
  open_data e (OpenRead k) (now e k) OpenReadFailed
            ("open read " ++ file ++ ": " ++ errstr e ++ NL) ;;
  checked e (FlockRead k) (EvFlock DataFile LOCK_SH) FlockReadFailed
          ("flock " ++ file ++ " LOCK_SH: " ++ errstr e ++ NL) ;;
  checked e (SeekRead k) EvSeek SeekReadFailed
          ("seek " ++ file ++ ": " ++ errstr e ++ NL) ;;
  content <- slurp ;;
  if (content =? EmptyString)%string
  then ret (EmptyString, EmptyString, 0)
  else
    match parse_record content with
    | None => die InvalidFormat ("invalid format of " ++ file ++ NL)
    | Some (writer, data) =>
        modified <- stat_mtime ;;
        emit EvClose ;;
        ret (writer, data, now e k - modified)
    end.

(** The first line [writeCache] puts in the file: [$$: localtime]. *)
Definition writer_line (e : env) : string :=
  dec (pid e) ++ ": " ++ localtime e.

(** [writeCache] (lines 178-187). *)
Definition writeCache (e : env) (file data : string) : M unit :=
  open_data e OpenWrite (now_write e) OpenWriteFailed
            ("open write " ++ file ++ ": " ++ errstr e ++ NL) ;;
  chmod e owner_rw ("chmod " ++ file ++ ": " ++ errstr e ++ NL) ;;
  checked e FlockWrite (EvFlock DataFile LOCK_EX) FlockWriteFailed
          ("flock " ++ file ++ " LOCK_EX: " ++ errstr e ++ NL) ;;
  checked e SeekWrite EvSeek SeekWriteFailed
          ("seek " ++ file ++ ": " ++ errstr e ++ NL) ;;
  truncate e ("truncate " ++ file ++ ": " ++ errstr e ++ NL) ;;
  print_file e (writer_line e ++ NL ++ data) ;;
  emit EvClose.

(** Lines 127-131: compile the validator and remember who wrote the
    cache last, before queueing for the singleton lock. *)
Definition arrive (e : env) (o : SpawnBurstOptions) : M (regex * string) :=
  re <- qr (validator o) ;;
  '(oldWriter, _, _) <- readCache e Pre (cacheFile o) ;;
  ret (re, oldWriter).

(** The test of line 144. *)
Definition reuse_test (o : SpawnBurstOptions) (re : regex)
           (data : string) (age : Z) : bool :=
  negb (data =? EmptyString)%string && matches re data
  && (0 <? cacheMaxAgeSec o) && (age <? cacheMaxAgeSec o).

(** The test of line 151. *)
Definition run_test (re : regex) (oldWriter writer data : string) : bool :=
  (data =? EmptyString)%string || negb (matches re data)
  || (writer =? oldWriter)%string.

(** Lines 152-155: run the command, check it, store its output. *)
Definition execute (e : env) (o : SpawnBurstOptions) (re : regex)
  : M string :=
  data <- backticks e (cmd o) ;;
  st <- get_child ;;
  (if negb (st =? 0)
   then die (NonzeroStatus st)
            ("command exited with nonzero status " ++ dec st ++ NL)
   else ret tt) ;;
  (if negb (matches re data)
   then die (NotValid data) ("response is not valid: " ++ data ++ NL)
   else ret tt) ;;
  writeCache e (cacheFile o) data ;;
  ret data.

(** Lines 135-158: become the singleton, read the cache again, then
    reuse, run or adopt. *)
Definition critical (e : env) (o : SpawnBurstOptions)
           (re : regex) (oldWriter : string) : M unit :=
  let singletonFile := cacheFile o ++ ".lock" in
  checked e OpenLock (EvOpen LockFile) OpenLockFailed
          ("open " ++ singletonFile ++ ": " ++ errstr e ++ NL) ;;
  checked e FlockLock (EvFlock LockFile LOCK_EX) FlockLockFailed
          ("flock LOCK_EX: " ++ errstr e ++ NL) ;;
  '(writer, data, age) <- readCache e Post (cacheFile o) ;;
  if reuse_test o re data age
  then print data ;; exit 0
  else
    data <- (if run_test re oldWriter writer data
             then execute e o re
             else ret data) ;;
    print data.

(** What [readCache] returns on a data file [f] that it can open, lock
    and rewind: the empty triple for an empty file, the parsed record
    and its age otherwise, nothing when the content does not parse. *)
Definition snapshot (e : env) (k : snap) (f : file)
  : option (string * string * Z) :=
  if (content f =? EmptyString)%string
  then Some (EmptyString, EmptyString, 0)
  else match parse_record (content f) with
       | Some (writer, data) => Some (writer, data, now e k - mtime f)
       | None => None
       end.

(** The whole script, as one process among others: between its first
    read and its getting the lock the others act on the data file. *)
Definition main (e : env) (o : SpawnBurstOptions) : M unit :=
  '(re, oldWriter) <- arrive e o ;;
  others e ;;
  critical e o re oldWriter.

(** The status a process that died exits with: [errno] when its low
    byte is not zero, else the exit code in [$?] when that is not zero,
    else 255. *)
Definition die_status (errno child : Z) : Z :=
  if negb (Z.land errno 255 =? 0) then Z.land errno 255
  else if negb (Z.land (Z.shiftr child 8) 255 =? 0)
       then Z.land (Z.shiftr child 8) 255
       else 255.

(** The exit status of the Perl process. *)
Definition exit_status {A} (e : env) (r : result A) (w : world) : Z :=
  match r with
  | Ret _ => 0
  | Exit code => Z.land code 255
  | Die _ => die_status (errno e) (child w)
  end.

End Script.

(* ================================================================== *)
(** ** The Node side (lines 20-98) *)

Module Node.
Import Text Sys Script.

(** [Result]: what the spawned process left behind. *)
Record Result : Type := mkResult {
  status : option Z;                (* number | null *)
  stdout : string;
  stderr : string
}.

(** What the caller of [spawnBurstSync] or [spawnBurst] gets: the
    returned text or a thrown [Error] with its message. *)
Inductive outcome : Type :=
| Returned (text : string)
| Thrown (message : string).

(** The text an outcome carries. *)
Definition text_of (r : outcome) : string :=
  match r with
  | Returned text => text
  | Thrown message => message
  end.

(** The template text of a status. *)
Definition show_status (st : option Z) : string :=
  match st with
  | Some n => dec n
  | None => "null"
  end.

(** [processResult] (lines 74-84). *)
Definition processResult (func : string) (res : Result) : outcome :=
  match status res with
  | Some 0 => Returned (stdout res)
  | st =>
      let stderr := trim (stderr res) in
      Thrown (func ++ "() failed with status " ++ show_status st ++ ": "
                   ++ (if (stderr =? EmptyString)%string
                       then "<empty stderr>" else stderr))
  end.

(** [res] is what Node holds of a process that ran the script to its
    own end, with result [r] in world [w]: the exit status of the
    process and its two streams, whole.  The [status] of a [Result] is
    [None] for a process that did not exit by itself: one that a signal
    ended, as [spawnSync] does to a process whose output outgrows its
    buffer, or one that never started. *)
Definition captured (e : env) (r : result unit) (w : world) (res : Result)
  : Prop :=
  status res = Some (exit_status e r w)
  /\ stdout res = out w /\ stderr res = err w.

(** Spawning [perl] with the command line of [buildCmdLine] on a data
    file [f], for a process that starts and runs the script to its own
    end and whose status and streams Node holds whole: the process
    result, and the world the process leaves.  A process that Node
    ends, that does not start, or a command line that Node refuses, is
    not among the runs this function describes; [processResult] and
    [processError] take any [Result] and any error. *)
Definition spawn (e : env) (o : SpawnBurstOptions) (f : option file)
  : Result * world :=
  let (r, w) := main e o (boot f) in
  (mkResult (Some (exit_status e r w)) (out w) (err w), w).

(** [spawnBurstSync] and [spawnBurst]: they differ in the name they
    report.  [processError] rethrows the error it is given, with the
    same message. *)
Definition run (func : string) (e : env) (o : SpawnBurstOptions)
           (f : option file) : outcome * world :=
  let (res, w) := spawn e o f in
  (processResult func res, w).

Definition spawnBurstSync := run "spawnBurstSync".
Definition spawnBurst := run "spawnBurst".

End Node.

(* ================================================================== *)
(** ** Several invocations on one data file *)

Module Burst.
Import Text Regex Sys Script Node.

(** The world of a process when the data file, which it shares with the
    other processes, holds [f]. *)
Definition on_file (f : option file) (w : world) : world :=
  mkWorld f (out w) (err w) (child w) (log w).

(** A process together with where its script stands. *)
Record proc (A : Type) : Type := mkProc {
  penv : env;
  pres : result A;
  pworld : world
}.
Arguments mkProc {A} penv pres pworld.
Arguments penv {A} p.
Arguments pres {A} p.
Arguments pworld {A} p.

(** Every process of the burst runs lines 127-131 on the data file
    before any of them has written it: that is what the invocations
    being concurrent with a slow command comes to.  The result is the
    queue in front of the singleton lock. *)
Fixpoint arrivals (o : SpawnBurstOptions) (es : list env)
         (f : option file) : list (proc (regex * string)) * option file :=
  match es with
  | [] => ([], f)
  | e :: es' =>
      let (r, w) := arrive e o (boot f) in
      let (q, f') := arrivals o es' (dataFile w) in
      (mkProc e r w :: q, f')
  end.

(** The singleton lock lets the queued processes through lines 135-158
    one at a time, each on the data file as its predecessor left it.  A
    process that died on arrival is no longer in the queue. *)
Fixpoint serve (o : SpawnBurstOptions) (q : list (proc (regex * string)))
         (f : option file) : list (proc unit) * option file :=
  match q with
  | [] => ([], f)
  | p :: q' =>
      match pres p with
      | Ret (re, oldWriter) =>
          let (r, w) :=
            critical (penv p) o re oldWriter (on_file f (pworld p)) in
          let (ps, f') := serve o q' (dataFile w) in
          (mkProc (penv p) r w :: ps, f')
      | Die why =>
          let (ps, f') := serve o q' f in
          (mkProc (penv p) (Die why) (pworld p) :: ps, f')
      | Exit code =>
          let (ps, f') := serve o q' f in
          (mkProc (penv p) (Exit code) (pworld p) :: ps, f')
      end
  end.

(** What the caller behind a finished process gets. *)
Definition outcome_of (func : string) (p : proc unit) : outcome :=
  processResult func
    (mkResult (Some (exit_status (penv p) (pres p) (pworld p)))
              (out (pworld p)) (err (pworld p))).

(** Invocations one after the other, each on the data file as the one
    before left it. *)
Fixpoint in_turn (func : string) (o : SpawnBurstOptions) (es : list env)
         (f : option file) : list outcome * option file :=
  match es with
  | [] => ([], f)
  | e :: es' =>
      let (r, w) := run func e o f in
      let (rs, f') := in_turn func o es' (dataFile w) in
      (r :: rs, f')
  end.

End Burst.

(* ================================================================== *)
(** ** Notions the properties are stated with *)

Module Notions.
Import Text Regex Sys Script Node Burst.

(** Kinds of events. *)
Definition is_exec (ev : event) : bool :=
  match ev with EvExec _ => true | _ => false end.

Definition is_write (ev : event) : bool :=
  match ev with EvPrintFile _ => true | _ => false end.

Definition is_flock (ev : event) : bool :=
  match ev with EvFlock _ _ => true | _ => false end.

Definition is_qr (ev : event) : bool :=
  match ev with EvQr => true | _ => false end.

(** The calls on the lock file. *)
Definition on_lock_file (ev : event) : bool :=
  match ev with
  | EvOpen LockFile | EvFlock LockFile _ => true
  | _ => false
  end.

(** How many events of a kind a log holds. *)
Definition count (k : event -> bool) (l : list event) : nat :=
  List.length (filter k l).

(** How many events of a kind the processes of a burst issued. *)
Definition total {A} (k : event -> bool) (ps : list (proc A)) : nat :=
  fold_right (fun p n => (count k (log (pworld p)) + n)%nat) O ps.

(** The system refuses none of the checked calls of [readCache]. *)
Definition reads_ok (e : env) (k : snap) : Prop :=
  sys_ok e (OpenRead k) = true /\ sys_ok e (FlockRead k) = true
  /\ sys_ok e (SeekRead k) = true.

(** The system refuses none of the checked calls on the lock file. *)
Definition lock_ok (e : env) : Prop :=
  sys_ok e OpenLock = true /\ sys_ok e FlockLock = true.

(** The system refuses no checked call at all. *)
Definition healthy (e : env) : Prop := forall s, sys_ok e s = true.

(** No other process touches the data file during the invocation. *)
Definition alone (e : env) : Prop := forall f, meanwhile e f = f.

(** [f'] is [f], or [f] with its mode set to 0600. *)
Definition kept (f f' : file) : Prop :=
  f' = f \/ f' = mkFile (content f) (mtime f) owner_rw.

(** The events of a [readCache] that returns. *)
Definition read_events (f : file) : list event :=
  [EvOpen DataFile; EvFlock DataFile LOCK_SH; EvSeek; EvSlurp]
  ++ (if (content f =? EmptyString)%string then [] else [EvStat; EvClose]).

(** The events of a [writeCache] that returns. *)
Definition write_events (e : env) (data : string) : list event :=
  [EvOpen DataFile; EvChmod owner_rw; EvFlock DataFile LOCK_EX; EvSeek;
   EvTruncate; EvPrintFile (writer_line e ++ NL ++ data); EvClose].

(** The data file a [writeCache] that returns leaves behind. *)
Definition written (e : env) (data : string) : file :=
  mkFile (writer_line e ++ NL ++ data) (now_write e) owner_rw.

(** The system refuses none of the checked calls of [writeCache]. *)
Definition writes_ok (e : env) : Prop :=
  sys_ok e OpenWrite = true /\ sys_ok e ChmodWrite = true
  /\ sys_ok e FlockWrite = true /\ sys_ok e SeekWrite = true
  /\ sys_ok e TruncateWrite = true.

(** A stretch of log in which no command is run, no pattern compiled
    and nothing printed to the data file. *)
Definition idle (l : list event) : Prop :=
  count is_exec l = O /\ count is_qr l = O /\ count is_write l = O.

(** The world once [qx] has run the command of [o]. *)
Definition after_exec (e : env) (o : SpawnBurstOptions) (w : world) : world :=
  mkWorld (dataFile w) (out w) (err w ++ cmd_stderr (qx e (cmd o)))
          (wait_status (qx e (cmd o))) (log w ++ [EvExec (cmd o)]).

(** The world once the process holds the singleton lock. *)
Definition locked (w : world) : world :=
  mkWorld (dataFile w) (out w) (err w) (child w)
          (log w ++ [EvOpen LockFile; EvFlock LockFile LOCK_EX]).

(** The world after [print $data]. *)
Definition said (s : string) (w : world) : world :=
  mkWorld (dataFile w) (out w ++ s) (err w) (child w) (log w).

(** The world after a [die] with message [s]. *)
Definition moaned (s : string) (w : world) : world :=
  mkWorld (dataFile w) (out w) (err w ++ s) (child w) (log w).

(** The world once the validator is compiled. *)
Definition compiling (w : world) : world :=
  mkWorld (dataFile w) (out w) (err w) (child w) (log w ++ [EvQr]).

(** The world once the others have had their time. *)
Definition waited (e : env) (w : world) : world :=
  mkWorld (meanwhile e (dataFile w)) (out w) (err w) (child w) (log w).

(** The validator as the script compiles it. *)
Definition compiled (o : SpawnBurstOptions) : regex :=
  mkRegex (validator o) (mkMods true false).

(** The writer that [readCache] reports for a data file, when it
    reports one: the first line, or nothing for an absent or empty
    file. *)
Definition first_writer (f0 : option file) : string :=
  match f0 with
  | Some f =>
      if (content f =? EmptyString)%string then EmptyString
      else match parse_record (content f) with
           | Some (writer, _) => writer
           | None => EmptyString
           end
  | None => EmptyString
  end.

(** A data file that [readCache] does not die of. *)
Definition readable (f0 : option file) : Prop :=
  match f0 with
  | Some f => content f = EmptyString \/ parse_record (content f) <> None
  | None => True
  end.

(** A command that succeeds for [e] with an output that is not empty
    and that the validator of [o] is found in. *)
Definition succeeds (o : SpawnBurstOptions) (e : env) : Prop :=
  wait_status (qx e (cmd o)) = 0
  /\ cmd_stdout (qx e (cmd o)) <> EmptyString
  /\ matches (compiled o) (cmd_stdout (qx e (cmd o))) = true.

(** The writer line of [e] is a line, and not the one of [f0]. *)
Definition fresh (f0 : option file) (e : env) : Prop :=
  no_nl (localtime e) = true /\ writer_line e <> first_writer f0.

(** A process queued at the lock with [oldWriter] in hand, nothing
    run, nothing printed. *)
Definition queued (o : SpawnBurstOptions) (oldWriter : string)
           (p : proc (regex * string)) : Prop :=
  pres p = Ret (compiled o, oldWriter)
  /\ out (pworld p) = EmptyString
  /\ count is_exec (log (pworld p)) = O
  /\ count is_write (log (pworld p)) = O.

(** What a block leaves alone: an existing data file, the standard
    output and [$?]. *)
Definition untouched (f : file) (w w' : world) : Prop :=
  dataFile w' = Some f /\ out w' = out w /\ child w' = child w.

End Notions.

(* ================================================================== *)
(** ** Concrete invocations *)

Module Scenario.
Import Text Regex Sys Script Node Burst Notions.

Definition clock (k : snap) : Z :=
  match k with Pre => 1000 | Post => 1005 end.

Definition stamp : string := "Mon Nov  2 12:00:06 2026".

Definition path : string := "/tmp/spawn-burst.cache".

Definition granted (s : site) : bool := true.

(** The command of the package's tests, [echo ok]. *)
Definition echo_ok (c : string) : cmd_result :=
  mkCmd 0 ("ok" ++ NL) EmptyString.

(** [echo bad >&2; exit 1]. *)
Definition exit_one (c : string) : cmd_result :=
  mkCmd 256 EmptyString ("bad" ++ NL).

(** [true]: status 0 and no output. *)
Definition silent (c : string) : cmd_result :=
  mkCmd 0 EmptyString EmptyString.

(** [printf 'a\nb']. *)
Definition two_lines (c : string) : cmd_result :=
  mkCmd 0 ("a" ++ NL ++ "b") EmptyString.

(** A process with identifier [n] for which the system refuses nothing
    and which no other process interferes with. *)
Definition process (n : Z) (run : string -> cmd_result) : env :=
  mkEnv n clock 1006 stamp 420 granted EmptyString 0 run (fun f => f).

(** The data file as the tests create it: empty. *)
Definition empty_file : file := mkFile EmptyString 990 420.

(** A record written three seconds ago by process 17. *)
Definition recent : file :=
  mkFile ("17: Mon Nov  2 12:00:02 2026" ++ NL ++ "ok 17" ++ NL)
         1002 owner_rw.

(** A process that, while it waited for the lock, saw process 17 write
    [recent]. *)
Definition latecomer : env :=
  mkEnv 4242 clock 1006 stamp 420 granted EmptyString 0 echo_ok
        (fun _ => Some recent).

(** A process whose own lock on the data file is refused in
    [writeCache]. *)
Definition unlockable : env :=
  mkEnv 4242 clock 1006 stamp 420
        (fun s => match s with FlockWrite => false | _ => true end)
        "No locks available" 37 echo_ok (fun f => f).

(** The options of the tests: validator [.+], no reuse by age. *)
Definition opts : SpawnBurstOptions :=
  mkOptions "echo ok" path 0 (Plus Any).

(** The same with thirty seconds of reuse. *)
Definition opts30 : SpawnBurstOptions :=
  mkOptions "echo ok" path 30 (Plus Any).

(** Validator [.*], which is found in the empty text. *)
Definition opts_any : SpawnBurstOptions :=
  mkOptions "true" path 0 (Star Any).

(** Validator [^b]. *)
Definition opts_b : SpawnBurstOptions :=
  mkOptions "printf" path 0 (Seq Bol (Chr "b")).

(** A data file cut short inside its writer line. *)
Definition torn : file := mkFile "4242: Mon Nov" 1002 owner_rw.

(** Five processes of a burst. *)
Definition five (run : string -> cmd_result) : list env :=
  [process 101 run; process 102 run; process 103 run;
   process 104 run; process 105 run].

End Scenario.

(* ================================================================== *)
(** ** The error path of the Node side (lines 27-29, 63-65, 86-98) *)

Module Errors.
Import Text Sys Script Node.

Definition quote : ascii := Ascii.ascii_of_nat 34.
Definition backslash : ascii := Ascii.ascii_of_nat 92.

(** The lower-case hexadecimal digit of a number below sixteen. *)
Definition hex_digit (n : nat) : ascii :=
  if (n <? 10)%nat then Ascii.ascii_of_nat (48 + n)
  else Ascii.ascii_of_nat (87 + n).

(** How [JSON.stringify] writes one character of a string: the quote
    and the backslash behind a backslash, the control characters by
    their short escapes or as [\u00XX], every other character as it
    is. *)
Definition escape_char (c : ascii) : string :=
  let n := nat_of_ascii c in
  if (n =? 34)%nat then String backslash (String quote EmptyString)
  else if (n =? 92)%nat then String backslash (String backslash EmptyString)
  else if (n =? 8)%nat then String backslash "b"
  else if (n =? 9)%nat then String backslash "t"
  else if (n =? 10)%nat then String backslash "n"
  else if (n =? 12)%nat then String backslash "f"
  else if (n =? 13)%nat then String backslash "r"
  else if (n <? 32)%nat
       then String backslash
              ("u00" ++ String (hex_digit (n / 16))
                               (String (hex_digit (n mod 16)) EmptyString))
       else String c EmptyString.

Fixpoint escape (s : string) : string :=
  match s with
  | EmptyString => EmptyString
  | String c r => escape_char c ++ escape r
  end.

(** The values an options object holds: texts and whole numbers. *)
Inductive jsval : Type :=
| JString (s : string)
| JNumber (z : Z).

Definition json_value (v : jsval) : string :=
  match v with
  | JString s => String quote (escape s ++ String quote EmptyString)
  | JNumber z => dec z
  end.

Fixpoint json_items (vs : list jsval) : string :=
  match vs with
  | [] => EmptyString
  | [v] => json_value v
  | v :: rest => json_value v ++ "," ++ json_items rest
  end.

(** [JSON.stringify] of an array of such values. *)
Definition json_array (vs : list jsval) : string :=
  "[" ++ json_items vs ++ "]".

(** What a [catch] clause is handed, as far as [processError] looks at
    it: the message, and the stack when it is a string. *)
Record js_error : Type := mkError {
  message : string;
  stack : option string
}.

(** The line that [processError] adds to a stack. *)
Definition annotation (func : string) (values : list jsval) : string :=
  "in " ++ func ++ "(" ++ json_array values ++ ")".

(** [processError] (lines 86-98), with [values] for
    [Object.values(options)]: the error it throws. *)
Definition processError (func : string) (error : js_error)
           (values : list jsval) : js_error :=
  mkError (message error)
          (match stack error with
           | Some st => Some (trimEnd st ++ NL ++ annotation func values)
           | None => None
           end).

(** The text after the last newline of [s], all of [s] when it holds
    none. *)
Fixpoint last_line (s : string) : string :=
  match s with
  | EmptyString => EmptyString
  | String c r =>
      if Ascii.eqb c nl then last_line r
      else if no_nl r then s else last_line r
  end.

(** A text that does not begin with white space. *)
Definition starts_clean (s : string) : Prop :=
  match s with
  | EmptyString => True
  | String c _ => is_space c = false
  end.

End Errors.

(* ================================================================== *)
(** ** Counting over a burst *)

Module Tally.
Import Text Regex Sys Script Node Burst Notions.

Definition is_thrown (r : outcome) : bool :=
  match r with Thrown _ => true | Returned _ => false end.

(** How many callers of a burst were thrown an error. *)
Definition thrown_in (func : string) (ps : list (proc unit)) : nat :=
  List.length (filter (fun p => is_thrown (outcome_of func p)) ps).

(** The command of [o], run by [e], ends with status 0 and an output
    that the validator is found in. *)
Definition works (o : SpawnBurstOptions) (e : env) : bool :=
  (wait_status (qx e (cmd o)) =? 0)
  && matches (compiled o) (cmd_stdout (qx e (cmd o))).

(** Every caller of [ps] that was returned a text was returned [d]. *)
Definition all_returned (func : string) (d : string)
           (ps : list (proc unit)) : Prop :=
  Forall (fun p => forall t, outcome_of func p = Returned t -> t = d) ps.

End Tally.

(* ================================================================== *)
(** ** More concrete invocations *)

Module Cases.
Import Text Regex Sys Script Node Burst Notions Scenario Errors.

(** A second process, whose clock reads [t] at both reads. *)
Definition later (n t : Z) (run : string -> cmd_result) : env :=
  mkEnv n (fun _ => t) (t + 1) "Mon Nov  2 12:00:16 2026" 420 granted
        EmptyString 0 run (fun f => f).

(** [echo again]. *)
Definition echo_again (c : string) : cmd_result :=
  mkCmd 0 ("again" ++ NL) EmptyString.

(** A record whose payload is [bad], which [^ok] is not found in. *)
Definition spoiled : file :=
  mkFile ("17: Mon Nov  2 12:00:02 2026" ++ NL ++ "bad") 1002 owner_rw.

(** A process that, while it waited for the lock, saw process 17 write
    [spoiled]. *)
Definition misled : env :=
  mkEnv 4242 clock 1006 stamp 420 granted EmptyString 0 echo_ok
        (fun _ => Some spoiled).

(** Validator [^ok], thirty seconds of reuse. *)
Definition opts_ok : SpawnBurstOptions :=
  mkOptions "echo ok" path 30 (Seq Bol (Seq (Chr "o") (Chr "k"))).

(** A stack as V8 prints it, and the values of the options of the
    tests. *)
Definition a_stack : string :=
  "Error: boom" ++ NL ++ "    at processResult" ++ NL ++ NL.

(** Five processes of a burst of which the second and the fourth find
    the command working. *)
Definition mixed : list env :=
  [process 101 exit_one; process 102 echo_ok; process 103 exit_one;
   process 104 echo_again; process 105 exit_one].

(** A process whose lock on the lock file the system refuses. *)
Definition unlocked : env :=
  mkEnv 4242 clock 1006 stamp 420
        (fun s => match s with FlockLock => false | _ => true end)
        "No locks available" 37 echo_ok (fun f => f).

(** A process that was killed before it wrote anything but blanks. *)
Definition killed : Result :=
  mkResult None EmptyString ("  " ++ NL).

Definition test_values : list jsval :=
  [JString ("sleep 5 &&" ++ NL ++ "echo ok"); JString path; JNumber 0;
   JString ".+"].

End Cases.

(* ================================================================== *)
(** * Properties *)

Import Text Regex Sys Script Node Burst Notions Errors Tally.

(* ------------------------------------------------------------------ *)
(** ** Text *)

Lemma cut_nl_no_nl (s : string) : no_nl s = true -> cut_nl s = None.
Proof.
  induction s as [|c r IH]; simpl; [reflexivity|].
  intros H. apply andb_true_iff in H as [Hc Hr].
  apply negb_true_iff in Hc. rewrite Hc, (IH Hr). reflexivity.
Qed.

Lemma cut_nl_line (a b : string) :
  no_nl a = true -> cut_nl (a ++ NL ++ b) = Some (a, b).
Proof.
  change (NL ++ b) with (String nl b).
  induction a as [|c r IH]; simpl; intros H.
  - reflexivity.
  - apply andb_true_iff in H as [Hc Hr].
    apply negb_true_iff in Hc. rewrite Hc, (IH Hr). reflexivity.
Qed.

Lemma cut_nl_inv (s a b : string) :
  cut_nl s = Some (a, b) -> s = a ++ NL ++ b /\ no_nl a = true.
Proof.
  revert a b. induction s as [|c r IH]; simpl; intros a b H; [discriminate|].
  destruct (Ascii.eqb c nl) eqn:Hc.
  - inversion H; subst. apply Ascii.eqb_eq in Hc. subst c. now split.
  - destruct (cut_nl r) as [[x y]|] eqn:Hr; [|discriminate].
    inversion H; subst. destruct (IH _ _ eq_refl) as [-> Hx].
    split; [reflexivity|]. simpl. now rewrite Hc, Hx.
Qed.

Lemma eqb_empty (s : string) :
  (s =? EmptyString)%string = true <-> s = EmptyString.
Proof. apply String.eqb_eq. Qed.

Lemma eqb_nonempty (s : string) :
  (s =? EmptyString)%string = false <-> s <> EmptyString.
Proof. apply String.eqb_neq. Qed.

(** A record that parses has a writer line that is not empty and holds
    no newline, and the content is that line, a newline and the data. *)
Lemma parse_record_inv (s writer data : string) :
  parse_record s = Some (writer, data) ->
  s = writer ++ NL ++ data /\ writer <> EmptyString /\ no_nl writer = true.
Proof.
  unfold parse_record. destruct (cut_nl s) as [[a b]|] eqn:H; [|discriminate].
  destruct (a =? EmptyString)%string eqn:Ha; [discriminate|].
  intros E; inversion E; subst. apply cut_nl_inv in H as [-> Hn].
  apply eqb_nonempty in Ha. auto.
Qed.

Lemma parse_record_line (writer data : string) :
  writer <> EmptyString -> no_nl writer = true ->
  parse_record (writer ++ NL ++ data) = Some (writer, data).
Proof.
  intros Hw Hn. unfold parse_record. rewrite (cut_nl_line _ _ Hn).
  apply eqb_nonempty in Hw. now rewrite Hw.
Qed.

Lemma parse_record_no_nl (s : string) :
  no_nl s = true -> parse_record s = None.
Proof. intros H. unfold parse_record. now rewrite (cut_nl_no_nl _ H). Qed.

(* ------------------------------------------------------------------ *)
(** ** The script, block by block *)

Ltac unfold_prims :=
  unfold chmod, truncate, print_file, open_data, checked, slurp,
    stat_mtime, backticks, get_child, get_file, set_file, others,
    emit, print, die, exit, bind, ret in *.

Ltac norm_log := repeat rewrite <- app_assoc in *; simpl in *.

(** On a file that parses, [readCache] returns its snapshot and leaves
    the file as it is. *)
Lemma readCache_snapshot (e : env) (k : snap) (file : string)
      (w : world) (f : Sys.file) (t : string * string * Z) :
  reads_ok e k -> dataFile w = Some f -> snapshot e k f = Some t ->
  readCache e k file w
  = (Ret t, mkWorld (Some f) (out w) (err w) (child w)
                    (log w ++ read_events f)).
Proof.
  intros (Ho & Hf & Hs) Hw Ht. unfold readCache, snapshot, read_events in *.
  unfold_prims. cbn -[append parse_record String.eqb].
  rewrite Ho, Hw. cbn -[append parse_record String.eqb].
  rewrite Hf. cbn -[append parse_record String.eqb].
  rewrite Hs. cbn -[append parse_record String.eqb].
  destruct (content f =? EmptyString)%string.
  - inversion Ht; subst. norm_log. reflexivity.
  - destruct (parse_record (content f)) as [[wr d]|]; [|discriminate].
    inversion Ht; subst. cbn. norm_log. reflexivity.
Qed.

(** On a file that does not parse, [readCache] dies of the format, at
    its first four calls. *)
Lemma readCache_invalid (e : env) (k : snap) (file : string)
      (w : world) (f : Sys.file) :
  reads_ok e k -> dataFile w = Some f -> snapshot e k f = None ->
  readCache e k file w
  = (Die InvalidFormat,
     mkWorld (Some f) (out w) (err w ++ "invalid format of " ++ file ++ NL)
             (child w)
             (log w ++ [EvOpen DataFile; EvFlock DataFile LOCK_SH;
                        EvSeek; EvSlurp])).
Proof.
  intros (Ho & Hf & Hs) Hw Ht. unfold readCache, snapshot in *.
  unfold_prims. cbn -[append parse_record String.eqb].
  rewrite Ho, Hw. cbn -[append parse_record String.eqb].
  rewrite Hf. cbn -[append parse_record String.eqb].
  rewrite Hs. cbn -[append parse_record String.eqb].
  destruct (content f =? EmptyString)%string; [discriminate|].
  destruct (parse_record (content f)) as [[wr d]|]; [discriminate|].
  cbn -[append]. norm_log. reflexivity.
Qed.

(** Where there is no data file, [readCache] creates an empty one and
    returns the empty triple. *)
Lemma readCache_absent (e : env) (k : snap) (file : string) (w : world) :
  reads_ok e k -> dataFile w = None ->
  readCache e k file w
  = (Ret (EmptyString, EmptyString, 0),
     mkWorld (Some (mkFile EmptyString (now e k) (create_mode e)))
             (out w) (err w) (child w)
             (log w ++ [EvOpen DataFile; EvFlock DataFile LOCK_SH;
                        EvSeek; EvSlurp])).
Proof.
  intros (Ho & Hf & Hs) Hw. unfold readCache. unfold_prims.
  cbn -[append parse_record]. rewrite Ho, Hw. cbn -[append parse_record].
  rewrite Hf. cbn -[append parse_record]. rewrite Hs. cbn.
  norm_log. reflexivity.
Qed.

(** Whatever the system does, [readCache] leaves an existing data file,
    stdout and [$?] as they are, and it never exits. *)
Lemma readCache_frame (e : env) (k : snap) (file : string)
      (w w' : world) (f : Sys.file) (r : result (string * string * Z)) :
  dataFile w = Some f -> readCache e k file w = (r, w') ->
  untouched f w w' /\ (forall c, r <> Exit c).
Proof.
  intros Hw. unfold readCache, untouched. unfold_prims.
  cbn -[append parse_record String.eqb]. rewrite Hw.
  destruct (sys_ok e (OpenRead k)); cbn -[append parse_record String.eqb];
    [|intros E; inversion E; subst; simpl; repeat split; congruence].
  destruct (sys_ok e (FlockRead k)); cbn -[append parse_record String.eqb];
    [|intros E; inversion E; subst; simpl; repeat split; congruence].
  destruct (sys_ok e (SeekRead k)); cbn -[append parse_record String.eqb];
    [|intros E; inversion E; subst; simpl; repeat split; congruence].
  destruct (content f =? EmptyString)%string; cbn -[append parse_record];
    [intros E; inversion E; subst; simpl; repeat split; congruence|].
  destruct (parse_record (content f)) as [[wr d]|]; cbn -[append];
    intros E; inversion E; subst; simpl; repeat split; congruence.
Qed.

(** Destructs the next answer of the system that the goal depends on. *)
Ltac fork :=
  match goal with
  | |- context [sys_ok ?e ?s] =>
      let H := fresh "Hsys" in destruct (sys_ok e s) eqn:H
  end.

Ltac close_frame :=
  intros E; inversion E; subst; cbn -[append];
  repeat split; try congruence; eauto.

(** When the system refuses none of its calls, [writeCache] returns and
    leaves the writer line, a newline and the data, with mode 0600. *)
Lemma writeCache_returns (e : env) (file data : string) (w : world) :
  writes_ok e ->
  writeCache e file data w
  = (Ret tt, mkWorld (Some (written e data)) (out w) (err w) (child w)
                     (log w ++ write_events e data)).
Proof.
  intros (H1 & H2 & H3 & H4 & H5).
  unfold writeCache, written, write_events. unfold_prims.
  cbn -[append writer_line]. rewrite H1.
  destruct (dataFile w) as [f|]; cbn -[append writer_line];
    rewrite H2; cbn -[append writer_line];
    rewrite H3; cbn -[append writer_line];
    rewrite H4; cbn -[append writer_line];
    rewrite H5; cbn -[append writer_line];
    norm_log; reflexivity.
Qed.

(** Whatever the system does, [writeCache] never exits; when it returns
    the file is the written one; when it dies an existing file is what
    it was, but for the mode when [chmod] went through. *)
Lemma writeCache_frame (e : env) (file data : string) (w w' : world)
      (r : result unit) :
  writeCache e file data w = (r, w') ->
  out w' = out w /\ child w' = child w
  /\ match r with
     | Ret _ => dataFile w' = Some (written e data)
     | Die _ => forall f, dataFile w = Some f ->
                  exists f', dataFile w' = Some f' /\ kept f f'
     | Exit _ => False
     end.
Proof.
  unfold writeCache, written, kept. unfold_prims.
  cbn -[append writer_line].
  fork; cbn -[append writer_line]; [|close_frame].
  destruct (dataFile w) as [f|] eqn:Hw; cbn -[append writer_line].
  - fork; cbn -[append writer_line]; [|close_frame].
    fork; cbn -[append writer_line];
      [|close_frame; intros ? [= <-]; eauto].
    fork; cbn -[append writer_line];
      [|close_frame; intros ? [= <-]; eauto].
    fork; cbn -[append writer_line];
      [|close_frame; intros ? [= <-]; eauto].
    close_frame.
  - fork; cbn -[append writer_line]; [|close_frame; discriminate].
    fork; cbn -[append writer_line]; [|close_frame; discriminate].
    fork; cbn -[append writer_line]; [|close_frame; discriminate].
    fork; cbn -[append writer_line]; [|close_frame; discriminate].
    close_frame.
Qed.

(* ------------------------------------------------------------------ *)
(** ** Logs *)

Lemma count_app (k : event -> bool) (l1 l2 : list event) :
  count k (l1 ++ l2) = (count k l1 + count k l2)%nat.
Proof. unfold count. now rewrite filter_app, length_app. Qed.

Ltac close_log :=
  intros E; inversion E; subst; cbn -[append]; clear E;
  repeat rewrite <- app_assoc; cbn [app];
  eexists; (split; [reflexivity | repeat split; reflexivity]).

(** [readCache] runs no command, compiles no pattern and prints nothing
    to the file. *)
Lemma readCache_log (e : env) (k : snap) (file : string) (w w' : world)
      (r : result (string * string * Z)) :
  readCache e k file w = (r, w') ->
  exists l, log w' = (log w ++ l)%list /\ idle l.
Proof.
  unfold readCache, idle. unfold_prims.
  cbn -[append parse_record String.eqb].
  fork; cbn -[append parse_record String.eqb]; [|close_log].
  destruct (dataFile w) as [f|]; cbn -[append parse_record String.eqb].
  - fork; cbn -[append parse_record String.eqb]; [|close_log].
    fork; cbn -[append parse_record String.eqb]; [|close_log].
    destruct (content f =? EmptyString)%string;
      cbn -[append parse_record]; [close_log|].
    destruct (parse_record (content f)) as [[wr d]|]; cbn -[append];
      close_log.
  - fork; cbn -[append parse_record String.eqb]; [|close_log].
    fork; cbn -[append parse_record String.eqb]; [|close_log].
    close_log.
Qed.

(** [writeCache] runs no command and compiles no pattern; it prints to
    the file once when it returns and not at all when it dies. *)
Lemma writeCache_log (e : env) (file data : string) (w w' : world)
      (r : result unit) :
  writeCache e file data w = (r, w') ->
  exists l, log w' = (log w ++ l)%list
            /\ count is_exec l = O /\ count is_qr l = O
            /\ count is_write l = match r with Ret _ => 1%nat | _ => O end.
Proof.
  unfold writeCache. unfold_prims. cbn -[append writer_line].
  fork; cbn -[append writer_line]; [|close_log].
  destruct (dataFile w) as [f|]; cbn -[append writer_line].
  - fork; cbn -[append writer_line]; [|close_log].
    fork; cbn -[append writer_line]; [|close_log].
    fork; cbn -[append writer_line]; [|close_log].
    fork; cbn -[append writer_line]; [|close_log].
    close_log.
  - fork; cbn -[append writer_line]; [|close_log].
    fork; cbn -[append writer_line]; [|close_log].
    fork; cbn -[append writer_line]; [|close_log].
    fork; cbn -[append writer_line]; [|close_log].
    close_log.
Qed.

(* ------------------------------------------------------------------ *)
(** ** Running the command and the critical section *)

(** [execute], spelled out: the command runs; a wait status other than
    zero is fatal, then an output that the pattern is not found in;
    otherwise the output is written and returned. *)
Lemma execute_eq (e : env) (o : SpawnBurstOptions) (re : regex) (w : world) :
  execute e o re w
  = let c := qx e (cmd o) in
    let w1 := after_exec e o w in
    if negb (wait_status c =? 0)
    then (Die (NonzeroStatus (wait_status c)),
          moaned ("command exited with nonzero status "
                    ++ dec (wait_status c) ++ NL) w1)
    else if negb (matches re (cmd_stdout c))
    then (Die (NotValid (cmd_stdout c)),
          moaned ("response is not valid: " ++ cmd_stdout c ++ NL) w1)
    else match writeCache e (cacheFile o) (cmd_stdout c) w1 with
         | (Ret _, w2) => (Ret (cmd_stdout c), w2)
         | (Die why, w2) => (Die why, w2)
         | (Exit code, w2) => (Exit code, w2)
         end.
Proof.
  unfold execute, after_exec, moaned.
  unfold backticks, get_child, emit, die, bind, ret.
  cbn -[append writeCache matches dec].
  destruct (wait_status (qx e (cmd o)) =? 0); cbn -[append writeCache matches dec];
    [|reflexivity].
  destruct (matches re (cmd_stdout (qx e (cmd o))));
    cbn -[append writeCache dec]; [|reflexivity].
  destruct (writeCache _ _ _ _) as [[[]| |] w2]; reflexivity.
Qed.

(** [critical], spelled out, when the lock file opens and locks. *)
Lemma critical_eq (e : env) (o : SpawnBurstOptions) (re : regex)
      (oldWriter : string) (w : world) :
  lock_ok e ->
  critical e o re oldWriter w
  = match readCache e Post (cacheFile o) (locked w) with
    | (Ret (writer, data, age), w1) =>
        if reuse_test o re data age then (Exit 0, said data w1)
        else if run_test re oldWriter writer data
        then match execute e o re w1 with
             | (Ret d, w2) => (Ret tt, said d w2)
             | (Die why, w2) => (Die why, w2)
             | (Exit code, w2) => (Exit code, w2)
             end
        else (Ret tt, said data w1)
    | (Die why, w1) => (Die why, w1)
    | (Exit code, w1) => (Exit code, w1)
    end.
Proof.
  intros [Ho Hf]. unfold critical, locked, said.
  unfold checked, emit, die, exit, print, bind, ret.
  cbn -[append readCache execute reuse_test run_test].
  rewrite Ho. cbn -[append readCache execute reuse_test run_test].
  rewrite Hf. cbn -[append readCache execute reuse_test run_test].
  norm_log.
  destruct (readCache _ _ _ _) as [[[[writer data] age]| |] w1];
    try reflexivity.
  destruct (reuse_test o re data age); [reflexivity|].
  destruct (run_test re oldWriter writer data); [|reflexivity].
  destruct (execute e o re w1) as [[d| |] w2]; reflexivity.
Qed.

(** When the lock file does not open or lock, [critical] dies there,
    with the data file, stdout and [$?] as they were. *)
Lemma critical_no_lock (e : env) (o : SpawnBurstOptions) (re : regex)
      (oldWriter : string) (w : world) :
  ~ lock_ok e ->
  exists why msg l,
    critical e o re oldWriter w
    = (Die why, mkWorld (dataFile w) (out w) (err w ++ msg) (child w)
                        (log w ++ l))
    /\ (why = OpenLockFailed \/ why = FlockLockFailed) /\ idle l.
Proof.
  intros H. unfold critical, lock_ok in *.
  unfold checked, emit, die, exit, print, bind, ret.
  cbn -[append readCache execute reuse_test run_test].
  destruct (sys_ok e OpenLock) eqn:Ho;
    cbn -[append readCache execute reuse_test run_test].
  - destruct (sys_ok e FlockLock) eqn:Hf;
      cbn -[append readCache execute reuse_test run_test].
    + exfalso. apply H. auto.
    + norm_log. do 3 eexists. split; [reflexivity|].
      split; [now right|repeat split; reflexivity].
  - do 3 eexists. split; [reflexivity|].
    split; [now left|repeat split; reflexivity].
Qed.

(** [arrive], spelled out. *)
Lemma arrive_eq (e : env) (o : SpawnBurstOptions) (w : world) :
  arrive e o w
  = match readCache e Pre (cacheFile o) (compiling w) with
    | (Ret (oldWriter, _, _), w1) =>
        (Ret (mkRegex (validator o) (mkMods true false), oldWriter), w1)
    | (Die why, w1) => (Die why, w1)
    | (Exit code, w1) => (Exit code, w1)
    end.
Proof.
  unfold arrive, qr, compiling, emit, bind, ret. cbn -[readCache].
  destruct (readCache _ _ _ _) as [[[[ow d] a]| |] w1]; reflexivity.
Qed.

(** [main], spelled out. *)
Lemma main_eq (e : env) (o : SpawnBurstOptions) (w : world) :
  main e o w
  = match arrive e o w with
    | (Ret (re, oldWriter), wa) => critical e o re oldWriter (waited e wa)
    | (Die why, wa) => (Die why, wa)
    | (Exit code, wa) => (Exit code, wa)
    end.
Proof.
  unfold main, others, waited, get_file, set_file, bind, ret.
  destruct (arrive e o w) as [[[re ow]| |] wa]; reflexivity.
Qed.

(** [arrive] compiles the pattern once, runs no command and prints
    nothing to the file. *)
Lemma arrive_log (e : env) (o : SpawnBurstOptions) (w w' : world)
      (r : result (regex * string)) :
  arrive e o w = (r, w') ->
  exists l, log w' = (log w ++ EvQr :: l)%list /\ idle l.
Proof.
  rewrite arrive_eq.
  destruct (readCache _ _ _ _) as [rr w1] eqn:Hr.
  apply readCache_log in Hr as (l & Hl & Hi). cbn in Hl.
  rewrite <- app_assoc in Hl. cbn in Hl.
  destruct rr as [[[ow d] a]| |]; intros E; inversion E; subst; eauto.
Qed.

(** Whatever the system does, [arrive] leaves an existing data file,
    stdout and [$?] as they are and never exits; what it returns is the
    validator compiled under [/s] alone. *)
Lemma arrive_frame (e : env) (o : SpawnBurstOptions) (w w' : world)
      (f : Sys.file) (r : result (regex * string)) :
  dataFile w = Some f -> arrive e o w = (r, w') ->
  untouched f w w'
  /\ match r with
     | Ret (re, _) => re = mkRegex (validator o) (mkMods true false)
     | Die _ => True
     | Exit _ => False
     end.
Proof.
  intros Hw. rewrite arrive_eq.
  destruct (readCache _ _ _ _) as [rr w1] eqn:Hr.
  apply (readCache_frame _ _ _ _ _ f) in Hr as [Hu Hx]; [|exact Hw].
  destruct rr as [[[ow d] a]| |]; intros E; inversion E; subst;
    split; auto.
  exact (Hx _ eq_refl).
Qed.

(** Whatever the system does, [execute] never exits and prints nothing
    to stdout; when it returns, the command ended with status 0, its
    output is what is returned, the pattern is found in it, and the file
    is the written one; when it dies an existing file is what it was,
    but for the mode when [chmod] went through. *)
Lemma execute_frame (e : env) (o : SpawnBurstOptions) (re : regex)
      (w w' : world) (r : result string) :
  execute e o re w = (r, w') ->
  out w' = out w
  /\ match r with
     | Ret d => d = cmd_stdout (qx e (cmd o))
                /\ wait_status (qx e (cmd o)) = 0
                /\ matches re d = true
                /\ dataFile w' = Some (written e d)
     | Die _ => forall f, dataFile w = Some f ->
                  exists f', dataFile w' = Some f' /\ kept f f'
     | Exit _ => False
     end.
Proof.
  rewrite execute_eq. cbv zeta.
  destruct (wait_status (qx e (cmd o)) =? 0) eqn:Hst; cbn [negb].
  2:{ intros E; inversion E; subst. split; [reflexivity|].
      intros f Hf. exists f. cbn. unfold kept. auto. }
  destruct (matches re (cmd_stdout (qx e (cmd o)))) eqn:Hm; cbn [negb].
  2:{ intros E; inversion E; subst. split; [reflexivity|].
      intros f Hf. exists f. cbn. unfold kept. auto. }
  destruct (writeCache _ _ _ _) as [rw w2] eqn:Hw.
  apply writeCache_frame in Hw as (Ho & _ & Hf).
  apply Z.eqb_eq in Hst.
  destruct rw as [[]| |]; intros E; inversion E; subst;
    (split; [exact Ho|]); auto.
Qed.

(** [execute] runs the command once and compiles no pattern; it prints
    to the file once when it returns and not at all when it dies. *)
Lemma execute_log (e : env) (o : SpawnBurstOptions) (re : regex)
      (w w' : world) (r : result string) :
  execute e o re w = (r, w') ->
  exists l, log w' = (log w ++ EvExec (cmd o) :: l)%list
            /\ count is_exec l = O /\ count is_qr l = O
            /\ count is_write l = match r with Ret _ => 1%nat | _ => O end.
Proof.
  rewrite execute_eq. cbv zeta.
  destruct (negb (wait_status (qx e (cmd o)) =? 0)).
  { intros E; inversion E; subst. exists []. cbn. auto. }
  destruct (negb (matches re (cmd_stdout (qx e (cmd o))))).
  { intros E; inversion E; subst. exists []. cbn. auto. }
  destruct (writeCache _ _ _ _) as [rw w2] eqn:Hw.
  apply writeCache_log in Hw as (l & Hl & H1 & H2 & H3).
  cbn in Hl. rewrite <- app_assoc in Hl. cbn in Hl.
  destruct rw as [[]| |]; intros E; inversion E; subst; exists l; auto.
Qed.

Lemma reuse_test_true (o : SpawnBurstOptions) (re : regex)
      (data : string) (age : Z) :
  reuse_test o re data age = true
  <-> data <> EmptyString /\ matches re data = true
      /\ 0 < cacheMaxAgeSec o /\ age < cacheMaxAgeSec o.
Proof.
  unfold reuse_test. rewrite !andb_true_iff, negb_true_iff.
  rewrite eqb_nonempty, !Z.ltb_lt. tauto.
Qed.

Lemma run_test_true (re : regex) (oldWriter writer data : string) :
  run_test re oldWriter writer data = true
  <-> data = EmptyString \/ matches re data = false \/ writer = oldWriter.
Proof.
  unfold run_test. rewrite !orb_true_iff, negb_true_iff.
  rewrite eqb_empty, String.eqb_eq. tauto.
Qed.

(** A process fresh from its start that has gone through [arrive] has
    compiled the pattern once, run nothing, printed nothing to the file
    and nothing to stdout. *)
Lemma boot_arrive_counts (e : env) (o : SpawnBurstOptions)
      (f0 : option Sys.file) (r : result (regex * string)) (wa : world) :
  arrive e o (boot f0) = (r, wa) ->
  count is_exec (log wa) = O /\ count is_qr (log wa) = 1%nat
  /\ count is_write (log wa) = O /\ out wa = EmptyString.
Proof.
  intros H. pose proof (arrive_log _ _ _ _ _ H) as (l & Hl & H1 & H2 & H3).
  cbn in Hl. rewrite Hl.
  change (EvQr :: l) with ([EvQr] ++ l)%list. rewrite !count_app, H1, H2, H3.
  repeat split; try reflexivity.
  revert H. rewrite arrive_eq.
  destruct (readCache _ _ _ _) as [rr w1] eqn:Hr.
  assert (out w1 = EmptyString).
  { clear - Hr. revert Hr. unfold readCache. unfold_prims.
    cbn -[append parse_record String.eqb].
    repeat (fork; cbn -[append parse_record String.eqb]);
      destruct f0 as [f|]; cbn -[append parse_record String.eqb];
      repeat (fork; cbn -[append parse_record String.eqb]);
      try (intros E; inversion E; subst; reflexivity);
      destruct (content f =? EmptyString)%string;
      cbn -[append parse_record];
      try (intros E; inversion E; subst; reflexivity);
      destruct (parse_record (content f)) as [[wr d]|]; cbn -[append];
      intros E; inversion E; subst; reflexivity. }
  destruct rr as [[[ow d] a]| |]; intros E; inversion E; subst; assumption.
Qed.

(* ------------------------------------------------------------------ *)
(** ** Reuse and coalescing *)

(** The critical section on a data file [f1] that parses, when the lock
    is granted and the second read goes through. *)
Lemma critical_on_snapshot (e : env) (o : SpawnBurstOptions) (re : regex)
      (oldWriter : string) (w : world) (f1 : Sys.file)
      (writer data : string) (age : Z) :
  lock_ok e -> reads_ok e Post ->
  dataFile w = Some f1 ->
  snapshot e Post f1 = Some (writer, data, age) ->
  let w1 := mkWorld (Some f1) (out w) (err w) (child w)
                    (log (locked w) ++ read_events f1) in
  critical e o re oldWriter w
  = if reuse_test o re data age then (Exit 0, said data w1)
    else if run_test re oldWriter writer data
    then match execute e o re w1 with
         | (Ret d, w2) => (Ret tt, said d w2)
         | (Die why, w2) => (Die why, w2)
         | (Exit code, w2) => (Exit code, w2)
         end
    else (Ret tt, said data w1).
Proof.
  intros Hl Hr Hw Hs w1. rewrite (critical_eq _ _ _ _ _ Hl).
  rewrite (readCache_snapshot e Post _ (locked w) f1 _ Hr Hw Hs).
  reflexivity.
Qed.

Lemma count_read_events (f : Sys.file) : idle (read_events f).
Proof.
  unfold idle, read_events.
  destruct (content f =? EmptyString)%string; repeat split; reflexivity.
Qed.

(** C2 as the code has it.  When the lock is granted and the second read
    yields the snapshot [(writer, data, age)], the caller is returned
    [data], the command not having been run and nothing having been
    printed to the file, if and only if [data] is not empty, the
    validator is found in it, and either [cacheMaxAgeSec] is positive
    and [age] strictly below it, or the writer of the snapshot is not
    the writer of the first one.  The script ends at the [exit(0)] of
    line 146 exactly in the first of the two cases; in both the data
    file is left as the second read found it. *)
Theorem C2_cached_payload_iff (func : string) (e : env)
        (o : SpawnBurstOptions)
        (f0 : option Sys.file) (re : regex) (oldWriter : string)
        (wa : world) (f1 : Sys.file) (writer data : string) (age : Z)
        (r : result unit) (w' : world) :
  arrive e o (boot f0) = (Ret (re, oldWriter), wa) ->
  lock_ok e -> reads_ok e Post ->
  meanwhile e (dataFile wa) = Some f1 ->
  snapshot e Post f1 = Some (writer, data, age) ->
  main e o (boot f0) = (r, w') ->
  ((fst (run func e o f0) = Returned data
    /\ count is_exec (log w') = O /\ count is_write (log w') = O)
   <-> (data <> EmptyString /\ matches re data = true
        /\ ((0 < cacheMaxAgeSec o /\ age < cacheMaxAgeSec o)
            \/ writer <> oldWriter)))
  /\ (r = Exit 0
      <-> (data <> EmptyString /\ matches re data = true
           /\ 0 < cacheMaxAgeSec o /\ age < cacheMaxAgeSec o))
  /\ (count is_exec (log w') = O ->
      dataFile w' = Some f1 /\ out w' = data
      /\ (r = Exit 0 \/ r = Ret tt)).
Proof.
  intros Ha Hl Hr Hm Hs Hmain.
  pose proof Hmain as Hmain'.
  rewrite main_eq, Ha in Hmain.
  rewrite (critical_on_snapshot e o re oldWriter (waited e wa) f1
             writer data age Hl Hr Hm Hs) in Hmain.
  destruct (boot_arrive_counts _ _ _ _ _ Ha) as (Hx & _ & Hwr & Hout).
  destruct (count_read_events f1) as (R1 & _ & R3).
  rewrite <- reuse_test_true.
  unfold run, spawn. rewrite Hmain'. cbn [fst].
  destruct (reuse_test o re data age) eqn:Hreuse.
  - pose proof (proj1 (reuse_test_true _ _ _ _) Hreuse) as (Hd & Hv & Hage).
    inversion Hmain; subst. cbn -[count read_events]. rewrite Hout.
    rewrite !count_app, Hx, Hwr, R1, R3. cbn.
    repeat split; auto.
  - destruct (run_test re oldWriter writer data) eqn:Hrun.
    + destruct (execute e o re _) as [rx w2] eqn:He.
      pose proof (execute_frame _ _ _ _ _ _ He) as [_ Hf].
      apply execute_log in He as (l & Hlog & E1 & _).
      assert (count is_exec (log w2) = 1%nat) as Hc.
      { rewrite Hlog. cbn [log locked waited].
        change (EvExec (cmd o) :: l) with ([EvExec (cmd o)] ++ l)%list.
        rewrite !count_app, Hx, R1, E1. reflexivity. }
      assert (count is_exec (log w') = 1%nat) as Hc'.
      { destruct rx as [d| |]; inversion Hmain; subst; exact Hc. }
      assert (r <> Exit 0) as Hne.
      { destruct rx as [d| |]; inversion Hmain; subst;
          [discriminate|discriminate|destruct Hf]. }
      rewrite Hc'. apply run_test_true in Hrun.
      split; [|split; [|discriminate]].
      * split; [intros (_ & H & _); discriminate|].
        intros (Hd & Hv & [[H1 H2]|H]).
        -- assert (reuse_test o re data age = true) as Ht
             by (apply reuse_test_true; auto). congruence.
        -- destruct Hrun as [E|[E|E]]; congruence.
      * split; [intros E; now elim Hne|discriminate].
    + assert (data <> EmptyString /\ matches re data = true
              /\ writer <> oldWriter) as (Hd & Hv & Hw).
      { repeat split.
        - intros E.
          assert (run_test re oldWriter writer data = true) as Ht
            by (apply run_test_true; auto). congruence.
        - destruct (matches re data) eqn:Em; [reflexivity|].
          assert (run_test re oldWriter writer data = true) as Ht
            by (apply run_test_true; auto). congruence.
        - intros E.
          assert (run_test re oldWriter writer data = true) as Ht
            by (apply run_test_true; auto). congruence. }
      inversion Hmain; subst. cbn -[count read_events]. rewrite Hout.
      rewrite !count_app, Hx, Hwr, R1, R3. cbn.
      split; [|split]; [intuition| |intuition].
      split; [discriminate|]. intros [=].
Qed.

(** C1.  When the second snapshot holds a payload that is not empty and
    that the validator is found in, and the test of line 144 fails, the
    command is run exactly when the writer of the second snapshot is the
    writer of the first; when the two differ, the script runs nothing,
    prints nothing to the file, leaves it as the others made it, and the
    caller is returned the payload of the second snapshot. *)
Theorem C1_run_iff_same_writer (e : env) (o : SpawnBurstOptions)
        (f0 : option Sys.file) (re : regex) (oldWriter : string)
        (wa : world) (f1 : Sys.file) (writer data : string) (age : Z)
        (r : result unit) (w' : world) :
  arrive e o (boot f0) = (Ret (re, oldWriter), wa) ->
  lock_ok e -> reads_ok e Post ->
  meanwhile e (dataFile wa) = Some f1 ->
  snapshot e Post f1 = Some (writer, data, age) ->
  data <> EmptyString -> matches re data = true ->
  reuse_test o re data age = false ->
  main e o (boot f0) = (r, w') ->
  (count is_exec (log w') = 1%nat <-> writer = oldWriter)
  /\ (writer <> oldWriter ->
      count is_exec (log w') = O /\ count is_write (log w') = O
      /\ dataFile w' = Some f1 /\ r = Ret tt /\ out w' = data
      /\ forall func, fst (run func e o f0) = Returned data).
Proof.
  intros Ha Hl Hr Hm Hs Hd Hv Hreuse Hmain.
  pose proof Hmain as Hmain'.
  rewrite main_eq, Ha in Hmain.
  rewrite (critical_on_snapshot e o re oldWriter (waited e wa) f1
             writer data age Hl Hr Hm Hs), Hreuse in Hmain.
  destruct (boot_arrive_counts _ _ _ _ _ Ha) as (Hx & _ & Hwr & Hout).
  destruct (count_read_events f1) as (R1 & _ & R3).
  destruct (run_test re oldWriter writer data) eqn:Hrun.
  - apply run_test_true in Hrun as [H|[H|H]]; try congruence.
    split; [|intros; contradiction]. split; [intros _; exact H|intros _].
    destruct (execute e o re _) as [rx w2] eqn:He.
    apply execute_log in He as (l & Hlog & E1 & _).
    assert (count is_exec (log w2) = 1%nat) as Hc.
    { rewrite Hlog. cbn [log locked waited].
      change (EvExec (cmd o) :: l) with ([EvExec (cmd o)] ++ l)%list.
      rewrite !count_app, Hx, R1, E1. reflexivity. }
    destruct rx as [d| |]; inversion Hmain; subst; exact Hc.
  - assert (writer <> oldWriter) as Hne.
    { intros E. assert (run_test re oldWriter writer data = true) as Ht
        by (apply run_test_true; auto). congruence. }
    inversion Hmain; subst. cbn -[count read_events]. rewrite Hout.
    rewrite !count_app, Hx, Hwr, R1, R3. cbn.
    split; [split; [discriminate|intros; contradiction]|].
    intros _. repeat split; try reflexivity.
    intros func. unfold run, spawn. rewrite Hmain'. cbn.
    rewrite Hout. reflexivity.
Qed.

(* ------------------------------------------------------------------ *)
(** ** What an invocation can do to the data file *)

Lemma lock_ok_dec (e : env) : lock_ok e \/ ~ lock_ok e.
Proof.
  unfold lock_ok.
  destruct (sys_ok e OpenLock), (sys_ok e FlockLock); intuition congruence.
Qed.

(** Whatever the system does, the critical section exits only with
    status 0 and with the data file as it found it; when it dies an
    existing file is what it was, but for the mode when [chmod] went
    through; when it returns the file is as it was or the written one. *)
Lemma critical_frame (e : env) (o : SpawnBurstOptions) (re : regex)
      (oldWriter : string) (w w' : world) (f : Sys.file) (r : result unit) :
  dataFile w = Some f -> critical e o re oldWriter w = (r, w') ->
  match r with
  | Ret _ => dataFile w' = Some f
             \/ dataFile w' = Some (written e (cmd_stdout (qx e (cmd o))))
  | Die _ => exists f', dataFile w' = Some f' /\ kept f f'
  | Exit code => code = 0 /\ dataFile w' = Some f
  end.
Proof.
  intros Hw. destruct (lock_ok_dec e) as [Hl|Hl].
  - rewrite (critical_eq _ _ _ _ _ Hl).
    destruct (readCache _ _ _ _) as [rr w1] eqn:Hr.
    apply (readCache_frame _ _ _ _ _ f) in Hr as [(Hf1 & _) Hx];
      [|exact Hw].
    destruct rr as [[[writer data] age]| |].
    + destruct (reuse_test o re data age).
      { intros E; inversion E; subst. cbn. auto. }
      destruct (run_test re oldWriter writer data).
      * destruct (execute e o re w1) as [rx w2] eqn:He.
        apply execute_frame in He as [_ He].
        destruct rx as [d| |]; intros E; inversion E; subst; cbn.
        -- destruct He as (-> & _ & _ & ->). now right.
        -- exact (He _ Hf1).
        -- destruct He.
      * intros E; inversion E; subst. cbn. now left.
    + intros E; inversion E; subst. exists f. unfold kept. auto.
    + exfalso. exact (Hx _ eq_refl).
  - destruct (critical_no_lock e o re oldWriter w Hl)
      as (why & msg & l & -> & _).
    intros E; inversion E; subst. cbn. exists f. unfold kept. auto.
Qed.

(** The critical section compiles no pattern, runs the command at most
    once, prints to the file only after running the command, and only
    when it returns. *)
Lemma critical_log (e : env) (o : SpawnBurstOptions) (re : regex)
      (oldWriter : string) (w w' : world) (r : result unit) :
  critical e o re oldWriter w = (r, w') ->
  exists l, log w' = (log w ++ l)%list
            /\ count is_qr l = O
            /\ (count is_exec l <= 1)%nat
            /\ (count is_write l <= count is_exec l)%nat
            /\ match r with
               | Ret _ => True
               | _ => count is_write l = O
               end.
Proof.
  destruct (lock_ok_dec e) as [Hl|Hl].
  - rewrite (critical_eq _ _ _ _ _ Hl).
    destruct (readCache _ _ _ _) as [rr w1] eqn:Hr.
    apply readCache_log in Hr as (l1 & Hl1 & R1 & R2 & R3).
    cbn [log locked] in Hl1. rewrite <- app_assoc in Hl1.
    assert (forall k, k = is_exec \/ k = is_qr \/ k = is_write ->
              count k ([EvOpen LockFile; EvFlock LockFile LOCK_EX] ++ l1)
              = O) as Hz.
    { intros k [->|[->| ->]]; rewrite count_app; cbn; assumption. }
    assert (forall rr', exists l, log w1 = (log w ++ l)%list
              /\ count is_qr l = O /\ (count is_exec l <= 1)%nat
              /\ (count is_write l <= count is_exec l)%nat
              /\ match rr' : result unit with
                 | Ret _ => True | _ => count is_write l = O end) as Hidle.
    { intros rr'. eexists. split; [exact Hl1|].
      rewrite !Hz by auto. repeat split; auto. destruct rr'; auto. }
    destruct rr as [[[writer data] age]| |].
    + destruct (reuse_test o re data age).
      { intros E; inversion E; subst. exact (Hidle (Exit 0)). }
      destruct (run_test re oldWriter writer data).
      * destruct (execute e o re w1) as [rx w2] eqn:He.
        apply execute_log in He as (l2 & Hl2 & E1 & E2 & E3).
        rewrite Hl1, <- app_assoc in Hl2.
        assert (exists l, log w2 = (log w ++ l)%list
                  /\ count is_qr l = O /\ count is_exec l = 1%nat
                  /\ count is_write l
                     = match rx with Ret _ => 1%nat | _ => O end) as Hx.
        { eexists. split; [exact Hl2|].
          change (EvExec (cmd o) :: l2) with ([EvExec (cmd o)] ++ l2)%list.
          rewrite !count_app, E1, E2, E3, R1, R2, R3. cbn. auto. }
        destruct Hx as (l & Hlog & Q & X & W).
        destruct rx as [d| |]; intros E; inversion E; subst;
          exists l; cbn [log said]; rewrite Q, X, W;
          repeat split; auto.
      * intros E; inversion E; subst. exact (Hidle (Ret tt)).
    + intros E; inversion E; subst. exact (Hidle (Die why)).
    + intros E; inversion E; subst. exact (Hidle (Exit code)).
  - destruct (critical_no_lock e o re oldWriter w Hl)
      as (why & msg & l & -> & _ & (I1 & I2 & I3)).
    intros E; inversion E; subst. cbn. exists l. rewrite I1, I2, I3.
    repeat split; auto.
Qed.

(** An invocation that no other process interferes with, on an existing
    data file. *)
Lemma main_frame (e : env) (o : SpawnBurstOptions) (f : Sys.file)
      (r : result unit) (w' : world) :
  alone e -> main e o (boot (Some f)) = (r, w') ->
  match r with
  | Ret _ => dataFile w' = Some f
             \/ dataFile w' = Some (written e (cmd_stdout (qx e (cmd o))))
  | Die _ => exists f', dataFile w' = Some f' /\ kept f f'
  | Exit code => code = 0 /\ dataFile w' = Some f
  end.
Proof.
  intros Hal. rewrite main_eq.
  destruct (arrive e o (boot (Some f))) as [ra wa] eqn:Ha.
  apply (arrive_frame _ _ _ _ f) in Ha as [(Hf & _) Hx]; [|reflexivity].
  destruct ra as [[re ow]| |].
  - apply critical_frame. cbn. now rewrite Hal.
  - intros E; inversion E; subst. exists f. unfold kept. auto.
  - destruct Hx.
Qed.

(** An invocation compiles the pattern once, runs the command at most
    once, and prints to the file at most once, after running the
    command and only when the script returns. *)
Lemma main_log (e : env) (o : SpawnBurstOptions) (f0 : option Sys.file)
      (r : result unit) (w' : world) :
  main e o (boot f0) = (r, w') ->
  count is_qr (log w') = 1%nat
  /\ (count is_exec (log w') <= 1)%nat
  /\ (count is_write (log w') <= count is_exec (log w'))%nat
  /\ match r with
     | Ret _ => True
     | _ => count is_write (log w') = O
     end.
Proof.
  rewrite main_eq.
  destruct (arrive e o (boot f0)) as [ra wa] eqn:Ha.
  destruct (boot_arrive_counts _ _ _ _ _ Ha) as (X & Q & W & _).
  destruct ra as [[re ow]| |].
  - intros Hc. apply critical_log in Hc as (l & Hl & Q' & X' & W' & D).
    cbn [log waited] in Hl. rewrite Hl, !count_app, X, Q, W, Q'.
    cbn. repeat split; auto.
  - intros E; inversion E; subst. rewrite X, Q, W. auto.
  - intros E; inversion E; subst. rewrite X, Q, W. auto.
Qed.

Lemma die_status_nonzero (a b : Z) : die_status a b <> 0.
Proof.
  unfold die_status.
  destruct (Z.land a 255 =? 0) eqn:Ha; cbn [negb].
  - destruct (Z.land (Z.shiftr b 8) 255 =? 0) eqn:Hb; cbn [negb].
    + discriminate.
    + now apply Z.eqb_neq.
  - now apply Z.eqb_neq.
Qed.

(** [processResult] on status 0, and on any other status. *)
Lemma processResult_returned (func : string) (res : Result) :
  status res = Some 0 -> processResult func res = Returned (stdout res).
Proof. unfold processResult. now intros ->. Qed.

Lemma processResult_thrown (func : string) (res : Result) :
  status res <> Some 0 ->
  processResult func res
  = Thrown (func ++ "() failed with status " ++ show_status (status res)
                 ++ ": " ++ (if (trim (stderr res) =? EmptyString)%string
                             then "<empty stderr>" else trim (stderr res))).
Proof.
  unfold processResult. intros H.
  destruct (status res) as [[|p|p]|]; try reflexivity. congruence.
Qed.

(** The caller is thrown an error exactly when the script died. *)
Lemma thrown_iff_died (func : string) (e : env) (o : SpawnBurstOptions)
      (f : Sys.file) (r : result unit) (w' : world) :
  alone e -> main e o (boot (Some f)) = (r, w') ->
  (exists msg, fst (run func e o (Some f)) = Thrown msg)
  <-> (exists why, r = Die why).
Proof.
  intros Hal Hm. pose proof (main_frame _ _ _ _ _ Hal Hm) as Hf.
  unfold run, spawn. rewrite Hm. cbn [fst].
  destruct r as [[]| why| code].
  - rewrite processResult_returned by reflexivity.
    split; intros [x Hx]; discriminate.
  - rewrite processResult_thrown; [split; eauto|].
    cbn. intros [= H]. exact (die_status_nonzero _ _ H).
  - destruct Hf as [-> _]. rewrite processResult_returned by reflexivity.
    split; intros [x Hx]; discriminate.
Qed.

(** When the critical section returns, either it ran nothing and the
    data file is as it found it, or it ran the command once, the command
    ended with status 0, the pattern is found in its output, and the
    file is the written one, printed to once. *)
Lemma critical_ret (e : env) (o : SpawnBurstOptions) (re : regex)
      (oldWriter : string) (w w' : world) (f : Sys.file) :
  dataFile w = Some f -> critical e o re oldWriter w = (Ret tt, w') ->
  exists l, log w' = (log w ++ l)%list
    /\ ((dataFile w' = Some f
         /\ count is_exec l = O /\ count is_write l = O)
        \/ (dataFile w' = Some (written e (cmd_stdout (qx e (cmd o))))
            /\ count is_exec l = 1%nat /\ count is_write l = 1%nat
            /\ wait_status (qx e (cmd o)) = 0
            /\ matches re (cmd_stdout (qx e (cmd o))) = true)).
Proof.
  intros Hw. destruct (lock_ok_dec e) as [Hl|Hl].
  2:{ destruct (critical_no_lock e o re oldWriter w Hl)
        as (why & msg & l & -> & _). discriminate. }
  rewrite (critical_eq _ _ _ _ _ Hl).
  destruct (readCache _ _ _ _) as [rr w1] eqn:Hr.
  pose proof (readCache_log _ _ _ _ _ _ Hr) as (l1 & Hl1 & R1 & R2 & R3).
  apply (readCache_frame _ _ _ _ _ f) in Hr as [(Hf1 & _) Hx]; [|exact Hw].
  cbn [log locked] in Hl1. rewrite <- app_assoc in Hl1.
  destruct rr as [[[writer data] age]| |]; try discriminate.
  destruct (reuse_test o re data age); [discriminate|].
  destruct (run_test re oldWriter writer data).
  - destruct (execute e o re w1) as [rx w2] eqn:He.
    pose proof (execute_log _ _ _ _ _ _ He) as (l2 & Hl2 & E1 & E2 & E3).
    apply execute_frame in He as [_ He].
    destruct rx as [d| |]; try discriminate.
    intros E; inversion E; subst. cbn [log said dataFile].
    destruct He as (-> & Hst & Hm & Hfile).
    rewrite Hl1, <- app_assoc in Hl2.
    eexists. split; [exact Hl2|]. right.
    change (EvExec (cmd o) :: l2) with ([EvExec (cmd o)] ++ l2)%list.
    rewrite !count_app, E1, E3, R1, R3. cbn. auto.
  - intros E; inversion E; subst. cbn [log said dataFile].
    eexists. split; [exact Hl1|]. left.
    rewrite !count_app, R1, R3. cbn. auto.
Qed.

(** C6.  An invocation that ends in a thrown error, on an existing data
    file that no other process touches meanwhile, has printed nothing to
    the file and leaves its content and its modification time as they
    were.  Every way the script can die is covered: at the lock file, in
    either read, on a wait status other than zero, on an output that
    fails the validator, and in the checked calls of the write. *)
Theorem C6_failure_keeps_file (func : string) (e : env)
        (o : SpawnBurstOptions) (f : Sys.file) (msg : string) (w' : world) :
  alone e ->
  run func e o (Some f) = (Thrown msg, w') ->
  exists f', dataFile w' = Some f'
             /\ content f' = content f /\ mtime f' = mtime f
             /\ count is_write (log w') = O.
Proof.
  intros Hal Hrun.
  destruct (main e o (boot (Some f))) as [r w1] eqn:Hm.
  assert (w1 = w') as ->.
  { revert Hrun. unfold run, spawn. rewrite Hm. now intros [= _ ->]. }
  destruct (proj1 (thrown_iff_died func e o f r w' Hal Hm)) as [why ->].
  { exists msg. now rewrite Hrun. }
  destruct (main_frame _ _ _ _ _ Hal Hm) as (f' & Hf & Hk).
  destruct (main_log _ _ _ _ _ Hm) as (_ & _ & _ & Hw).
  exists f'. split; [exact Hf|].
  destruct Hk as [->| ->]; cbn; auto.
Qed.

(* ------------------------------------------------------------------ *)
(** ** A command that fails *)

(** Whatever the data file is, a [readCache] that returns has written
    nothing to either stream. *)
Lemma readCache_streams (e : env) (k : snap) (file : string)
      (w w' : world) (t : string * string * Z) :
  readCache e k file w = (Ret t, w') ->
  out w' = out w /\ err w' = err w /\ child w' = child w.
Proof.
  unfold readCache. unfold_prims. cbn -[append parse_record String.eqb].
  fork; cbn -[append parse_record String.eqb]; [|discriminate].
  destruct (dataFile w) as [f|]; cbn -[append parse_record String.eqb].
  - fork; cbn -[append parse_record String.eqb]; [|discriminate].
    fork; cbn -[append parse_record String.eqb]; [|discriminate].
    destruct (content f =? EmptyString)%string; cbn -[append parse_record].
    + intros E; inversion E; subst; cbn; auto.
    + destruct (parse_record (content f)) as [[wr d]|]; cbn -[append];
        [|discriminate].
      intros E; inversion E; subst; cbn; auto.
  - fork; cbn -[append parse_record String.eqb]; [|discriminate].
    fork; cbn -[append parse_record String.eqb]; [|discriminate].
    intros E; inversion E; subst; cbn; auto.
Qed.

Lemma arrive_streams (e : env) (o : SpawnBurstOptions) (w w' : world)
      (re : regex) (oldWriter : string) :
  arrive e o w = (Ret (re, oldWriter), w') ->
  out w' = out w /\ err w' = err w /\ child w' = child w
  /\ re = mkRegex (validator o) (mkMods true false).
Proof.
  rewrite arrive_eq.
  destruct (readCache _ _ _ _) as [[[[ow d] a]| |] w1] eqn:Hr;
    try discriminate.
  apply readCache_streams in Hr as (H1 & H2 & H3).
  intros E; inversion E; subst. cbn in *. auto.
Qed.

Lemma trimStart_app (a : string) (c : ascii) (t : string) :
  is_space c = false ->
  trimStart (a ++ String c t) = trimStart a ++ String c t.
Proof.
  intros Hc. induction a as [|x a IH]; cbn.
  - now rewrite Hc.
  - destruct (is_space x); [exact IH|reflexivity].
Qed.

Lemma trimEnd_app (a : string) (c : ascii) (t : string) :
  is_space c = false ->
  exists t', trimEnd (a ++ String c t) = a ++ String c t'.
Proof.
  intros Hc. induction a as [|x a [t' IH]]; cbn.
  - destruct (trimEnd t); [rewrite Hc|]; eauto.
  - rewrite IH. exists t'. destruct a; reflexivity.
Qed.

(** Trimming a text that is followed by a character other than white
    space keeps that text, but for its leading white space. *)
Lemma trim_app (a : string) (c : ascii) (t : string) :
  is_space c = false ->
  exists t', trim (a ++ String c t) = trimStart a ++ String c t'.
Proof.
  intros Hc. unfold trim. rewrite (trimStart_app _ _ _ Hc).
  apply trimEnd_app, Hc.
Qed.

Lemma app_nonempty (a : string) (c : ascii) (t : string) :
  (a ++ String c t =? EmptyString)%string = false.
Proof. apply eqb_nonempty. destruct a; discriminate. Qed.

Lemma append_assoc (a b c : string) : (a ++ b) ++ c = a ++ b ++ c.
Proof. induction a as [|x a IH]; cbn; [reflexivity|now rewrite IH]. Qed.

(** C7.  In an invocation that ran the command and whose command ended
    with a wait status other than zero, the script dies at line 153
    having printed nothing to the file, and an existing file that no
    other process touches is left as it was.  The process's stderr is
    what the command wrote there followed by the script's own complaint;
    the caller is thrown an error whose message ends with that stderr,
    trimmed, so that it holds the command's stderr text, but for its
    leading white space.  The placeholder stands in only for a stderr
    that is empty once trimmed, which it is not here. *)
Theorem C7_nonzero_status_throws (func : string) (e : env)
        (o : SpawnBurstOptions) (f0 : option Sys.file)
        (r : result unit) (w' : world) :
  main e o (boot f0) = (r, w') ->
  count is_exec (log w') = 1%nat ->
  wait_status (qx e (cmd o)) <> 0 ->
  let c := qx e (cmd o) in
  r = Die (NonzeroStatus (wait_status c))
  /\ count is_write (log w') = O
  /\ (forall f, f0 = Some f -> alone e -> dataFile w' = Some f)
  /\ err w' = cmd_stderr c ++ "command exited with nonzero status "
                ++ dec (wait_status c) ++ NL
  /\ fst (run func e o f0)
     = Thrown (func ++ "() failed with status "
                    ++ dec (die_status (errno e) (wait_status c)) ++ ": "
                    ++ (if (trim (err w') =? EmptyString)%string
                        then "<empty stderr>" else trim (err w')))
  /\ (exists rest,
        trim (err w') = trimStart (cmd_stderr c)
                          ++ "command exited with nonzero status" ++ rest)
  /\ includes (text_of (fst (run func e o f0))) (trimStart (cmd_stderr c)).
Proof.
  intros Hm Hx Hst c. pose proof Hm as Hm'. rewrite main_eq in Hm.
  destruct (arrive e o (boot f0)) as [ra wa] eqn:Ha.
  destruct (boot_arrive_counts _ _ _ _ _ Ha) as (X0 & _ & W0 & _).
  destruct ra as [[re ow]| |];
    try (inversion Hm; subst; rewrite X0 in Hx; discriminate).
  pose proof (arrive_streams _ _ _ _ _ _ Ha) as (_ & Ea & _ & _).
  cbn in Ea.
  destruct (lock_ok_dec e) as [Hl|Hl].
  2:{ destruct (critical_no_lock e o re ow (waited e wa) Hl)
        as (why & msg & l & Hc & _ & (I1 & _)).
      rewrite Hc in Hm. inversion Hm; subst.
      cbn [log said] in Hx. rewrite count_app, X0, I1 in Hx. discriminate. }
  rewrite (critical_eq _ _ _ _ _ Hl) in Hm.
  destruct (readCache e Post _ _) as [rr w1] eqn:Hr.
  pose proof (readCache_log _ _ _ _ _ _ Hr) as (l1 & Hl1 & R1 & _ & R3).
  cbn [log locked waited] in Hl1.
  assert (count is_exec (log w1) = O) as X1.
  { rewrite Hl1, !count_app, X0, R1. reflexivity. }
  assert (count is_write (log w1) = O) as W1.
  { rewrite Hl1, !count_app, W0, R3. reflexivity. }
  destruct rr as [[[writer data] age]| |];
    try (inversion Hm; subst; rewrite X1 in Hx; discriminate).
  pose proof (readCache_streams _ _ _ _ _ _ Hr) as (_ & E1 & _).
  cbn in E1. rewrite Ea in E1.
  destruct (reuse_test o re data age);
    [inversion Hm; subst; cbn [log said] in Hx; rewrite X1 in Hx; discriminate|].
  destruct (run_test re ow writer data);
    [|inversion Hm; subst; cbn [log said] in Hx; rewrite X1 in Hx; discriminate].
  rewrite execute_eq in Hm. cbv zeta in Hm.
  apply Z.eqb_neq in Hst.
  rewrite Hst in Hm. cbn [negb] in Hm. injection Hm as <- <-.
  assert (err (moaned ("command exited with nonzero status "
                         ++ dec (wait_status (qx e (cmd o))) ++ NL)
                      (after_exec e o w1))
          = cmd_stderr c ++ "command exited with nonzero status "
              ++ dec (wait_status c) ++ NL) as Herr.
  { cbn [err moaned after_exec]. rewrite E1. reflexivity. }
  split; [reflexivity|]. split.
  { cbn [log moaned after_exec]. rewrite count_app, W1. reflexivity. }
  split.
  { intros f -> Hal. cbn [dataFile moaned after_exec].
    apply (arrive_frame _ _ _ _ f) in Ha as [(Hfa & _) _]; [|reflexivity].
    apply (readCache_frame _ _ _ _ _ f) in Hr as [(Hf1 & _) _];
      [exact Hf1|]. cbn. now rewrite Hfa, Hal. }
  split; [exact Herr|].
  assert (fst (run func e o f0)
          = Thrown (func ++ "() failed with status "
                      ++ dec (die_status (errno e) (wait_status c)) ++ ": "
                      ++ (if (trim (err (moaned
                                  ("command exited with nonzero status "
                                     ++ dec (wait_status (qx e (cmd o)))
                                     ++ NL)
                                  (after_exec e o w1))) =? EmptyString)%string
                          then "<empty stderr>"
                          else trim (err (moaned
                                  ("command exited with nonzero status "
                                     ++ dec (wait_status (qx e (cmd o)))
                                     ++ NL)
                                  (after_exec e o w1)))))) as Hrun.
  { unfold run, spawn. rewrite Hm'. cbn [fst].
    rewrite processResult_thrown.
    - reflexivity.
    - cbn. intros [= H]. exact (die_status_nonzero _ _ H). }
  split; [exact Hrun|].
  cut (exists rest,
         trim (err (moaned ("command exited with nonzero status "
                              ++ dec (wait_status (qx e (cmd o))) ++ NL)
                           (after_exec e o w1)))
         = trimStart (cmd_stderr c)
             ++ "command exited with nonzero status" ++ rest).
  { intros [rest Hrest]. split; [exists rest; exact Hrest|].
    rewrite Hrun, Hrest. cbn [text_of].
    rewrite (app_nonempty (trimStart (cmd_stderr c)) "c"
               ("ommand exited with nonzero status" ++ rest)
             : (_ ++ "command exited with nonzero status" ++ _ =? _)%string
               = _).
    exists (func ++ "() failed with status "
                 ++ dec (die_status (errno e) (wait_status c)) ++ ": "),
           ("command exited with nonzero status" ++ rest).
    now rewrite !append_assoc. }
  match goal with
  | |- context [trim ?x] =>
      replace x with (cmd_stderr c ++ "command exited with nonzero status "
                        ++ dec (wait_status c) ++ NL)
        by (symmetry; exact Herr)
  end.
  change ("command exited with nonzero status "
            ++ dec (wait_status c) ++ NL)
    with ("command exited with nonzero statu"
            ++ String "s" (" " ++ dec (wait_status c) ++ NL)).
  unfold trim.
  change ("command exited with nonzero statu"
            ++ String "s" (" " ++ dec (wait_status c) ++ NL))
    with (String "c" ("ommand exited with nonzero statu"
            ++ String "s" (" " ++ dec (wait_status c) ++ NL))).
  rewrite trimStart_app by reflexivity.
  change (String "c" ("ommand exited with nonzero statu"
            ++ String "s" (" " ++ dec (wait_status c) ++ NL)))
    with ("command exited with nonzero statu"
            ++ String "s" (" " ++ dec (wait_status c) ++ NL)).
  rewrite <- append_assoc.
  destruct (trimEnd_app (trimStart (cmd_stderr c)
                           ++ "command exited with nonzero statu")
                        "s" (" " ++ dec (wait_status c) ++ NL) eq_refl)
    as [t' ->].
  exists t'. rewrite append_assoc. reflexivity.
Qed.

(* ------------------------------------------------------------------ *)
(** ** An invocation that runs the command *)

(** An invocation whose log holds a run of the command went through both
    reads and the lock without a word on either stream, and ends as
    [execute] ends. *)
Lemma main_executed (e : env) (o : SpawnBurstOptions)
      (f0 : option Sys.file) (r : result unit) (w' : world) :
  main e o (boot f0) = (r, w') ->
  count is_exec (log w') = 1%nat ->
  exists w1 rx w2,
    execute e o (compiled o) w1 = (rx, w2)
    /\ out w1 = EmptyString /\ err w1 = EmptyString
    /\ count is_exec (log w1) = O /\ count is_write (log w1) = O
    /\ (forall f, f0 = Some f -> alone e -> dataFile w1 = Some f)
    /\ match rx with
       | Ret d => r = Ret tt /\ w' = said d w2
       | Die why => r = Die why /\ w' = w2
       | Exit _ => False
       end.
Proof.
  intros Hm Hx. rewrite main_eq in Hm.
  destruct (arrive e o (boot f0)) as [ra wa] eqn:Ha.
  destruct (boot_arrive_counts _ _ _ _ _ Ha) as (X0 & _ & W0 & O0).
  destruct ra as [[re ow]| |];
    try (inversion Hm; subst; rewrite X0 in Hx; discriminate).
  pose proof (arrive_streams _ _ _ _ _ _ Ha) as (_ & Ea & _ & ->).
  cbn in Ea. fold (compiled o) in *.
  destruct (lock_ok_dec e) as [Hl|Hl].
  2:{ destruct (critical_no_lock e o (compiled o) ow (waited e wa) Hl)
        as (why & msg & l & Hc & _ & (I1 & _)).
      rewrite Hc in Hm. inversion Hm; subst.
      cbn [log] in Hx. rewrite count_app, X0, I1 in Hx. discriminate. }
  rewrite (critical_eq _ _ _ _ _ Hl) in Hm.
  destruct (readCache e Post _ _) as [rr w1] eqn:Hr.
  pose proof (readCache_log _ _ _ _ _ _ Hr) as (l1 & Hl1 & R1 & _ & R3).
  cbn [log locked waited] in Hl1.
  assert (count is_exec (log w1) = O) as X1.
  { rewrite Hl1, !count_app, X0, R1. reflexivity. }
  assert (count is_write (log w1) = O) as W1.
  { rewrite Hl1, !count_app, W0, R3. reflexivity. }
  destruct rr as [[[writer data] age]| |];
    try (inversion Hm; subst; rewrite X1 in Hx; discriminate).
  pose proof (readCache_streams _ _ _ _ _ _ Hr) as (O1 & E1 & _).
  cbn in O1, E1. rewrite Ea in E1. rewrite O0 in O1.
  destruct (reuse_test o (compiled o) data age);
    [inversion Hm; subst; cbn [log said] in Hx; rewrite X1 in Hx;
     discriminate|].
  destruct (run_test (compiled o) ow writer data);
    [|inversion Hm; subst; cbn [log said] in Hx; rewrite X1 in Hx;
      discriminate].
  destruct (execute e o (compiled o) w1) as [rx w2] eqn:He.
  exists w1, rx, w2. repeat (split; [assumption || reflexivity|]).
  split.
  { intros f -> Hal.
    apply (arrive_frame _ _ _ _ f) in Ha as [(Hfa & _) _]; [|reflexivity].
    apply (readCache_frame _ _ _ _ _ f) in Hr as [(Hf1 & _) _];
      [exact Hf1|]. cbn. now rewrite Hfa, Hal. }
  pose proof (execute_frame _ _ _ _ _ _ He) as [_ Hf].
  destruct rx as [d| |]; inversion Hm; subst; auto.
Qed.

(** A [writeCache] that returns was refused none of its checked
    calls. *)
Lemma writeCache_ret (e : env) (file data : string) (w w' : world)
      (u : unit) :
  writeCache e file data w = (Ret u, w') -> writes_ok e.
Proof.
  unfold writeCache, writes_ok. unfold_prims. cbn -[append writer_line].
  fork; cbn -[append writer_line]; [|discriminate].
  destruct (dataFile w) as [f|]; cbn -[append writer_line];
    (fork; cbn -[append writer_line]; [|discriminate]);
    (fork; cbn -[append writer_line]; [|discriminate]);
    (fork; cbn -[append writer_line]; [|discriminate]);
    (fork; cbn -[append writer_line]; [|discriminate]);
    intros _; repeat split; reflexivity.
Qed.

(** However it ends, [writeCache] issues no call on the lock file, and
    asks for one lock at most. *)
Lemma writeCache_lock_free (e : env) (file data : string) (w w' : world)
      (r : result unit) :
  writeCache e file data w = (r, w') ->
  exists l, log w' = (log w ++ l)%list
            /\ count on_lock_file l = O /\ (count is_flock l <= 1)%nat.
Proof.
  unfold writeCache. unfold_prims. cbn -[append writer_line].
  fork; cbn -[append writer_line];
    [|intros E; inversion E; subst; cbn -[append]; clear E;
      repeat rewrite <- app_assoc; cbn [app];
      eexists; (split; [reflexivity|split; [reflexivity|cbn; lia]])].
  destruct (dataFile w) as [f|]; cbn -[append writer_line];
    repeat (fork; cbn -[append writer_line]);
    intros E; inversion E; subst; cbn -[append]; clear E;
    repeat rewrite <- app_assoc; cbn [app];
    eexists; (split; [reflexivity|split; [reflexivity|cbn; lia]]).
Qed.

(** [readCache] and [arrive] issue no call on the lock file either. *)
Lemma readCache_lock_free (e : env) (k : snap) (file : string)
      (w w' : world) (r : result (string * string * Z)) :
  readCache e k file w = (r, w') ->
  exists l, log w' = (log w ++ l)%list /\ idle l
            /\ count on_lock_file l = O.
Proof.
  unfold readCache, idle. unfold_prims.
  cbn -[append parse_record String.eqb].
  fork; cbn -[append parse_record String.eqb]; [|close_log].
  destruct (dataFile w) as [f|]; cbn -[append parse_record String.eqb].
  - fork; cbn -[append parse_record String.eqb]; [|close_log].
    fork; cbn -[append parse_record String.eqb]; [|close_log].
    destruct (content f =? EmptyString)%string;
      cbn -[append parse_record]; [close_log|].
    destruct (parse_record (content f)) as [[wr d]|]; cbn -[append];
      close_log.
  - fork; cbn -[append parse_record String.eqb]; [|close_log].
    fork; cbn -[append parse_record String.eqb]; [|close_log].
    close_log.
Qed.

Lemma arrive_lock_free (e : env) (o : SpawnBurstOptions) (w w' : world)
      (r : result (regex * string)) :
  arrive e o w = (r, w') ->
  exists l, log w' = (log w ++ EvQr :: l)%list /\ idle l
            /\ count on_lock_file l = O.
Proof.
  rewrite arrive_eq.
  destruct (readCache _ _ _ _) as [rr w1] eqn:Hr.
  apply readCache_lock_free in Hr as (l & Hl & Hi). cbn in Hl.
  rewrite <- app_assoc in Hl. cbn in Hl.
  destruct rr as [[[ow d] a]| |]; intros E; inversion E; subst; eauto.
Qed.

(** The log of an invocation that printed to the data file: the pattern
    compiled and the first read, the lock file opened and locked, the
    second read, the command, and then the calls of [writeCache], none
    of them refused. *)
Lemma main_written_log (e : env) (o : SpawnBurstOptions)
      (f0 : option Sys.file) (r : result unit) (w' : world) :
  main e o (boot f0) = (r, w') ->
  count is_write (log w') <> O ->
  lock_ok e /\ writes_ok e /\ r = Ret tt
  /\ dataFile w' = Some (written e (cmd_stdout (qx e (cmd o))))
  /\ exists l0 l1,
       log w' = ((EvQr :: l0)
                   ++ EvOpen LockFile :: EvFlock LockFile LOCK_EX
                   :: l1 ++ EvExec (cmd o)
                   :: write_events e (cmd_stdout (qx e (cmd o))))%list
       /\ idle l0 /\ idle l1
       /\ count on_lock_file l0 = O /\ count on_lock_file l1 = O.
Proof.
  intros Hm Hw. rewrite main_eq in Hm.
  destruct (arrive e o (boot f0)) as [ra wa] eqn:Ha.
  destruct (boot_arrive_counts _ _ _ _ _ Ha) as (_ & _ & W0 & _).
  pose proof (arrive_lock_free _ _ _ _ _ Ha) as (l0 & Hl0 & I0 & K0).
  cbn [log boot app] in Hl0.
  destruct ra as [[re ow]| |];
    try (inversion Hm; subst; rewrite W0 in Hw; now elim Hw).
  destruct (lock_ok_dec e) as [Hl|Hl].
  2:{ destruct (critical_no_lock e o re ow (waited e wa) Hl)
        as (why & msg & l & Hc & _ & (_ & _ & I3)).
      rewrite Hc in Hm. inversion Hm; subst.
      cbn [log waited] in Hw. rewrite count_app, W0, I3 in Hw.
      now elim Hw. }
  rewrite (critical_eq _ _ _ _ _ Hl) in Hm.
  destruct (readCache e Post _ _) as [rr w1] eqn:Hr.
  pose proof (readCache_lock_free _ _ _ _ _ _ Hr) as (l1 & Hl1 & I1 & K1).
  cbn [log locked waited] in Hl1.
  assert (count is_write (log w1) = O) as W1.
  { destruct I1 as (_ & _ & R3).
    rewrite Hl1, !count_app, W0, R3. reflexivity. }
  destruct rr as [[[writer data] age]| |];
    try (inversion Hm; subst; rewrite W1 in Hw; now elim Hw).
  destruct (reuse_test o re data age);
    [inversion Hm; subst; cbn [log said] in Hw; rewrite W1 in Hw;
     now elim Hw|].
  destruct (run_test re ow writer data);
    [|inversion Hm; subst; cbn [log said] in Hw; rewrite W1 in Hw;
      now elim Hw].
  rewrite execute_eq in Hm. cbv zeta in Hm.
  destruct (negb (wait_status (qx e (cmd o)) =? 0));
    [inversion Hm; subst; cbn [log moaned after_exec] in Hw;
     rewrite count_app, W1 in Hw; now elim Hw|].
  destruct (negb (matches re (cmd_stdout (qx e (cmd o)))));
    [inversion Hm; subst; cbn [log moaned after_exec] in Hw;
     rewrite count_app, W1 in Hw; now elim Hw|].
  destruct (writeCache _ _ _ _) as [[[]|why|code] w2] eqn:Hwc.
  - pose proof (writeCache_ret _ _ _ _ _ _ Hwc) as Hok.
    rewrite (writeCache_returns _ _ _ _ Hok) in Hwc.
    injection Hwc as <-. inversion Hm; subst.
    repeat (split; [assumption || reflexivity|]).
    exists l0, l1.
    split; [|split; [exact I0|split; [exact I1|split; assumption]]].
    cbn [log said after_exec]. rewrite Hl1, Hl0.
    repeat rewrite <- app_assoc. reflexivity.
  - apply writeCache_log in Hwc as (l & Hl2 & _ & _ & Hc).
    inversion Hm; subst. rewrite Hl2 in Hw. cbn [log after_exec] in Hw.
    rewrite !count_app, W1, Hc in Hw. now elim Hw.
  - apply writeCache_frame in Hwc as (_ & _ & []).
Qed.

(** C8.  Whatever the data file was before, absent or there, whatever
    the other processes made of it during the wait for the lock and
    whatever the system refuses: a [writeCache] that returns leaves the
    writer line, a newline and the payload under mode 0600; after an
    invocation that printed to the file, the file is that record of the
    output of the command and its mode is 0600, which grants nothing to
    group and others.  After an invocation on an existing file that no
    other process touches meanwhile, the file is either exactly as it
    was or has mode 0600. *)
Theorem C8_written_file_owner_only (e : env) (o : SpawnBurstOptions)
        (f0 : option Sys.file) (r : result unit) (w' : world) :
  main e o (boot f0) = (r, w') ->
  (count is_write (log w') <> O ->
   exists f', dataFile w' = Some f'
     /\ f' = written e (cmd_stdout (qx e (cmd o)))
     /\ mode f' = owner_rw
     /\ Z.land (mode f') (7 * 8 + 7) = 0
     /\ Z.land (mode f') (7 * 64) = 6 * 64)
  /\ (forall file data w w1,
        writeCache e file data w = (Ret tt, w1) ->
        exists f', dataFile w1 = Some f'
          /\ content f' = writer_line e ++ NL ++ data
          /\ mode f' = owner_rw
          /\ Z.land (mode f') (7 * 8 + 7) = 0)
  /\ (forall f, f0 = Some f -> alone e ->
        exists f', dataFile w' = Some f'
          /\ (f' = f \/ mode f' = owner_rw)).
Proof.
  intros Hm. split; [|split].
  - intros Hw.
    destruct (main_written_log _ _ _ _ _ Hm Hw) as (_ & _ & _ & Hf & _).
    eexists. split; [exact Hf|]. repeat split.
  - intros file data w w1 Hwc.
    apply writeCache_frame in Hwc as (_ & _ & Hf).
    eexists. split; [exact Hf|]. repeat split.
  - intros f -> Hal.
    pose proof (main_frame _ _ _ _ _ Hal Hm) as Hf.
    destruct r as [[]| why| code].
    + destruct Hf as [Hf|Hf]; eexists; (split; [exact Hf|]);
        [now left|now right].
    + destruct Hf as (f' & Hf & Hk). exists f'. split; [exact Hf|].
      destruct Hk as [->| ->]; auto.
    + destruct Hf as (_ & Hf). exists f. split; [exact Hf|]. now left.
Qed.

(** C3 as the code has it.  In an invocation that ran the command, whose
    command ended with status 0 and an empty stdout: when the validator
    is not found in the empty text, the script dies at line 154, having
    printed nothing to the file, and the caller is thrown an error; when
    the validator is found in the empty text and the write goes through,
    the script writes a record whose payload is empty and the caller is
    returned the empty text. *)
Theorem C3_empty_output (func : string) (e : env) (o : SpawnBurstOptions)
        (f0 : option Sys.file) (r : result unit) (w' : world) :
  main e o (boot f0) = (r, w') ->
  count is_exec (log w') = 1%nat ->
  wait_status (qx e (cmd o)) = 0 ->
  cmd_stdout (qx e (cmd o)) = EmptyString ->
  (matches (compiled o) EmptyString = false ->
   r = Die (NotValid EmptyString)
   /\ count is_write (log w') = O
   /\ (forall f, f0 = Some f -> alone e -> dataFile w' = Some f)
   /\ exists msg, fst (run func e o f0) = Thrown msg)
  /\ (matches (compiled o) EmptyString = true -> writes_ok e ->
      r = Ret tt
      /\ count is_write (log w') = 1%nat
      /\ dataFile w' = Some (mkFile (writer_line e ++ NL) (now_write e)
                                    owner_rw)
      /\ fst (run func e o f0) = Returned EmptyString).
Proof.
  intros Hm Hx Hst Hout.
  destruct (main_executed _ _ _ _ _ Hm Hx)
    as (w1 & rx & w2 & He & O1 & E1 & X1 & W1 & Hf & Hend).
  rewrite execute_eq in He. cbv zeta in He.
  rewrite Hst, Hout in He. cbn [negb Z.eqb] in He.
  split.
  - intros Hv. rewrite Hv in He. cbn [negb] in He.
    injection He as <- <-. destruct Hend as [-> ->].
    split; [reflexivity|]. split.
    { cbn [log moaned after_exec]. rewrite count_app, W1. reflexivity. }
    split; [intros f Hf0 Hal; exact (Hf f Hf0 Hal)|].
    unfold run, spawn. rewrite Hm. cbn [fst].
    rewrite processResult_thrown; [eauto|].
    cbn. intros [= H]. exact (die_status_nonzero _ _ H).
  - intros Hv Hw. rewrite Hv in He. cbn [negb] in He.
    rewrite (writeCache_returns _ _ _ _ Hw) in He.
    injection He as <- <-. destruct Hend as [-> ->].
    split; [reflexivity|]. split.
    { cbn [log said after_exec]. rewrite !count_app, W1. reflexivity. }
    split; [reflexivity|].
    unfold run, spawn. rewrite Hm. cbn. now rewrite O1.
Qed.

(** C5 as the code has it.  Every invocation compiles the validator
    once, and what it then matches payloads against is the pattern under
    the modifier [/s] alone: the wildcard matches newlines too, and the
    two anchors hold at the two ends of the whole text only, there being
    no [/m].  When the invocation runs the command, the command ends
    with status 0 and the write goes through, the output is accepted,
    that is written to the file and returned to the caller, exactly when
    the pattern is found somewhere in it in that sense. *)
Theorem C5_validator_dotall_only (func : string) (e : env)
        (o : SpawnBurstOptions) (f0 : option Sys.file)
        (r : result unit) (w' : world) :
  main e o (boot f0) = (r, w') ->
  count is_qr (log w') = 1%nat
  /\ (forall re oldWriter wa,
        arrive e o (boot f0) = (Ret (re, oldWriter), wa) ->
        forall s,
          matches re s
          = found_in (mkMods true false) (list_ascii_of_string s)
                     (validator o))
  /\ (count is_exec (log w') = 1%nat ->
      wait_status (qx e (cmd o)) = 0 ->
      writes_ok e ->
      let text := cmd_stdout (qx e (cmd o)) in
      let found :=
        found_in (mkMods true false) (list_ascii_of_string text)
                 (validator o) in
      (fst (run func e o f0) = Returned text <-> found = true)
      /\ (count is_write (log w') = 1%nat <-> found = true)).
Proof.
  intros Hm.
  destruct (main_log _ _ _ _ _ Hm) as (Hq & _).
  split; [exact Hq|]. split.
  { intros re ow wa Ha s.
    apply arrive_streams in Ha as (_ & _ & _ & ->). reflexivity. }
  intros Hx Hst Hw text found.
  destruct (main_executed _ _ _ _ _ Hm Hx)
    as (w1 & rx & w2 & He & O1 & E1 & X1 & W1 & Hf & Hend).
  rewrite execute_eq in He. cbv zeta in He.
  rewrite Hst in He. cbn [negb Z.eqb] in He.
  change (matches (compiled o) (cmd_stdout (qx e (cmd o)))) with found in He.
  destruct found.
  - cbn [negb] in He. rewrite (writeCache_returns _ _ _ _ Hw) in He.
    injection He as <- <-. destruct Hend as [-> ->].
    split; (split; [reflexivity|intros _]).
    + unfold run, spawn. rewrite Hm. cbn. now rewrite O1.
    + cbn [log said after_exec]. rewrite !count_app, W1. reflexivity.
  - cbn [negb] in He. injection He as <- <-. destruct Hend as [-> ->].
    split; (split; [|discriminate]).
    + unfold run, spawn. rewrite Hm. cbn [fst].
      rewrite processResult_thrown; [discriminate|].
      cbn. intros [= H]. exact (die_status_nonzero _ _ H).
    + cbn [log moaned after_exec]. rewrite count_app, W1. discriminate.
Qed.

(** C4 as the code has it.  [writeCache] opens the data file and sets
    its mode to 0600, and then takes an exclusive lock of its own, on
    the data file itself.  When that lock and the two calls after it are
    granted, it rewinds, truncates, prints the writer line, a newline
    and the payload, and closes: the file is then exactly that text,
    with the time of the write and mode 0600.  When that lock is
    refused, it dies there: nothing is truncated or printed, and the
    file has its old content and modification time under mode 0600.
    However it ends, it issues no call on the lock file.  In the log of
    an invocation that printed to the data file, the lock file was
    opened and its exclusive lock granted before the command was run,
    and the calls of [writeCache], with its own lock among them, are the
    last ones, right after the command. *)
Theorem C4_writeCache_locks_data_file (e : env) (file data : string)
        (w : world) :
  (sys_ok e OpenWrite = true -> sys_ok e ChmodWrite = true ->
   (sys_ok e FlockWrite = true -> sys_ok e SeekWrite = true ->
    sys_ok e TruncateWrite = true ->
    writeCache e file data w
    = (Ret tt,
       mkWorld (Some (mkFile (writer_line e ++ NL ++ data) (now_write e)
                             owner_rw))
               (out w) (err w) (child w)
               (log w ++ [EvOpen DataFile; EvChmod owner_rw;
                          EvFlock DataFile LOCK_EX; EvSeek; EvTruncate;
                          EvPrintFile (writer_line e ++ NL ++ data);
                          EvClose])))
   /\ (sys_ok e FlockWrite = false ->
       writeCache e file data w
       = (Die FlockWriteFailed,
          mkWorld (Some (match dataFile w with
                         | Some f => mkFile (content f) (mtime f) owner_rw
                         | None => mkFile EmptyString (now_write e) owner_rw
                         end))
                  (out w)
                  (err w ++ "flock " ++ file ++ " LOCK_EX: " ++ errstr e ++ NL)
                  (child w)
                  (log w ++ [EvOpen DataFile; EvChmod owner_rw;
                             EvFlock DataFile LOCK_EX]))))
  /\ (forall r w',
        writeCache e file data w = (r, w') ->
        exists l, log w' = (log w ++ l)%list
                  /\ count on_lock_file l = O)
  /\ (forall o f0 r w',
        main e o (boot f0) = (r, w') ->
        count is_write (log w') <> O ->
        lock_ok e
        /\ exists before between,
          log w'
          = (before ++ EvOpen LockFile :: EvFlock LockFile LOCK_EX
               :: between ++ EvExec (cmd o)
               :: [EvOpen DataFile; EvChmod owner_rw;
                   EvFlock DataFile LOCK_EX; EvSeek; EvTruncate;
                   EvPrintFile (writer_line e ++ NL
                                  ++ cmd_stdout (qx e (cmd o)));
                   EvClose])%list
          /\ count is_exec before = O /\ count is_write before = O
          /\ count on_lock_file before = O
          /\ count is_exec between = O /\ count is_write between = O).
Proof.
  split; [|split].
  - intros Ho Hc. split.
    + intros Hf Hs Ht.
      apply writeCache_returns. repeat split; assumption.
    + intros Hf. unfold writeCache. unfold_prims.
      cbn -[append writer_line]. rewrite Ho.
      destruct (dataFile w) as [f|]; cbn -[append writer_line];
        rewrite Hc; cbn -[append writer_line];
        rewrite Hf; cbn -[append writer_line];
        norm_log; reflexivity.
  - intros r w' Hwc.
    destruct (writeCache_lock_free _ _ _ _ _ _ Hwc) as (l & Hl & Hc & _).
    exists l. split; assumption.
  - intros o f0 r w' Hm Hw.
    destruct (main_written_log _ _ _ _ _ Hm Hw)
      as (Hl & _ & _ & _ & l0 & l1 & Hlog & I0 & I1 & K0 & _).
    split; [exact Hl|].
    exists (EvQr :: l0)%list, l1. split; [exact Hlog|].
    destruct I0 as (A1 & _ & A3). destruct I1 as (B1 & _ & B3).
    change (EvQr :: l0) with ([EvQr] ++ l0)%list.
    rewrite !count_app, A1, A3, K0. repeat split; assumption.
Qed.

(* ------------------------------------------------------------------ *)
(** ** A data file without a writer line *)

Lemma snapshot_no_nl (e : env) (k : snap) (f : Sys.file) :
  content f <> EmptyString -> no_nl (content f) = true ->
  snapshot e k f = None.
Proof.
  intros Hne Hnl. unfold snapshot. apply eqb_nonempty in Hne.
  now rewrite Hne, (parse_record_no_nl _ Hnl).
Qed.

(** Whatever the system does, [readCache] dies on such a file and leaves
    it as it is. *)
Lemma readCache_blocked (e : env) (k : snap) (file : string) (w : world)
      (f : Sys.file) :
  content f <> EmptyString -> no_nl (content f) = true ->
  dataFile w = Some f ->
  exists why w', readCache e k file w = (Die why, w')
                 /\ dataFile w' = Some f.
Proof.
  intros Hne Hnl Hw. apply eqb_nonempty in Hne.
  unfold readCache. unfold_prims. cbn -[append parse_record String.eqb].
  rewrite Hw.
  fork; cbn -[append parse_record String.eqb]; [|eauto].
  fork; cbn -[append parse_record String.eqb]; [|eauto].
  fork; cbn -[append parse_record String.eqb]; [|eauto].
  rewrite Hne, (parse_record_no_nl _ Hnl). cbn -[append]. eauto.
Qed.

Lemma main_blocked (e : env) (o : SpawnBurstOptions) (f : Sys.file) :
  content f <> EmptyString -> no_nl (content f) = true ->
  exists why w', main e o (boot (Some f)) = (Die why, w')
                 /\ dataFile w' = Some f.
Proof.
  intros Hne Hnl. rewrite main_eq, arrive_eq.
  destruct (readCache_blocked e Pre (cacheFile o) (compiling (boot (Some f)))
              f Hne Hnl eq_refl) as (why & w' & -> & Hf).
  eauto.
Qed.

Lemma in_turn_blocked (func : string) (o : SpawnBurstOptions)
      (f : Sys.file) (es : list env) :
  content f <> EmptyString -> no_nl (content f) = true ->
  exists outs, in_turn func o es (Some f) = (outs, Some f)
               /\ List.length outs = List.length es
               /\ Forall (fun r => exists msg, r = Thrown msg) outs.
Proof.
  intros Hne Hnl. induction es as [|e es (outs & IH & Hlen & Hall)].
  - exists []. cbn. auto.
  - cbn [in_turn]. unfold run, spawn.
    destruct (main_blocked e o f Hne Hnl) as (why & w' & -> & Hf).
    rewrite Hf, IH. eexists. split; [reflexivity|].
    split; [cbn; now rewrite Hlen|].
    constructor; [|exact Hall].
    rewrite processResult_thrown; [eauto|].
    cbn. intros [= H]. exact (die_status_nonzero _ _ H).
Qed.

(** C10.  On a data file whose content is not empty and holds no
    newline, an invocation whose first read the system does not refuse
    dies of the format at line 170: it has compiled the validator and
    issued the four calls of the first read and nothing else, so it
    never reaches the lock, the second read or the two tests; the file
    is as it was; the caller is thrown an error that names the format.
    Such a file has no snapshot, the empty triple being kept for the
    empty file.  Invocations one after the other on such a file are all
    thrown an error, whatever the system does for each, and leave the
    file as it was. *)
Theorem C10_no_newline_blocks (func : string) (e : env)
        (o : SpawnBurstOptions) (f : Sys.file) :
  content f <> EmptyString -> no_nl (content f) = true ->
  reads_ok e Pre ->
  snapshot e Pre f = None
  /\ main e o (boot (Some f))
     = (Die InvalidFormat,
        mkWorld (Some f) EmptyString
                ("invalid format of " ++ cacheFile o ++ NL) 0
                [EvQr; EvOpen DataFile; EvFlock DataFile LOCK_SH;
                 EvSeek; EvSlurp])
  /\ (exists rest,
        fst (run func e o (Some f))
        = Thrown (func ++ "() failed with status "
                       ++ dec (die_status (errno e) 0)
                       ++ ": invalid format of" ++ rest))
  /\ forall es,
       exists outs, in_turn func o es (Some f) = (outs, Some f)
                    /\ List.length outs = List.length es
                    /\ Forall (fun r => exists msg, r = Thrown msg) outs.
Proof.
  intros Hne Hnl Hr.
  pose proof (snapshot_no_nl e Pre f Hne Hnl) as Hs.
  assert (main e o (boot (Some f))
          = (Die InvalidFormat,
             mkWorld (Some f) EmptyString
                     ("invalid format of " ++ cacheFile o ++ NL) 0
                     [EvQr; EvOpen DataFile; EvFlock DataFile LOCK_SH;
                      EvSeek; EvSlurp])) as Hm.
  { rewrite main_eq, arrive_eq.
    rewrite (readCache_invalid e Pre _ (compiling (boot (Some f))) f Hr
               eq_refl Hs). reflexivity. }
  split; [exact Hs|]. split; [exact Hm|]. split.
  - unfold run, spawn. rewrite Hm. cbn [fst].
    rewrite processResult_thrown.
    2:{ cbn. intros [= H]. exact (die_status_nonzero _ _ H). }
    cbn [status stderr err show_status exit_status child].
    destruct (trimEnd_app "invalid format o" "f"
                (" " ++ cacheFile o ++ NL) eq_refl) as [t' Ht].
    change ("invalid format o" ++ String "f" (" " ++ cacheFile o ++ NL))
      with ("invalid format of " ++ cacheFile o ++ NL) in Ht.
    assert (trim ("invalid format of " ++ cacheFile o ++ NL)
            = "invalid format of" ++ t') as ->.
    { unfold trim. exact Ht. }
    exists t'. reflexivity.
  - intros es. exact (in_turn_blocked func o f es Hne Hnl).
Qed.

(* ------------------------------------------------------------------ *)
(** ** A burst *)

Lemma no_nl_app (a b : string) : no_nl (a ++ b) = no_nl a && no_nl b.
Proof.
  induction a as [|c a IH]; cbn; [reflexivity|].
  now rewrite IH, andb_assoc.
Qed.

Lemma no_nl_uint (d : Decimal.uint) :
  no_nl (NilEmpty.string_of_uint d) = true.
Proof. induction d; cbn; auto. Qed.

(** A numeral holds no newline. *)
Lemma no_nl_dec (z : Z) : no_nl (dec z) = true.
Proof.
  unfold dec. destruct (Z.to_int z) as [d|d]; cbn.
  - destruct d; try reflexivity; apply (no_nl_uint (_ d)).
  - destruct d; try reflexivity; apply (no_nl_uint (_ d)).
Qed.

(** The writer line is one line when the time text is, and it is never
    empty. *)
Lemma writer_line_no_nl (e : env) :
  no_nl (localtime e) = true -> no_nl (writer_line e) = true.
Proof.
  intros H. unfold writer_line. now rewrite !no_nl_app, no_nl_dec, H.
Qed.

Lemma writer_line_nonempty (e : env) : writer_line e <> EmptyString.
Proof.
  unfold writer_line. destruct (dec (pid e)); discriminate.
Qed.

(** Reading back what [writeCache] left. *)
Lemma snapshot_written (e e' : env) (k : snap) (data : string) :
  no_nl (localtime e) = true ->
  snapshot e' k (written e data)
  = Some (writer_line e, data, now e' k - now_write e).
Proof.
  intros H. unfold snapshot, written. cbn [content mtime].
  rewrite (app_nonempty (writer_line e) nl data : (_ ++ NL ++ _ =? _)%string = _).
  rewrite (parse_record_line _ _ (writer_line_nonempty e)
             (writer_line_no_nl e H)).
  reflexivity.
Qed.

Lemma snapshot_readable (e : env) (k : snap) (f : Sys.file) :
  readable (Some f) ->
  exists data age,
    snapshot e k f = Some (first_writer (Some f), data, age).
Proof.
  unfold readable, snapshot, first_writer. intros [H|H].
  - apply eqb_empty in H. rewrite H. eauto.
  - destruct (content f =? EmptyString)%string; [eauto|].
    destruct (parse_record (content f)) as [[wr d]|]; [eauto|].
    now elim H.
Qed.

Lemma healthy_reads (e : env) (k : snap) : healthy e -> reads_ok e k.
Proof. intros H. repeat split; apply H. Qed.

Lemma healthy_lock (e : env) : healthy e -> lock_ok e.
Proof. intros H. split; apply H. Qed.

Lemma healthy_writes (e : env) : healthy e -> writes_ok e.
Proof. intros H. repeat split; apply H. Qed.

(** A process that arrives at a readable data file, the system refusing
    nothing, queues at the lock with the writer of that file in hand; a
    file that was absent is now there, empty. *)
Lemma arrive_healthy (e : env) (o : SpawnBurstOptions)
      (f0 : option Sys.file) :
  healthy e -> readable f0 ->
  exists wa,
    arrive e o (boot f0) = (Ret (compiled o, first_writer f0), wa)
    /\ dataFile wa
       = Some (match f0 with
               | Some f => f
               | None => mkFile EmptyString (now e Pre) (create_mode e)
               end).
Proof.
  intros He Hf. rewrite arrive_eq. destruct f0 as [f|].
  - destruct (snapshot_readable e Pre f Hf) as (d & a & Hs).
    rewrite (readCache_snapshot e Pre _ (compiling (boot (Some f))) f _
               (healthy_reads e Pre He) eq_refl Hs).
    eexists. split; reflexivity.
  - rewrite (readCache_absent e Pre _ (compiling (boot None))
               (healthy_reads e Pre He) eq_refl).
    eexists. split; reflexivity.
Qed.

(** The queue that a burst forms at a readable data file. *)
Lemma arrivals_queue (o : SpawnBurstOptions) (es : list env) :
  forall (f0 : option Sys.file) q f1,
    Forall healthy es -> readable f0 ->
    arrivals o es f0 = (q, f1) ->
    map penv q = es
    /\ Forall (queued o (first_writer f0)) q
    /\ readable f1 /\ first_writer f1 = first_writer f0
    /\ (es <> [] -> f1 <> None).
Proof.
  induction es as [|e es IH]; intros f0 q f1 Hh Hr; cbn [arrivals].
  - intros [= <- <-]. repeat split; auto.
  - inversion Hh as [|? ? He Hes]; subst.
    destruct (arrive_healthy e o f0 He Hr) as (wa & Ha & Hfa).
    rewrite Ha.
    destruct (arrivals o es (dataFile wa)) as [q' f'] eqn:Hq.
    intros [= <- <-].
    assert (readable (dataFile wa)) as Hr'.
    { rewrite Hfa. destruct f0; [exact Hr|now left]. }
    assert (first_writer (dataFile wa) = first_writer f0) as Hw'.
    { rewrite Hfa. destruct f0; reflexivity. }
    destruct (IH _ _ _ Hes Hr' Hq) as (Hm & Hall & Hr1 & Hw1 & Hne).
    destruct (boot_arrive_counts _ _ _ _ _ Ha) as (X & _ & W & O).
    split; [cbn; now rewrite Hm|]. split.
    { constructor; [repeat split; assumption|now rewrite <- Hw']. }
    split; [exact Hr1|]. split; [congruence|].
    intros _. destruct es as [|e' es'].
    + cbn in Hq. injection Hq as <- <-. rewrite Hfa. discriminate.
    + apply Hne. discriminate.
Qed.

Lemma reuse_test_off (o : SpawnBurstOptions) (re : regex)
      (data : string) (age : Z) :
  cacheMaxAgeSec o = 0 -> reuse_test o re data age = false.
Proof.
  intros H. unfold reuse_test. rewrite H. cbn.
  now rewrite andb_false_r.
Qed.

(** Behind a process that wrote [d] under a writer line other than
    [oldWriter], every queued process adopts [d]: it runs nothing,
    prints nothing to the file, and its caller is returned [d]. *)
Lemma serve_adopt (func : string) (o : SpawnBurstOptions) (e1 : env)
      (d oldWriter : string) (q : list (proc (regex * string))) :
  cacheMaxAgeSec o = 0 ->
  no_nl (localtime e1) = true -> writer_line e1 <> oldWriter ->
  d <> EmptyString -> matches (compiled o) d = true ->
  Forall (fun p => queued o oldWriter p /\ healthy (penv p)) q ->
  exists done,
    serve o q (Some (written e1 d)) = (done, Some (written e1 d))
    /\ total is_exec done = O /\ total is_write done = O
    /\ Forall (fun p => outcome_of func p = Returned d) done
    /\ List.length done = List.length q.
Proof.
  intros Hmax Hnl Hne Hd Hv. induction q as [|p q IH]; intros Hall.
  - exists []. cbn. auto.
  - inversion Hall as [|? ? [(Hres & Hout & Hx & Hw) Hh] Hq]; subst.
    destruct (IH Hq) as (done & Hs & X & W & Hret & Hlen).
    cbn [serve]. rewrite Hres.
    rewrite (critical_on_snapshot (penv p) o (compiled o) oldWriter
               (on_file (Some (written e1 d)) (pworld p)) (written e1 d)
               (writer_line e1) d (now (penv p) Post - now_write e1)
               (healthy_lock _ Hh) (healthy_reads _ Post Hh) eq_refl
               (snapshot_written e1 (penv p) Post d Hnl)).
    rewrite (reuse_test_off _ _ _ _ Hmax).
    assert (run_test (compiled o) oldWriter (writer_line e1) d = false)
      as ->.
    { destruct (run_test _ _ _ _) eqn:Hrun; [|reflexivity].
      apply run_test_true in Hrun as [H|[H|H]]; congruence. }
    cbn [dataFile said]. rewrite Hs.
    destruct (count_read_events (written e1 d)) as (R1 & _ & R3).
    eexists. split; [reflexivity|].
    cbn [total fold_right pworld log said locked on_file].
    fold (total is_exec done). fold (total is_write done).
    rewrite !count_app, Hx, Hw, R1, R3, X, W. cbn.
    repeat split; auto.
    constructor; [|exact Hret].
    unfold outcome_of. cbn. now rewrite Hout.
Qed.

(** The process at the head of the queue, finding the data file as the
    burst found it, runs the command and writes its output. *)
Lemma serve_head (func : string) (o : SpawnBurstOptions)
      (p : proc (regex * string)) (f : Sys.file) :
  cacheMaxAgeSec o = 0 ->
  readable (Some f) ->
  queued o (first_writer (Some f)) p ->
  healthy (penv p) -> succeeds o (penv p) ->
  let d := cmd_stdout (qx (penv p) (cmd o)) in
  exists w',
    critical (penv p) o (compiled o) (first_writer (Some f))
             (on_file (Some f) (pworld p))
    = (Ret tt, w')
    /\ dataFile w' = Some (written (penv p) d)
    /\ count is_exec (log w') = 1%nat /\ count is_write (log w') = 1%nat
    /\ outcome_of func (mkProc (penv p) (Ret tt) w') = Returned d.
Proof.
  intros Hmax Hr (Hres & Hout & Hx & Hw) Hh (Hst & Hne & Hv) d.
  destruct (snapshot_readable (penv p) Post f Hr) as (data & age & Hs).
  rewrite (critical_on_snapshot (penv p) o (compiled o) _
             (on_file (Some f) (pworld p)) f _ data age
             (healthy_lock _ Hh) (healthy_reads _ Post Hh) eq_refl Hs).
  rewrite (reuse_test_off _ _ _ _ Hmax).
  assert (run_test (compiled o) (first_writer (Some f))
                   (first_writer (Some f)) data = true) as ->.
  { apply run_test_true. auto. }
  rewrite execute_eq. cbv zeta. rewrite Hst. cbn [Z.eqb negb].
  fold d. fold d in Hv. rewrite Hv. cbn [negb].
  rewrite (writeCache_returns _ _ _ _ (healthy_writes _ Hh)).
  destruct (count_read_events f) as (R1 & _ & R3).
  eexists. split; [reflexivity|]. split; [reflexivity|].
  cbn [log said after_exec locked on_file].
  rewrite !count_app, Hx, Hw, R1, R3. cbn.
  repeat split. unfold outcome_of. cbn. now rewrite Hout.
Qed.

(** A burst of one or more invocations at a readable data file. *)
Lemma burst_runs_once (func : string) (o : SpawnBurstOptions)
      (es : list env) (f0 : option Sys.file)
      (q q' : list (proc (regex * string))) (f1 : option Sys.file) :
  es <> [] ->
  cacheMaxAgeSec o = 0 ->
  readable f0 ->
  Forall (fun e => healthy e /\ succeeds o e /\ fresh f0 e) es ->
  arrivals o es f0 = (q, f1) ->
  Permutation q q' ->
  exists first rest done,
    q' = first :: rest
    /\ serve o q' f1
       = (done, Some (written (penv first)
                              (cmd_stdout (qx (penv first) (cmd o)))))
    /\ total is_exec done = 1%nat
    /\ total is_write done = 1%nat
    /\ Forall (fun p => outcome_of func p
                        = Returned (cmd_stdout (qx (penv first) (cmd o))))
              done
    /\ List.length done = List.length es.
Proof.
  intros Hne Hmax Hr Hall Harr Hperm.
  assert (Forall healthy es) as Hh.
  { eapply Forall_impl; [|exact Hall]. cbn. tauto. }
  destruct (arrivals_queue o es f0 q f1 Hh Hr Harr)
    as (Hmap & Hq & Hr1 & Hw1 & Hsome).
  assert (Forall (fun p => queued o (first_writer f0) p
                           /\ healthy (penv p) /\ succeeds o (penv p)
                           /\ fresh f0 (penv p)) q') as Hq'.
  { apply (Permutation_Forall Hperm).
    rewrite Forall_forall in *. intros p Hp. split; [auto|].
    apply Hall. rewrite <- Hmap. now apply in_map. }
  assert (List.length q' = List.length es) as Hlen.
  { rewrite <- (Permutation_length Hperm), <- Hmap. now rewrite length_map. }
  destruct q' as [|first rest].
  { destruct es; [now elim Hne|discriminate]. }
  destruct f1 as [f|]; [|now elim (Hsome Hne)].
  inversion Hq' as [|? ? (Hqd & Hhd & Hsd & (Hnl & Hfr)) Hrest]; subst.
  rewrite <- Hw1 in Hqd.
  destruct (serve_head func o first f Hmax Hr1 Hqd Hhd Hsd)
    as (w' & Hc & Hf & X & W & Hret).
  destruct Hsd as (_ & Hd & Hv).
  destruct (serve_adopt func o (penv first)
              (cmd_stdout (qx (penv first) (cmd o))) (first_writer f0)
              rest Hmax Hnl Hfr Hd Hv) as (done & Hs & X' & W' & Hall' & Hl').
  { eapply Forall_impl; [|exact Hrest]. cbn. tauto. }
  exists first, rest. eexists. split; [reflexivity|].
  cbn [serve]. destruct Hqd as (Hres & _). rewrite Hres, Hc, Hf, Hs.
  split; [reflexivity|].
  cbn [total fold_right pworld].
  fold (total is_exec done). fold (total is_write done).
  rewrite X, W, X', W'. repeat split.
  - constructor; [exact Hret|exact Hall'].
  - cbn. rewrite Hl'. exact Hlen.
Qed.

(** C9 as the code has it.  Five or more invocations with
    [cacheMaxAgeSec = 0] that all read the data file before the first of
    them writes it, and that the lock then lets through in any order: when the
    file is readable, the system refuses nothing, the command succeeds
    with an output that is not empty and that the validator is found in,
    and the writer line of each process is a line other than the one in
    the file, the command is run once, by the process let through first;
    the file is printed to once, by that process; and every caller is
    returned the output of that one run. *)
Theorem C9_burst_coalesces (func : string) (o : SpawnBurstOptions)
        (es : list env) (f0 : option Sys.file)
        (q q' : list (proc (regex * string))) (f1 : option Sys.file) :
  (5 <= List.length es)%nat ->
  cacheMaxAgeSec o = 0 ->
  readable f0 ->
  Forall (fun e => healthy e /\ succeeds o e /\ fresh f0 e) es ->
  arrivals o es f0 = (q, f1) ->
  Permutation q q' ->
  exists first rest done,
    q' = first :: rest
    /\ serve o q' f1
       = (done, Some (written (penv first)
                              (cmd_stdout (qx (penv first) (cmd o)))))
    /\ total is_exec done = 1%nat
    /\ total is_write done = 1%nat
    /\ Forall (fun p => outcome_of func p
                        = Returned (cmd_stdout (qx (penv first) (cmd o))))
              done
    /\ List.length done = List.length es.
Proof.
  intros Hlen. apply burst_runs_once.
  destruct es; [cbn in Hlen; lia|discriminate].
Qed.

(* ------------------------------------------------------------------ *)
(** ** The properties at concrete invocations *)

Import Scenario.

Ltac settle :=
  first [ vm_compute; reflexivity
        | repeat split; reflexivity
        | vm_compute; discriminate
        | vm_compute; lia
        | intros ?; reflexivity ].

(** Discharges the hypotheses of [H], one after the other, by
    evaluation. *)
Ltac discharge H :=
  repeat match type of H with
         | ?A -> _ =>
             let X := fresh "X" in
             assert (X : A) by settle; specialize (H X); clear X
         end.

(** A process that arrived at the empty file and then saw process 17
    write a record adopts that record and runs nothing. *)
Lemma C1_witness :
  count is_exec (log (snd (main latecomer opts (boot (Some empty_file)))))
  = O
  /\ fst (run "spawnBurstSync" latecomer opts (Some empty_file))
     = Returned ("ok 17" ++ NL).
Proof.
  pose proof (C1_run_iff_same_writer latecomer opts (Some empty_file)
                (compiled opts) EmptyString
                (snd (arrive latecomer opts (boot (Some empty_file))))
                recent "17: Mon Nov  2 12:00:02 2026" ("ok 17" ++ NL) 3
                (fst (main latecomer opts (boot (Some empty_file))))
                (snd (main latecomer opts (boot (Some empty_file)))))
    as H.
  discharge H. destruct H as [_ H].
  destruct H as (H1 & _ & _ & _ & _ & H2); [vm_compute; discriminate|].
  split; [exact H1|exact (H2 _)].
Defined.

(** With thirty seconds of reuse, a record three seconds old is printed
    and the script exits at once. *)
Lemma C2_witness :
  fst (run "spawnBurstSync" (process 1 echo_ok) opts30 (Some recent))
  = Returned ("ok 17" ++ NL)
  /\ fst (main (process 1 echo_ok) opts30 (boot (Some recent))) = Exit 0.
Proof.
  pose proof (C2_cached_payload_iff "spawnBurstSync" (process 1 echo_ok)
                opts30 (Some recent)
                (compiled opts30) "17: Mon Nov  2 12:00:02 2026"
                (snd (arrive (process 1 echo_ok) opts30
                             (boot (Some recent))))
                recent "17: Mon Nov  2 12:00:02 2026" ("ok 17" ++ NL) 3
                (fst (main (process 1 echo_ok) opts30 (boot (Some recent))))
                (snd (main (process 1 echo_ok) opts30 (boot (Some recent)))))
    as H.
  discharge H. destruct H as ([_ H1] & [_ H2] & _).
  assert ("ok 17" ++ NL <> EmptyString) as X1 by (vm_compute; discriminate).
  assert (matches (compiled opts30) ("ok 17" ++ NL) = true) as X2
    by (vm_compute; reflexivity).
  assert (0 < cacheMaxAgeSec opts30 /\ 3 < cacheMaxAgeSec opts30) as X3
    by (vm_compute; split; reflexivity).
  split.
  - apply H1. split; [exact X1|]. split; [exact X2|]. left. exact X3.
  - apply H2. split; [exact X1|]. split; [exact X2|]. exact X3.
Defined.

(** C2 as stated fails: with [cacheMaxAgeSec] 0, a process that arrived
    at the empty file and, once let through the lock, reads the valid
    record that process 17 wrote meanwhile, is returned the payload of
    that record at once, having run nothing and printed nothing to the
    file, the script ending with status 0. *)
Lemma C2_counterexample :
  cacheMaxAgeSec opts = 0
  /\ snapshot latecomer Post recent
     = Some ("17: Mon Nov  2 12:00:02 2026", "ok 17" ++ NL, 3)
  /\ fst (run "spawnBurstSync" latecomer opts (Some empty_file))
     = Returned ("ok 17" ++ NL)
  /\ fst (main latecomer opts (boot (Some empty_file))) = Ret tt
  /\ out (snd (main latecomer opts (boot (Some empty_file))))
     = "ok 17" ++ NL
  /\ dataFile (snd (main latecomer opts (boot (Some empty_file))))
     = Some recent
  /\ status (fst (spawn latecomer opts (Some empty_file))) = Some 0
  /\ count is_exec
       (log (snd (main latecomer opts (boot (Some empty_file))))) = O
  /\ count is_write
       (log (snd (main latecomer opts (boot (Some empty_file))))) = O.
Proof. repeat split; vm_compute; reflexivity. Qed.

(** A command that prints nothing, under the validator [.+]: the script
    dies of the validation and the empty file stays as it was. *)
Lemma C3_witness :
  fst (main (process 1 silent) opts (boot (Some empty_file)))
  = Die (NotValid EmptyString)
  /\ dataFile (snd (main (process 1 silent) opts (boot (Some empty_file))))
     = Some empty_file.
Proof.
  pose proof (C3_empty_output "spawnBurstSync" (process 1 silent) opts
                (Some empty_file)
                (fst (main (process 1 silent) opts (boot (Some empty_file))))
                (snd (main (process 1 silent) opts (boot (Some empty_file)))))
    as H.
  discharge H. destruct H as [H _].
  destruct H as (H1 & _ & H2 & _); [reflexivity|].
  split; [exact H1|]. apply (H2 empty_file eq_refl). intros ?; reflexivity.
Defined.

(** C3 as stated fails: under the validator [.*], a command that ends
    with status 0 and prints nothing is not refused; the script writes a
    record with an empty payload and the caller is returned the empty
    text. *)
Lemma C3_counterexample :
  wait_status (qx (process 1 silent) (cmd opts_any)) = 0
  /\ cmd_stdout (qx (process 1 silent) (cmd opts_any)) = EmptyString
  /\ fst (run "spawnBurstSync" (process 1 silent) opts_any (Some empty_file))
     = Returned EmptyString
  /\ dataFile (snd (run "spawnBurstSync" (process 1 silent) opts_any
                        (Some empty_file)))
     = Some (mkFile ("1: Mon Nov  2 12:00:06 2026" ++ NL) 1006 owner_rw)
  /\ count is_write
       (log (snd (run "spawnBurstSync" (process 1 silent) opts_any
                      (Some empty_file))))
     = 1%nat.
Proof. repeat split; vm_compute; reflexivity. Qed.

(** The write of [ok] by process 1, and the invocation of [echo ok] on
    the empty file of the tests, which writes. *)
Lemma C4_witness :
  (fst (writeCache (process 1 echo_ok) path "ok" (boot (Some empty_file)))
   = Ret tt
   /\ log (snd (writeCache (process 1 echo_ok) path "ok"
                           (boot (Some empty_file))))
      = [EvOpen DataFile; EvChmod owner_rw; EvFlock DataFile LOCK_EX;
         EvSeek; EvTruncate;
         EvPrintFile ("1: Mon Nov  2 12:00:06 2026" ++ NL ++ "ok");
         EvClose])
  /\ exists before between,
       log (snd (main (process 1 echo_ok) opts (boot (Some empty_file))))
       = (before ++ EvOpen LockFile :: EvFlock LockFile LOCK_EX
            :: between ++ EvExec "echo ok"
            :: [EvOpen DataFile; EvChmod owner_rw;
                EvFlock DataFile LOCK_EX; EvSeek; EvTruncate;
                EvPrintFile ("1: Mon Nov  2 12:00:06 2026" ++ NL
                               ++ "ok" ++ NL);
                EvClose])%list
       /\ count on_lock_file before = O.
Proof.
  pose proof (C4_writeCache_locks_data_file (process 1 echo_ok) path "ok"
                (boot (Some empty_file))) as H.
  destruct H as (H & _ & G). split.
  - discharge H. destruct H as [H _]. discharge H.
    rewrite H. split; reflexivity.
  - specialize (G opts (Some empty_file)
                  (fst (main (process 1 echo_ok) opts
                             (boot (Some empty_file))))
                  (snd (main (process 1 echo_ok) opts
                             (boot (Some empty_file))))).
    discharge G.
    destruct G as (_ & before & between & G1 & _ & _ & G2 & _).
    exists before, between. split; [exact G1|exact G2].
Defined.

(** C4 as stated fails: [writeCache] takes a lock of its own, on the
    data file, and dies without truncating or printing when the system
    refuses that lock. *)
Lemma C4_counterexample :
  count is_flock
    (log (snd (writeCache (process 1 echo_ok) path "ok"
                          (boot (Some empty_file)))))
  = 1%nat
  /\ In (EvFlock DataFile LOCK_EX)
        (log (snd (writeCache (process 1 echo_ok) path "ok"
                              (boot (Some empty_file)))))
  /\ writeCache unlockable path "ok" (boot (Some empty_file))
     = (Die FlockWriteFailed,
        mkWorld (Some (mkFile EmptyString 990 owner_rw)) EmptyString
                ("flock " ++ path ++ " LOCK_EX: No locks available" ++ NL)
                0 [EvOpen DataFile; EvChmod owner_rw;
                   EvFlock DataFile LOCK_EX]).
Proof.
  split; [vm_compute; reflexivity|]. split; [|vm_compute; reflexivity].
  vm_compute. right. right. left. reflexivity.
Qed.

(** [echo ok] under the validator [.+]: compiled once, and accepted. *)
Lemma C5_witness :
  count is_qr
    (log (snd (main (process 1 echo_ok) opts (boot (Some empty_file)))))
  = 1%nat
  /\ fst (run "spawnBurstSync" (process 1 echo_ok) opts (Some empty_file))
     = Returned ("ok" ++ NL).
Proof.
  pose proof (C5_validator_dotall_only "spawnBurstSync" (process 1 echo_ok)
                opts (Some empty_file)
                (fst (main (process 1 echo_ok) opts (boot (Some empty_file))))
                (snd (main (process 1 echo_ok) opts (boot (Some empty_file)))))
    as H.
  discharge H. destruct H as (H1 & _ & H2).
  split; [exact H1|].
  assert (count is_exec
            (log (snd (main (process 1 echo_ok) opts
                            (boot (Some empty_file))))) = 1%nat) as X1
    by (vm_compute; reflexivity).
  assert (writes_ok (process 1 echo_ok)) as X2
    by (repeat split; reflexivity).
  destruct (H2 X1 eq_refl X2) as [H3 _].
  apply (proj2 H3). vm_compute; reflexivity.
Defined.

(** C5 as stated fails: the text of two lines [a] and [b] holds the
    pattern [^b] under multiline matching, yet the script refuses it as
    the output of the command and prints nothing to the file. *)
Lemma C5_counterexample :
  found_in (mkMods true true)
           (list_ascii_of_string
              (cmd_stdout (qx (process 1 two_lines) (cmd opts_b))))
           (validator opts_b)
  = true
  /\ fst (run "spawnBurstSync" (process 1 two_lines) opts_b
              (Some empty_file))
     = Thrown ("spawnBurstSync() failed with status 255: "
                 ++ "response is not valid: a" ++ NL ++ "b")
  /\ count is_write
       (log (snd (run "spawnBurstSync" (process 1 two_lines) opts_b
                      (Some empty_file))))
     = O.
Proof. repeat split; vm_compute; reflexivity. Qed.

(** [exit 1] on the empty file of the tests: the caller is thrown an
    error and the file is as it was. *)
Lemma C6_witness :
  exists f',
    dataFile (snd (run "spawnBurstSync" (process 1 exit_one) opts
                       (Some empty_file)))
    = Some f'
    /\ content f' = EmptyString /\ mtime f' = 990.
Proof.
  pose proof (C6_failure_keeps_file "spawnBurstSync" (process 1 exit_one)
                opts empty_file
                (text_of (fst (run "spawnBurstSync" (process 1 exit_one)
                                   opts (Some empty_file))))
                (snd (run "spawnBurstSync" (process 1 exit_one) opts
                          (Some empty_file))))
    as H.
  discharge H. destruct H as (f' & H1 & H2 & H3 & _).
  exists f'. auto.
Defined.

(** [echo bad >&2; exit 1]: the message holds [bad] and the script's
    complaint. *)
Lemma C7_witness :
  fst (run "spawnBurstSync" (process 1 exit_one) opts (Some empty_file))
  = Thrown ("spawnBurstSync() failed with status 1: bad" ++ NL
              ++ "command exited with nonzero status 256")
  /\ count is_write
       (log (snd (main (process 1 exit_one) opts (boot (Some empty_file)))))
     = O.
Proof.
  pose proof (C7_nonzero_status_throws "spawnBurstSync"
                (process 1 exit_one) opts (Some empty_file)
                (fst (main (process 1 exit_one) opts (boot (Some empty_file))))
                (snd (main (process 1 exit_one) opts (boot (Some empty_file)))))
    as H.
  discharge H. cbv zeta in H. destruct H as (_ & H1 & _ & _ & H2 & _).
  split; [|exact H1]. rewrite H2. vm_compute. reflexivity.
Defined.

(** [echo ok] where there is no data file yet: the first read creates
    it with the mode the process creates files with, 0644, and the file
    that the write leaves has mode 0600. *)
Lemma C8_witness :
  create_mode (process 1 echo_ok) = 420
  /\ exists f',
       dataFile (snd (main (process 1 echo_ok) opts (boot None))) = Some f'
       /\ content f' = "1: Mon Nov  2 12:00:06 2026" ++ NL ++ "ok" ++ NL
       /\ mode f' = owner_rw.
Proof.
  pose proof (C8_written_file_owner_only (process 1 echo_ok) opts None
                (fst (main (process 1 echo_ok) opts (boot None)))
                (snd (main (process 1 echo_ok) opts (boot None))))
    as H.
  discharge H. destruct H as [H _].
  destruct H as (f' & H1 & H2 & H3 & _); [vm_compute; discriminate|].
  split; [reflexivity|].
  exists f'. split; [exact H1|]. split; [|exact H3].
  rewrite H2. vm_compute. reflexivity.
Defined.

(** Five processes running [echo ok] at the empty file of the tests,
    let through the lock in the reverse of the order they arrived in. *)
Lemma C9_witness :
  exists done f2,
    serve opts (rev (fst (arrivals opts (five echo_ok) (Some empty_file))))
          (snd (arrivals opts (five echo_ok) (Some empty_file)))
    = (done, f2)
    /\ total is_exec done = 1%nat /\ total is_write done = 1%nat
    /\ List.length done = 5%nat.
Proof.
  pose proof (C9_burst_coalesces "spawnBurst" opts (five echo_ok)
                (Some empty_file)
                (fst (arrivals opts (five echo_ok) (Some empty_file)))
                (rev (fst (arrivals opts (five echo_ok) (Some empty_file))))
                (snd (arrivals opts (five echo_ok) (Some empty_file))))
    as H.
  assert (5 <= List.length (five echo_ok))%nat as X1 by (vm_compute; lia).
  assert (readable (Some empty_file)) as X2 by (left; reflexivity).
  assert (Forall (fun e => healthy e /\ succeeds opts e
                           /\ fresh (Some empty_file) e) (five echo_ok))
    as X3
    by (repeat constructor; try (intros ?; reflexivity);
        vm_compute; discriminate).
  specialize (H X1 eq_refl X2 X3 eq_refl (Permutation_rev _)).
  destruct H as (first & rest & done & _ & Hs & X & W & _ & L).
  exists done. eexists. split; [exact Hs|]. auto.
Defined.

(** C9 as stated fails: five processes of a burst whose command exits
    with status 1 run the command five times, one after the other, and
    every caller is thrown an error. *)
Lemma C9_counterexample :
  total is_exec
    (fst (serve opts (fst (arrivals opts (five exit_one) (Some empty_file)))
                (snd (arrivals opts (five exit_one) (Some empty_file)))))
  = 5%nat
  /\ map (outcome_of "spawnBurst")
         (fst (serve opts
                     (fst (arrivals opts (five exit_one) (Some empty_file)))
                     (snd (arrivals opts (five exit_one) (Some empty_file)))))
     = repeat (Thrown ("spawnBurst() failed with status 1: bad" ++ NL
                         ++ "command exited with nonzero status 256"))
              5.
Proof. split; vm_compute; reflexivity. Qed.

(** A data file cut short inside its writer line. *)
Lemma C10_witness :
  main (process 1 echo_ok) opts (boot (Some torn))
  = (Die InvalidFormat,
     mkWorld (Some torn) EmptyString
             ("invalid format of " ++ path ++ NL) 0
             [EvQr; EvOpen DataFile; EvFlock DataFile LOCK_SH; EvSeek;
              EvSlurp]).
Proof.
  pose proof (C10_no_newline_blocks "spawnBurstSync" (process 1 echo_ok)
                opts torn) as H.
  discharge H. destruct H as (_ & H & _). exact H.
Defined.

(* ================================================================== *)
(** * Further properties of the script and of the Node side *)

Import Cases.

(* ------------------------------------------------------------------ *)
(** ** The record on disk *)

(** X1.  What [writeCache] stores, [readCache] gives back: after a
    write that returned, a read by any process, the system refusing none
    of its calls, returns the writer line of the writing process, the
    payload as it was handed to the write, whatever characters it holds,
    and the time since the write; the read changes nothing but the
    log. *)
Theorem X1_write_then_read (e e' : env) (k : snap) (file file' data : string)
        (w w1 : world) :
  writeCache e file data w = (Ret tt, w1) ->
  reads_ok e' k ->
  no_nl (localtime e) = true ->
  exists l,
    readCache e' k file' w1
    = (Ret (writer_line e, data, now e' k - now_write e),
       mkWorld (dataFile w1) (out w1) (err w1) (child w1) (log w1 ++ l))
    /\ idle l.
Proof.
  intros Hw Hr Hnl.
  apply writeCache_frame in Hw as (_ & _ & Hf).
  rewrite (readCache_snapshot e' k file' w1 (written e data) _ Hr Hf
             (snapshot_written e e' k data Hnl)).
  exists (read_events (written e data)). rewrite Hf.
  split; [reflexivity|apply count_read_events].
Qed.

(** X2.  The pattern of line 170 splits a content in one way only: a
    content parses into a writer and a payload exactly when it is that
    writer, a newline and that payload, the writer being not empty and
    holding no newline; so the payload may hold newlines, and may be
    empty, and comes back as it is. *)
Theorem X2_record_format (s writer data : string) :
  parse_record s = Some (writer, data)
  <-> s = writer ++ NL ++ data
      /\ writer <> EmptyString /\ no_nl writer = true.
Proof.
  split.
  - apply parse_record_inv.
  - intros (-> & Hne & Hnl). now apply parse_record_line.
Qed.

(** X3.  Whatever the system does, [readCache] leaves a data file that
    exists exactly as it is, content, modification time and mode; it
    prints nothing to stdout, leaves [$?] alone, runs no command and
    prints nothing to the file; and it complains on stderr only when it
    dies. *)
Theorem X3_readCache_reads_only (e : env) (k : snap) (file : string)
        (w w' : world) (f : Sys.file) (r : result (string * string * Z)) :
  dataFile w = Some f ->
  readCache e k file w = (r, w') ->
  dataFile w' = Some f /\ out w' = out w /\ child w' = child w
  /\ (exists l, log w' = (log w ++ l)%list /\ idle l)
  /\ match r with
     | Ret (writer, data, age) =>
         err w' = err w /\ snapshot e k f = Some (writer, data, age)
     | Die _ => True
     | Exit _ => False
     end.
Proof.
  intros Hf Hr.
  destruct (readCache_frame _ _ _ _ _ f _ Hf Hr) as ((H1 & H2 & H3) & Hx).
  pose proof (readCache_log _ _ _ _ _ _ Hr) as Hl.
  repeat (split; [assumption|]).
  destruct r as [[[writer data] age]| |]; [|exact I|exact (Hx _ eq_refl)].
  destruct (readCache_streams _ _ _ _ _ _ Hr) as (_ & He & _).
  split; [exact He|].
  revert Hr. unfold readCache, snapshot. unfold_prims.
  cbn -[append parse_record String.eqb]. rewrite Hf.
  fork; cbn -[append parse_record String.eqb]; [|discriminate].
  fork; cbn -[append parse_record String.eqb]; [|discriminate].
  fork; cbn -[append parse_record String.eqb]; [|discriminate].
  destruct (content f =? EmptyString)%string; cbn -[append parse_record].
  - now intros [= <- <- <- _].
  - destruct (parse_record (content f)) as [[wr d]|]; cbn -[append];
      [|discriminate].
    now intros [= <- <- <- _].
Qed.

(* ------------------------------------------------------------------ *)
(** ** What the caller gets *)

(** Whatever it ends with and whatever the data file is, [readCache]
    prints nothing to stdout. *)
Lemma readCache_out (e : env) (k : snap) (file : string) (w w' : world)
      (r : result (string * string * Z)) :
  readCache e k file w = (r, w') -> out w' = out w.
Proof.
  unfold readCache. unfold_prims. cbn -[append parse_record String.eqb].
  fork; cbn -[append parse_record String.eqb];
    [|intros E; inversion E; reflexivity].
  destruct (dataFile w) as [f|]; cbn -[append parse_record String.eqb].
  - fork; cbn -[append parse_record String.eqb];
      [|intros E; inversion E; reflexivity].
    fork; cbn -[append parse_record String.eqb];
      [|intros E; inversion E; reflexivity].
    destruct (content f =? EmptyString)%string; cbn -[append parse_record];
      [intros E; inversion E; reflexivity|].
    destruct (parse_record (content f)) as [[wr d]|]; cbn -[append];
      intros E; inversion E; reflexivity.
  - fork; cbn -[append parse_record String.eqb];
      [|intros E; inversion E; reflexivity].
    fork; cbn -[append parse_record String.eqb];
      [|intros E; inversion E; reflexivity].
    intros E; inversion E; reflexivity.
Qed.

(** Whatever the data file is, [readCache] never exits. *)
Lemma readCache_no_exit (e : env) (k : snap) (file : string) (w w' : world)
      (code : Z) :
  readCache e k file w <> (Exit code, w').
Proof.
  unfold readCache. unfold_prims. cbn -[append parse_record String.eqb].
  fork; cbn -[append parse_record String.eqb]; [|discriminate].
  destruct (dataFile w) as [f|]; cbn -[append parse_record String.eqb].
  - fork; cbn -[append parse_record String.eqb]; [|discriminate].
    fork; cbn -[append parse_record String.eqb]; [|discriminate].
    destruct (content f =? EmptyString)%string; cbn -[append parse_record];
      [discriminate|].
    destruct (parse_record (content f)) as [[wr d]|]; cbn -[append];
      discriminate.
  - fork; cbn -[append parse_record String.eqb]; [|discriminate].
    fork; cbn -[append parse_record String.eqb]; [|discriminate].
    discriminate.
Qed.

(** How the script can end: by the [exit(0)] of line 146 or by running
    off its end, and then its stdout is one text that the validator is
    found in; or by dying, and then its stdout is empty. *)
Lemma main_ends (e : env) (o : SpawnBurstOptions) (f0 : option Sys.file)
      (r : result unit) (w' : world) :
  main e o (boot f0) = (r, w') ->
  match r with
  | Ret _ => matches (compiled o) (out w') = true
  | Exit code => code = 0 /\ matches (compiled o) (out w') = true
  | Die _ => out w' = EmptyString
  end.
Proof.
  rewrite main_eq.
  destruct (arrive e o (boot f0)) as [ra wa] eqn:Ha.
  destruct (boot_arrive_counts _ _ _ _ _ Ha) as (_ & _ & _ & O0).
  destruct ra as [[re ow]| |].
  2:{ intros E; inversion E; subst. exact O0. }
  2:{ exfalso. rewrite arrive_eq in Ha.
      destruct (readCache _ _ _ _) as [[[[a b] c]| |] w1] eqn:Hr;
        try discriminate.
      exact (readCache_no_exit _ _ _ _ _ _ Hr). }
  apply arrive_streams in Ha as (_ & _ & _ & ->). fold (compiled o).
  destruct (lock_ok_dec e) as [Hl|Hl].
  2:{ destruct (critical_no_lock e o (compiled o) ow (waited e wa) Hl)
        as (why & msg & l & -> & _).
      intros E; inversion E; subst. exact O0. }
  rewrite (critical_eq _ _ _ _ _ Hl).
  destruct (readCache e Post _ _) as [rr w1] eqn:Hr.
  pose proof (readCache_out _ _ _ _ _ _ Hr) as O1. cbn in O1.
  rewrite O0 in O1.
  destruct rr as [[[writer data] age]| |].
  - destruct (reuse_test o (compiled o) data age) eqn:Hreuse.
    { intros E; inversion E; subst. cbn. rewrite O1.
      apply reuse_test_true in Hreuse. tauto. }
    destruct (run_test (compiled o) ow writer data) eqn:Hrun.
    + destruct (execute e o (compiled o) w1) as [rx w2] eqn:He.
      apply execute_frame in He as [O2 He].
      destruct rx as [d| |]; intros E; inversion E; subst; cbn.
      * rewrite O2, O1. tauto.
      * congruence.
      * destruct He.
    + intros E; inversion E; subst. cbn. rewrite O1. cbn.
      unfold run_test in Hrun.
      apply orb_false_iff in Hrun as [Hrun _].
      apply orb_false_iff in Hrun as [_ Hrun].
      now apply negb_false_iff in Hrun.
  - intros E; inversion E; subst. exact O1.
  - exfalso. exact (readCache_no_exit _ _ _ _ _ _ Hr).
Qed.

(** X4.  Whatever the data file holds, whatever the system and the
    other processes do: a text that [spawnBurstSync] or [spawnBurst]
    returns is one that the validator, compiled under [/s], is found
    in.  It is either a cached payload that passed the test of line 144
    or of line 151, or the output of the command that passed line
    154. *)
Theorem X4_returned_text_is_valid (func : string) (e : env)
        (o : SpawnBurstOptions) (f0 : option Sys.file)
        (text : string) (w' : world) :
  run func e o f0 = (Returned text, w') ->
  found_in (mkMods true false) (list_ascii_of_string text) (validator o)
  = true.
Proof.
  unfold run, spawn.
  destruct (main e o (boot f0)) as [r w1] eqn:Hm.
  pose proof (main_ends _ _ _ _ _ Hm) as He.
  destruct r as [[]|why|code].
  - rewrite processResult_returned by reflexivity.
    intros [= <- _]. exact He.
  - rewrite processResult_thrown; [discriminate|].
    cbn. intros [= H]. exact (die_status_nonzero _ _ H).
  - destruct He as [-> He]. rewrite processResult_returned by reflexivity.
    intros [= <- _]. exact He.
Qed.

Lemma die_status_range (a b : Z) : 1 <= die_status a b <= 255.
Proof.
  unfold die_status.
  assert (forall x, 0 <= Z.land x 255 <= 255) as Hb.
  { intros x. change 255 with (Z.ones 8). rewrite Z.land_ones by lia.
    pose proof (Z.mod_pos_bound x (2 ^ 8) eq_refl). change (2 ^ 8) with 256 in *.
    change (Z.ones 8) with 255. lia. }
  destruct (Z.land a 255 =? 0) eqn:Ha; cbn [negb].
  - destruct (Z.land (Z.shiftr b 8) 255 =? 0) eqn:Hc; cbn [negb].
    + lia.
    + apply Z.eqb_neq in Hc. specialize (Hb (Z.shiftr b 8)). lia.
  - apply Z.eqb_neq in Ha. specialize (Hb a). lia.
Qed.

(** X5.  For a process that ran the script to its own end and whose
    exit status and two streams Node holds whole, [processResult]
    returns a text exactly when the script did not die, and the text is
    then the script's whole stdout, untrimmed; it throws exactly when
    the script died, the status in the message being the one [die] exits
    with, between 1 and 255, and the script having printed nothing to
    stdout.  A result without a status, that of a process that did not
    exit by itself, is thrown with status [null] whatever the script
    did. *)
Theorem X5_outcome_follows_script (func : string) (e : env)
        (o : SpawnBurstOptions) (f0 : option Sys.file)
        (r : result unit) (w' : world) (res : Result) :
  main e o (boot f0) = (r, w') ->
  (captured e r w' res ->
   match r with
   | Die _ =>
       out w' = EmptyString
       /\ 1 <= die_status (errno e) (child w') <= 255
       /\ processResult func res
          = Thrown (func ++ "() failed with status "
                         ++ dec (die_status (errno e) (child w')) ++ ": "
                         ++ (if (trim (err w') =? EmptyString)%string
                             then "<empty stderr>" else trim (err w')))
   | _ => processResult func res = Returned (out w')
   end)
  /\ (status res = None ->
      processResult func res
      = Thrown (func ++ "() failed with status null: "
                     ++ (if (trim (stderr res) =? EmptyString)%string
                         then "<empty stderr>" else trim (stderr res))))
  /\ captured e r w' (fst (spawn e o f0)).
Proof.
  intros Hm. pose proof (main_ends _ _ _ _ _ Hm) as He.
  split; [|split].
  - intros (Hst & Hout & Herr).
    destruct r as [[]|why|code].
    + rewrite processResult_returned; [now rewrite Hout|exact Hst].
    + split; [exact He|]. split; [apply die_status_range|].
      rewrite processResult_thrown.
      * rewrite Hst, Herr. reflexivity.
      * rewrite Hst. cbn. intros [= H]. exact (die_status_nonzero _ _ H).
    + destruct He as [-> _].
      rewrite processResult_returned; [now rewrite Hout|exact Hst].
  - intros Hst. rewrite processResult_thrown; [|now rewrite Hst].
    rewrite Hst. reflexivity.
  - unfold spawn. rewrite Hm. repeat split.
Qed.

(* ------------------------------------------------------------------ *)
(** ** What an invocation never does *)

(** X6.  Whatever the data file holds, whatever the system and the
    other processes do, one invocation runs the command at most once and
    prints to the data file at most once; it prints to the file only
    after having run the command, and only in a script that then runs
    to its end: an invocation that serves a cached payload, or that
    dies, has printed nothing to the file. *)
Theorem X6_at_most_one_run_and_one_write (e : env) (o : SpawnBurstOptions)
        (f0 : option Sys.file) (r : result unit) (w' : world) :
  main e o (boot f0) = (r, w') ->
  (count is_exec (log w') <= 1)%nat
  /\ (count is_write (log w') <= count is_exec (log w'))%nat
  /\ (count is_write (log w') = 1%nat -> r = Ret tt)
  /\ (count is_exec (log w') = O -> count is_write (log w') = O).
Proof.
  intros Hm. destruct (main_log _ _ _ _ _ Hm) as (_ & Hx & Hw & Hr).
  repeat split; try assumption.
  - intros H1. destruct r as [[]| |]; [reflexivity| |];
      rewrite Hr in H1; discriminate.
  - intros H0. lia.
Qed.

(** X7.  The command is run, and the data file printed to, only by a
    process that holds the singleton lock: in the log of an invocation
    that ran the command, the exclusive lock on the lock file was
    asked for and granted before the command was run, and before it
    nothing was run or printed to the file, the one lock taken being the
    shared lock of the first read. *)
Theorem X7_runs_only_under_the_lock (e : env) (o : SpawnBurstOptions)
        (f0 : option Sys.file) (r : result unit) (w' : world) :
  main e o (boot f0) = (r, w') ->
  count is_exec (log w') = 1%nat ->
  lock_ok e
  /\ exists before after,
       log w' = (before ++ EvFlock LockFile LOCK_EX :: after)%list
       /\ count is_exec before = O /\ count is_write before = O
       /\ count is_flock before = 1%nat
       /\ count is_exec after = 1%nat.
Proof.
  intros Hm Hx. rewrite main_eq in Hm.
  destruct (arrive e o (boot f0)) as [ra wa] eqn:Ha.
  destruct (boot_arrive_counts _ _ _ _ _ Ha) as (X0 & _ & W0 & _).
  destruct ra as [[re ow]| |];
    try (inversion Hm; subst; rewrite X0 in Hx; discriminate).
  assert (count is_flock (log wa) = 1%nat) as F0.
  { clear - Ha. rewrite arrive_eq in Ha.
    destruct (readCache _ _ _ _) as [[[[a b] c]| |] w1] eqn:Hr;
      try discriminate.
    injection Ha as _ _ <-. revert Hr.
    unfold readCache. unfold_prims. cbn -[append parse_record String.eqb].
    fork; cbn -[append parse_record String.eqb]; [|discriminate].
    destruct f0 as [f|]; cbn -[append parse_record String.eqb].
    - fork; cbn -[append parse_record String.eqb]; [|discriminate].
      fork; cbn -[append parse_record String.eqb]; [|discriminate].
      destruct (content f =? EmptyString)%string;
        cbn -[append parse_record]; [now intros [= _ _ _ <-]|].
      destruct (parse_record (content f)) as [[wr d]|]; cbn -[append];
        [|discriminate].
      now intros [= _ _ _ <-].
    - fork; cbn -[append parse_record String.eqb]; [|discriminate].
      fork; cbn -[append parse_record String.eqb]; [|discriminate].
      now intros [= _ _ _ <-]. }
  destruct (lock_ok_dec e) as [Hl|Hl].
  2:{ destruct (critical_no_lock e o re ow (waited e wa) Hl)
        as (why & msg & l & Hc & _ & (I1 & _)).
      rewrite Hc in Hm. inversion Hm; subst.
      cbn [log] in Hx. rewrite count_app, X0, I1 in Hx. discriminate. }
  split; [exact Hl|].
  rewrite (critical_eq _ _ _ _ _ Hl) in Hm.
  destruct (readCache e Post _ _) as [rr w1] eqn:Hr.
  pose proof (readCache_log _ _ _ _ _ _ Hr) as (l1 & Hl1 & R1 & _ & R3).
  cbn [log locked waited] in Hl1.
  assert (count is_exec (log w1) = O) as X1.
  { rewrite Hl1, !count_app, X0, R1. reflexivity. }
  destruct rr as [[[writer data] age]| |];
    try (inversion Hm; subst; rewrite X1 in Hx; discriminate).
  destruct (reuse_test o re data age);
    [inversion Hm; subst; cbn [log said] in Hx; rewrite X1 in Hx;
     discriminate|].
  destruct (run_test re ow writer data);
    [|inversion Hm; subst; cbn [log said] in Hx; rewrite X1 in Hx;
      discriminate].
  destruct (execute e o re w1) as [rx w2] eqn:He.
  apply execute_log in He as (l2 & Hl2 & E1 & _).
  assert (log w' = log w2) as ->.
  { destruct rx; inversion Hm; subst; reflexivity. }
  exists (log wa ++ [EvOpen LockFile])%list,
         (l1 ++ EvExec (cmd o) :: l2)%list.
  split.
  { rewrite Hl2, Hl1. rewrite <- !app_assoc. reflexivity. }
  rewrite !count_app, X0, W0, F0.
  change (EvExec (cmd o) :: l2) with ([EvExec (cmd o)] ++ l2)%list.
  rewrite count_app, R1, E1. repeat split.
Qed.

(** X8.  A cached payload that is empty, or that the validator is not
    found in, is never served, whoever wrote it and whatever
    [cacheMaxAgeSec] is: when the second read yields such a payload the
    command is run. *)
Theorem X8_unusable_cache_forces_run (func : string) (e : env)
        (o : SpawnBurstOptions) (f0 : option Sys.file) (re : regex) (oldWriter : string)
        (wa : world) (f1 : Sys.file) (writer data : string) (age : Z)
        (r : result unit) (w' : world) :
  arrive e o (boot f0) = (Ret (re, oldWriter), wa) ->
  lock_ok e -> reads_ok e Post ->
  meanwhile e (dataFile wa) = Some f1 ->
  snapshot e Post f1 = Some (writer, data, age) ->
  data = EmptyString \/ matches re data = false ->
  main e o (boot f0) = (r, w') ->
  count is_exec (log w') = 1%nat
  /\ (forall text, fst (run func e o f0) = Returned text ->
      text = cmd_stdout (qx e (cmd o))).
Proof.
  intros Ha Hl Hr Hm Hs Hbad Hmain. pose proof Hmain as Hmain'.
  rewrite main_eq, Ha in Hmain.
  rewrite (critical_on_snapshot e o re oldWriter (waited e wa) f1
             writer data age Hl Hr Hm Hs) in Hmain.
  destruct (boot_arrive_counts _ _ _ _ _ Ha) as (Hx & _ & _ & Hout).
  destruct (count_read_events f1) as (R1 & _ & _).
  assert (reuse_test o re data age = false) as Hreuse.
  { destruct (reuse_test o re data age) eqn:H; [|reflexivity].
    apply reuse_test_true in H as (H1 & H2 & _).
    destruct Hbad; congruence. }
  assert (run_test re oldWriter writer data = true) as Hrun.
  { apply run_test_true. tauto. }
  rewrite Hreuse, Hrun in Hmain.
  destruct (execute e o re _) as [rx w2] eqn:He.
  pose proof (execute_log _ _ _ _ _ _ He) as (l & Hlog & E1 & _).
  apply execute_frame in He as [O2 He].
  assert (count is_exec (log w2) = 1%nat) as Hc.
  { rewrite Hlog. cbn [log locked waited].
    change (EvExec (cmd o) :: l) with ([EvExec (cmd o)] ++ l)%list.
    rewrite !count_app, Hx, R1, E1. reflexivity. }
  split.
  { destruct rx as [d| |]; inversion Hmain; subst; exact Hc. }
  intros text. unfold run, spawn. rewrite Hmain'. cbn [fst].
  destruct rx as [d| |]; inversion Hmain; subst.
  - rewrite processResult_returned by reflexivity.
    intros [= <-]. cbn. rewrite O2. cbn. rewrite Hout.
    destruct He as (-> & _). reflexivity.
  - rewrite processResult_thrown; [discriminate|].
    cbn. intros [= H]. exact (die_status_nonzero _ _ H).
  - destruct He.
Qed.

(* ------------------------------------------------------------------ *)
(** ** An invocation on its own, and invocations in turn *)

(** The data file once the first read has gone through: the file that
    was there, or the empty one that [open] created. *)
Lemma arrive_readable (e : env) (o : SpawnBurstOptions)
      (f0 : option Sys.file) :
  reads_ok e Pre -> readable f0 ->
  exists wa,
    arrive e o (boot f0) = (Ret (compiled o, first_writer f0), wa)
    /\ dataFile wa
       = Some (match f0 with
               | Some f => f
               | None => mkFile EmptyString (now e Pre) (create_mode e)
               end).
Proof.
  intros He Hf. rewrite arrive_eq. destruct f0 as [f|].
  - destruct (snapshot_readable e Pre f Hf) as (d & a & Hs).
    rewrite (readCache_snapshot e Pre _ (compiling (boot (Some f))) f _
               He eq_refl Hs).
    eexists. split; reflexivity.
  - rewrite (readCache_absent e Pre _ (compiling (boot None)) He eq_refl).
    eexists. split; reflexivity.
Qed.

(** An invocation that no other process interferes with finds at its
    second read the writer it found at its first, so that it never takes
    the adopting branch of line 151: it serves the cache by the test of
    line 144 or it runs the command. *)
Lemma alone_main (e : env) (o : SpawnBurstOptions) (f0 : option Sys.file) :
  reads_ok e Pre -> lock_ok e -> reads_ok e Post -> alone e ->
  readable f0 ->
  exists data age w1,
    snapshot e Post (match f0 with
                     | Some f => f
                     | None => mkFile EmptyString (now e Pre) (create_mode e)
                     end)
    = Some (first_writer f0, data, age)
    /\ dataFile w1
       = Some (match f0 with
               | Some f => f
               | None => mkFile EmptyString (now e Pre) (create_mode e)
               end)
    /\ out w1 = EmptyString /\ err w1 = EmptyString
    /\ count is_exec (log w1) = O /\ count is_write (log w1) = O
    /\ main e o (boot f0)
       = if reuse_test o (compiled o) data age then (Exit 0, said data w1)
         else match execute e o (compiled o) w1 with
              | (Ret d, w2) => (Ret tt, said d w2)
              | (Die why, w2) => (Die why, w2)
              | (Exit code, w2) => (Exit code, w2)
              end.
Proof.
  intros Hr0 Hl Hr1 Hal Hf.
  destruct (arrive_readable e o f0 Hr0 Hf) as (wa & Ha & Hfa).
  destruct (boot_arrive_counts _ _ _ _ _ Ha) as (X0 & _ & W0 & O0).
  pose proof (arrive_streams _ _ _ _ _ _ Ha) as (_ & E0 & _ & _).
  set (f := match f0 with
            | Some f => f
            | None => mkFile EmptyString (now e Pre) (create_mode e)
            end) in *.
  assert (readable (Some f)) as Hf'.
  { unfold f. destruct f0; [exact Hf|now left]. }
  assert (first_writer (Some f) = first_writer f0) as Hw.
  { unfold f. destruct f0; reflexivity. }
  destruct (snapshot_readable e Post f Hf') as (data & age & Hs).
  rewrite Hw in Hs.
  destruct (count_read_events f) as (R1 & _ & R3).
  exists data, age,
    (mkWorld (Some f) (out (waited e wa)) (err (waited e wa))
             (child (waited e wa))
             (log (locked (waited e wa)) ++ read_events f)).
  split; [exact Hs|].
  rewrite main_eq, Ha.
  assert (dataFile (waited e wa) = Some f) as Hfw.
  { cbn [dataFile waited]. rewrite Hal. exact Hfa. }
  rewrite (critical_on_snapshot e o (compiled o) (first_writer f0)
             (waited e wa) f (first_writer f0) data age Hl Hr1 Hfw Hs).
  assert (run_test (compiled o) (first_writer f0) (first_writer f0) data
          = true) as -> by (apply run_test_true; auto).
  split; [reflexivity|]. cbn [out err log waited locked].
  rewrite O0. cbn in E0. rewrite E0.
  rewrite !count_app, X0, W0, R1, R3.
  repeat split; reflexivity.
Qed.

(** X9.  Without another process writing meanwhile there is nothing to
    adopt: an invocation that no one interferes with runs the command
    exactly when the test of line 144 fails on what the data file holds;
    otherwise it exits at line 146 with the cached payload and the file
    as it was.  So with [cacheMaxAgeSec] at zero or below it always runs
    the command. *)
Theorem X9_alone_runs_unless_fresh (e : env) (o : SpawnBurstOptions)
        (f : Sys.file) (writer data : string) (age : Z)
        (r : result unit) (w' : world) :
  reads_ok e Pre -> lock_ok e -> reads_ok e Post -> alone e ->
  snapshot e Post f = Some (writer, data, age) ->
  main e o (boot (Some f)) = (r, w') ->
  (count is_exec (log w') = 1%nat
   <-> reuse_test o (compiled o) data age = false)
  /\ (count is_exec (log w') <> 1%nat ->
      r = Exit 0 /\ out w' = data /\ dataFile w' = Some f
      /\ count is_exec (log w') = O)
  /\ (cacheMaxAgeSec o <= 0 -> count is_exec (log w') = 1%nat).
Proof.
  intros Hr0 Hl Hr1 Hal Hs Hm.
  assert (readable (Some f)) as Hf.
  { unfold snapshot in Hs. cbn.
    destruct (content f =? EmptyString)%string eqn:Hc.
    - left. now apply eqb_empty.
    - right. destruct (parse_record (content f)); [discriminate|].
      discriminate. }
  destruct (alone_main e o (Some f) Hr0 Hl Hr1 Hal Hf)
    as (data' & age' & w1 & Hs' & Hf1 & O1 & E1 & X1 & W1 & Hmain).
  rewrite Hs in Hs'. injection Hs' as _ <- <-.
  rewrite Hm in Hmain.
  assert (reuse_test o (compiled o) data age = false ->
          count is_exec (log w') = 1%nat) as Hrun.
  { intros Hre. rewrite Hre in Hmain.
    destruct (execute e o (compiled o) w1) as [rx w2] eqn:He.
    apply execute_log in He as (l & Hlog & Ex & _).
    assert (log w' = log w2) as ->
      by (destruct rx; inversion Hmain; subst; reflexivity).
    rewrite Hlog.
    change (EvExec (cmd o) :: l) with ([EvExec (cmd o)] ++ l)%list.
    rewrite !count_app, X1, Ex. reflexivity. }
  assert (reuse_test o (compiled o) data age = true ->
          r = Exit 0 /\ out w' = data /\ dataFile w' = Some f
          /\ count is_exec (log w') = O) as Hreuse.
  { intros Hre. rewrite Hre in Hmain. injection Hmain as -> ->.
    cbn. rewrite O1. auto. }
  destruct (reuse_test o (compiled o) data age) eqn:Hre.
  - destruct (Hreuse eq_refl) as (-> & Ho & Hfile & Hx).
    split; [rewrite Hx; split; discriminate|].
    split; [intros _; auto|].
    intros Hmax. apply reuse_test_true in Hre. lia.
  - pose proof (Hrun eq_refl) as Hx.
    split; [tauto|]. split; [intros H; now elim H|auto].
Qed.

Lemma written_readable (e : env) (d : string) :
  no_nl (localtime e) = true -> readable (Some (written e d)).
Proof.
  intros Hnl. right. unfold written. cbn [content].
  rewrite (parse_record_line _ _ (writer_line_nonempty e)
             (writer_line_no_nl e Hnl)).
  discriminate.
Qed.

(** An invocation on its own for which reuse by age is off and whose
    command succeeds with an output the validator is found in. *)
Lemma alone_runs (func : string) (e : env) (o : SpawnBurstOptions)
      (f0 : option Sys.file) :
  healthy e -> alone e -> readable f0 ->
  cacheMaxAgeSec o <= 0 ->
  wait_status (qx e (cmd o)) = 0 ->
  matches (compiled o) (cmd_stdout (qx e (cmd o))) = true ->
  exists w',
    run func e o f0 = (Returned (cmd_stdout (qx e (cmd o))), w')
    /\ dataFile w' = Some (written e (cmd_stdout (qx e (cmd o))))
    /\ count is_exec (log w') = 1%nat /\ count is_write (log w') = 1%nat.
Proof.
  intros Hh Hal Hf Hmax Hst Hv.
  destruct (alone_main e o f0 (healthy_reads e Pre Hh) (healthy_lock e Hh)
              (healthy_reads e Post Hh) Hal Hf)
    as (data & age & w1 & _ & _ & O1 & _ & X1 & W1 & Hm).
  assert (reuse_test o (compiled o) data age = false) as Hre.
  { destruct (reuse_test o (compiled o) data age) eqn:H; [|reflexivity].
    apply reuse_test_true in H. lia. }
  rewrite Hre, execute_eq in Hm. cbv zeta in Hm.
  rewrite Hst, Hv in Hm. cbn [Z.eqb negb] in Hm.
  rewrite (writeCache_returns _ _ _ _ (healthy_writes e Hh)) in Hm.
  unfold run, spawn. rewrite Hm. eexists. split.
  - rewrite processResult_returned by reflexivity.
    cbn. now rewrite O1.
  - split; [reflexivity|]. cbn [log said after_exec].
    rewrite !count_app, X1, W1. split; reflexivity.
Qed.

(** X10.  A second call within the window gets the first call's text
    without running the command: after an invocation that ran the
    command and returned a text that is not empty, an invocation with
    the same validator, which no one interferes with and whose clock at
    its second read is less than [cacheMaxAgeSec] past the write, is
    returned that same text, runs nothing and leaves the data file as
    the first left it. *)
Theorem X10_second_call_within_window (func : string) (e1 e2 : env)
        (o1 o2 : SpawnBurstOptions) (f0 : option Sys.file)
        (d : string) (w1 : world) :
  run func e1 o1 f0 = (Returned d, w1) ->
  count is_exec (log w1) = 1%nat ->
  d <> EmptyString ->
  no_nl (localtime e1) = true ->
  validator o2 = validator o1 ->
  reads_ok e2 Pre -> lock_ok e2 -> reads_ok e2 Post -> alone e2 ->
  0 < cacheMaxAgeSec o2 ->
  now e2 Post - now_write e1 < cacheMaxAgeSec o2 ->
  exists w2,
    run func e2 o2 (dataFile w1) = (Returned d, w2)
    /\ dataFile w2 = dataFile w1
    /\ count is_exec (log w2) = O /\ count is_write (log w2) = O.
Proof.
  intros Hrun Hx Hd Hnl Hval Hr0 Hl Hr1 Hal Hpos Hage.
  assert (dataFile w1 = Some (written e1 d)
          /\ matches (compiled o1) d = true) as [Hf1 Hv].
  { revert Hrun. unfold run, spawn.
    destruct (main e1 o1 (boot f0)) as [r w] eqn:Hm.
    intros [= Hres ->].
    destruct (main_executed _ _ _ _ _ Hm Hx)
      as (wx & rx & w2 & He & O1 & _ & _ & _ & _ & Hend).
    apply execute_frame in He as [O2 He].
    destruct rx as [d'| |]; [|exfalso|destruct Hend].
    - destruct Hend as [-> ->]. destruct He as (_ & _ & Hv & Hfile).
      rewrite processResult_returned in Hres by reflexivity.
      injection Hres as Hres. cbn in Hres. rewrite O2, O1 in Hres.
      cbn in Hres. subst d'. cbn. auto.
    - destruct Hend as [-> ->].
      rewrite processResult_thrown in Hres; [discriminate|].
      cbn. intros [= H]. exact (die_status_nonzero _ _ H). }
  rewrite Hf1.
  destruct (alone_main e2 o2 (Some (written e1 d)) Hr0 Hl Hr1 Hal
              (written_readable e1 d Hnl))
    as (data & age & wx & Hs & Hfx & O1 & _ & X1 & W1 & Hm).
  rewrite (snapshot_written e1 e2 Post d Hnl) in Hs.
  injection Hs as _ <- <-.
  assert (reuse_test o2 (compiled o2) d (now e2 Post - now_write e1) = true)
    as Hre.
  { apply reuse_test_true. unfold compiled. rewrite Hval.
    repeat split; assumption. }
  rewrite Hre in Hm. unfold run, spawn. rewrite Hm.
  eexists. split.
  - rewrite processResult_returned by reflexivity. cbn. now rewrite O1.
  - cbn. auto.
Qed.

(** X11.  With reuse by age off, invocations that come one after the
    other, each on its own, each run the command: every caller is
    returned the output of its own run, and the data file ends as the
    record of the last one.  There is no hypothesis on what a run
    prints: two runs that print the same, or nothing, are still two
    runs. *)
Theorem X11_calls_in_turn_each_run (func : string) (o : SpawnBurstOptions)
        (es : list env) (f0 : option Sys.file) :
  cacheMaxAgeSec o <= 0 ->
  readable f0 ->
  Forall (fun e => healthy e /\ alone e
                   /\ no_nl (localtime e) = true
                   /\ wait_status (qx e (cmd o)) = 0
                   /\ matches (compiled o) (cmd_stdout (qx e (cmd o)))
                      = true) es ->
  in_turn func o es f0
  = (map (fun e => Returned (cmd_stdout (qx e (cmd o)))) es,
     fold_left (fun _ e => Some (written e (cmd_stdout (qx e (cmd o)))))
               es f0).
Proof.
  intros Hmax. revert f0.
  induction es as [|e es IH]; intros f0 Hf Hall; [reflexivity|].
  inversion Hall as [|? ? (Hh & Hal & Hnl & Hst & Hv) Hrest]; subst.
  destruct (alone_runs func e o f0 Hh Hal Hf Hmax Hst Hv)
    as (w' & Hrun & Hfile & _).
  cbn [in_turn map fold_left]. rewrite Hrun, Hfile.
  rewrite (IH _ (written_readable e _ Hnl) Hrest). reflexivity.
Qed.

(** X12.  Where there is no data file yet, the first read creates an
    empty one with the mode that [open] gives it, and the command is run
    whatever [cacheMaxAgeSec] is.  When the command succeeds with an
    output the validator is found in, the file becomes the record, with
    mode 0600; when it does not, the script dies and leaves the empty
    file it created. *)
Theorem X12_absent_file (func : string) (e : env) (o : SpawnBurstOptions)
        (r : result unit) (w' : world) :
  healthy e -> alone e ->
  main e o (boot None) = (r, w') ->
  count is_exec (log w') = 1%nat
  /\ (wait_status (qx e (cmd o)) = 0 ->
      matches (compiled o) (cmd_stdout (qx e (cmd o))) = true ->
      r = Ret tt
      /\ dataFile w' = Some (written e (cmd_stdout (qx e (cmd o))))
      /\ fst (run func e o None) = Returned (cmd_stdout (qx e (cmd o))))
  /\ (wait_status (qx e (cmd o)) <> 0
      \/ matches (compiled o) (cmd_stdout (qx e (cmd o))) = false ->
      (exists why, r = Die why)
      /\ dataFile w'
         = Some (mkFile EmptyString (now e Pre) (create_mode e))).
Proof.
  intros Hh Hal Hmain.
  destruct (alone_main e o None (healthy_reads e Pre Hh) (healthy_lock e Hh)
              (healthy_reads e Post Hh) Hal I)
    as (data & age & w1 & Hs & Hf1 & O1 & _ & X1 & W1 & Hm).
  cbn in Hs. injection Hs as <- <-.
  assert (reuse_test o (compiled o) EmptyString 0 = false) as Hre
    by reflexivity.
  rewrite Hre, Hmain, execute_eq in Hm. cbv zeta in Hm.
  destruct (wait_status (qx e (cmd o)) =? 0) eqn:Hst; cbn [negb] in Hm.
  - apply Z.eqb_eq in Hst.
    destruct (matches (compiled o) (cmd_stdout (qx e (cmd o)))) eqn:Hv;
      cbn [negb] in Hm.
    + rewrite (writeCache_returns _ _ _ _ (healthy_writes e Hh)) in Hm.
      injection Hm as -> ->. cbn [log said after_exec dataFile].
      rewrite !count_app, X1. split; [reflexivity|]. split.
      * intros _ _. split; [reflexivity|]. split; [reflexivity|].
        unfold run, spawn. rewrite Hmain. cbn. now rewrite O1.
      * intros [H|H]; congruence.
    + injection Hm as -> ->. cbn [log moaned after_exec dataFile].
      rewrite !count_app, X1. split; [reflexivity|]. split.
      * intros _ H. discriminate.
      * intros _. split; [eauto|exact Hf1].
  - apply Z.eqb_neq in Hst.
    injection Hm as -> ->. cbn [log moaned after_exec dataFile].
    rewrite !count_app, X1. split; [reflexivity|]. split.
    + intros H. now elim Hst.
    + intros _. split; [eauto|exact Hf1].
Qed.

(* ------------------------------------------------------------------ *)
(** ** The error the caller is thrown *)

Lemma trimEnd_idem (s : string) : trimEnd (trimEnd s) = trimEnd s.
Proof.
  induction s as [|c r IH]; [reflexivity|]. cbn [trimEnd].
  destruct (trimEnd r) as [|x y] eqn:Hr.
  - destruct (is_space c) eqn:Hc; [reflexivity|]. cbn. now rewrite Hc.
  - cbn [trimEnd]. cbn [trimEnd] in IH. rewrite IH. reflexivity.
Qed.

Lemma trimStart_clean (s : string) : starts_clean (trimStart s).
Proof.
  induction s as [|c r IH]; cbn; [exact I|].
  destruct (is_space c) eqn:Hc; [exact IH|exact Hc].
Qed.

Lemma trimEnd_clean (s : string) : starts_clean s -> starts_clean (trimEnd s).
Proof.
  destruct s as [|c r]; cbn; [auto|]. intros Hc.
  destruct (trimEnd r); [rewrite Hc|]; exact Hc.
Qed.

Lemma trimStart_of_clean (s : string) : starts_clean s -> trimStart s = s.
Proof. destruct s as [|c r]; cbn; [auto|]. now intros ->. Qed.

(** Trimming twice is trimming once. *)
Lemma trim_idem (s : string) : trim (trim s) = trim s.
Proof.
  unfold trim.
  rewrite (trimStart_of_clean (trimEnd (trimStart s))).
  - apply trimEnd_idem.
  - apply trimEnd_clean, trimStart_clean.
Qed.

(** X13.  Whatever the process left on its stderr, the message of the
    error that [processResult] throws for a status other than 0 has a
    body after the colon that is not empty and has no white space at
    either end: it is the trimmed stderr, or the placeholder when that
    is empty.  A status of [null], that of a process that was killed or
    never ran, is thrown for as well. *)
Theorem X13_thrown_message_body (func : string) (res : Result) :
  status res <> Some 0 ->
  exists body,
    processResult func res
    = Thrown (func ++ "() failed with status " ++ show_status (status res)
                   ++ ": " ++ body)
    /\ body <> EmptyString
    /\ trim body = body
    /\ (trim (stderr res) <> EmptyString -> body = trim (stderr res))
    /\ (trim (stderr res) = EmptyString -> body = "<empty stderr>").
Proof.
  intros Hst. rewrite (processResult_thrown func res Hst).
  destruct (trim (stderr res) =? EmptyString)%string eqn:Ht.
  - apply eqb_empty in Ht. exists "<empty stderr>".
    split; [reflexivity|]. split; [discriminate|].
    split; [reflexivity|]. split; [intros H; now elim H|reflexivity].
  - apply eqb_nonempty in Ht. exists (trim (stderr res)).
    split; [reflexivity|]. split; [exact Ht|].
    split; [apply trim_idem|]. split; [reflexivity|].
    intros H; now elim Ht.
Qed.

Lemma no_nl_escape_char (c : ascii) : no_nl (escape_char c) = true.
Proof. destruct c as [[] [] [] [] [] [] [] []]; reflexivity. Qed.

Lemma no_nl_escape (s : string) : no_nl (escape s) = true.
Proof.
  induction s as [|c r IH]; [reflexivity|]. cbn [escape].
  now rewrite no_nl_app, no_nl_escape_char, IH.
Qed.

Lemma no_nl_json_value (v : jsval) : no_nl (json_value v) = true.
Proof.
  destruct v as [s|z]; cbn [json_value]; [|apply no_nl_dec].
  cbn [no_nl]. now rewrite no_nl_app, no_nl_escape.
Qed.

Lemma no_nl_json_items (vs : list jsval) : no_nl (json_items vs) = true.
Proof.
  induction vs as [|v [|v' rest] IH]; [reflexivity|apply no_nl_json_value|].
  change (json_items (v :: v' :: rest))
    with (json_value v ++ "," ++ json_items (v' :: rest)).
  rewrite !no_nl_app, no_nl_json_value, IH. reflexivity.
Qed.

Lemma last_line_no_nl (s : string) : no_nl s = true -> last_line s = s.
Proof.
  destruct s as [|c r]; [reflexivity|]. cbn.
  intros H. apply andb_true_iff in H as [Hc Hr].
  apply negb_true_iff in Hc. now rewrite Hc, Hr.
Qed.

Lemma no_nl_with_nl (a b : string) : no_nl (a ++ String nl b) = false.
Proof.
  induction a as [|c a IH].
  - cbn [append no_nl]. now rewrite Ascii.eqb_refl.
  - cbn [append no_nl]. rewrite IH. apply andb_false_r.
Qed.

Lemma last_line_app (a l : string) :
  no_nl l = true -> last_line (a ++ NL ++ l) = l.
Proof.
  intros Hl. change (NL ++ l) with (String nl l).
  induction a as [|c a IH].
  - cbn. apply (last_line_no_nl l Hl).
  - cbn [append last_line]. rewrite IH, no_nl_with_nl.
    destruct (Ascii.eqb c nl); reflexivity.
Qed.

(** X14.  [processError] never touches the message of the error it
    rethrows, and leaves alone a stack that is not a string.  A stack
    that is a string loses the white space at its end and gains one
    line, which names the function and lists the values of the options
    as JSON: whatever the options hold, a command of several lines or a
    quote, that line holds no newline, so that it is exactly the last
    line of the new stack. *)
Theorem X14_processError_adds_one_line (func : string) (error : js_error)
        (values : list jsval) :
  no_nl func = true ->
  message (processError func error values) = message error
  /\ match stack error with
     | None => stack (processError func error values) = None
     | Some st =>
         stack (processError func error values)
         = Some (trimEnd st ++ NL ++ annotation func values)
         /\ no_nl (annotation func values) = true
         /\ forall st',
              stack (processError func error values) = Some st' ->
              last_line st' = "in " ++ func ++ "(" ++ json_array values ++ ")"
     end.
Proof.
  intros Hf. split; [reflexivity|].
  assert (no_nl (annotation func values) = true) as Hn.
  { unfold annotation, json_array.
    rewrite !no_nl_app, Hf, no_nl_json_items. reflexivity. }
  unfold processError. cbn [stack].
  destruct (stack error) as [st|]; [|reflexivity].
  split; [reflexivity|]. split; [exact Hn|].
  intros st' [= <-]. apply (last_line_app _ _ Hn).
Qed.

(* ------------------------------------------------------------------ *)
(** ** A burst whose command may fail *)

Lemma adopters_tally (func d : string) (done : list (proc unit)) :
  Forall (fun p => outcome_of func p = Returned d) done ->
  thrown_in func done = O /\ all_returned func d done.
Proof.
  unfold thrown_in, all_returned.
  induction 1 as [|x l Hx _ [IH1 IH2]]; [split; [reflexivity|constructor]|].
  split.
  - cbn [filter]. rewrite Hx. exact IH1.
  - constructor; [|exact IH2]. intros t Ht. congruence.
Qed.

(** The process at the head of the queue, in front of a data file that
    no process of the burst has written yet, runs the command: it
    writes the output and is returned it when the command works, and
    dies with the file as it was when it does not. *)
Lemma head_runs (func : string) (o : SpawnBurstOptions)
      (p : proc (regex * string)) (f : Sys.file) :
  cacheMaxAgeSec o = 0 ->
  readable (Some f) ->
  queued o (first_writer (Some f)) p ->
  healthy (penv p) ->
  exists r w,
    critical (penv p) o (compiled o) (first_writer (Some f))
             (on_file (Some f) (pworld p))
    = (r, w)
    /\ count is_exec (log w) = 1%nat
    /\ ((works o (penv p) = true
         /\ dataFile w
            = Some (written (penv p) (cmd_stdout (qx (penv p) (cmd o))))
         /\ count is_write (log w) = 1%nat
         /\ outcome_of func (mkProc (penv p) r w)
            = Returned (cmd_stdout (qx (penv p) (cmd o))))
        \/ (works o (penv p) = false
            /\ dataFile w = Some f
            /\ count is_write (log w) = O
            /\ is_thrown (outcome_of func (mkProc (penv p) r w)) = true)).
Proof.
  intros Hmax Hr (Hres & Hout & Hx & Hw) Hh.
  destruct (snapshot_readable (penv p) Post f Hr) as (data & age & Hs).
  destruct (count_read_events f) as (R1 & _ & R3).
  rewrite (critical_on_snapshot (penv p) o (compiled o) _
             (on_file (Some f) (pworld p)) f _ data age
             (healthy_lock _ Hh) (healthy_reads _ Post Hh) eq_refl Hs).
  rewrite (reuse_test_off _ _ _ _ Hmax).
  assert (run_test (compiled o) (first_writer (Some f))
                   (first_writer (Some f)) data = true) as ->
    by (apply run_test_true; auto).
  rewrite execute_eq. cbv zeta. unfold works.
  destruct (wait_status (qx (penv p) (cmd o)) =? 0) eqn:Hst;
    cbn [negb andb].
  - destruct (matches (compiled o) (cmd_stdout (qx (penv p) (cmd o))))
      eqn:Hv; cbn [negb].
    + rewrite (writeCache_returns _ _ _ _ (healthy_writes _ Hh)).
      eexists. eexists. split; [reflexivity|].
      cbn [log said after_exec locked on_file dataFile].
      rewrite !count_app, Hx, Hw, R1, R3.
      split; [reflexivity|]. left. repeat split.
      unfold outcome_of. cbn. now rewrite Hout.
    + eexists. eexists. split; [reflexivity|].
      cbn [log moaned after_exec locked on_file dataFile].
      rewrite !count_app, Hx, Hw, R1, R3.
      split; [reflexivity|]. right. repeat split.
      unfold outcome_of. rewrite processResult_thrown; [reflexivity|].
      cbn. intros [= H]. exact (die_status_nonzero _ _ H).
  - eexists. eexists. split; [reflexivity|].
    cbn [log moaned after_exec locked on_file dataFile].
    rewrite !count_app, Hx, Hw, R1, R3.
    split; [reflexivity|]. right. repeat split.
    unfold outcome_of. rewrite processResult_thrown; [reflexivity|].
    cbn. intros [= H]. exact (die_status_nonzero _ _ H).
Qed.

(** The queue in front of a data file that no process of the burst has
    written yet: the processes run the command one after the other
    until one of them succeeds, and those behind it adopt its output. *)
Lemma serve_until_success (func : string) (o : SpawnBurstOptions)
      (f : Sys.file) (q : list (proc (regex * string))) :
  cacheMaxAgeSec o = 0 ->
  readable (Some f) ->
  Forall (fun p => queued o (first_writer (Some f)) p
                   /\ healthy (penv p)
                   /\ fresh (Some f) (penv p)
                   /\ (works o (penv p) = true ->
                       cmd_stdout (qx (penv p) (cmd o)) <> EmptyString))
         q ->
  exists done f2,
    serve o q (Some f) = (done, f2)
    /\ (total is_write done <= 1)%nat
    /\ total is_exec done = (total is_write done + thrown_in func done)%nat
    /\ (exists d, all_returned func d done)
    /\ List.length done = List.length q.
Proof.
  intros Hmax Hr. induction q as [|p q IH]; intros Hall.
  - exists [], (Some f). cbn. repeat split; auto.
    exists EmptyString. constructor.
  - inversion Hall as [|? ? (Hq & Hh & (Hnl & Hfr) & Hne) Hrest]; subst.
    destruct (head_runs func o p f Hmax Hr Hq Hh)
      as (r & w & Hc & X & [(Hwk & Hf & W & Hret)|(Hwk & Hf & W & Hthr)]).
    + destruct Hq as (Hres & _).
      assert (matches (compiled o) (cmd_stdout (qx (penv p) (cmd o)))
              = true) as Hv.
      { unfold works in Hwk. now apply andb_true_iff in Hwk. }
      destruct (serve_adopt func o (penv p)
                  (cmd_stdout (qx (penv p) (cmd o)))
                  (first_writer (Some f)) q Hmax Hnl Hfr (Hne Hwk) Hv)
        as (done & Hsv & X' & W' & Hadopt & Hlen).
      { eapply Forall_impl; [|exact Hrest]. cbn. tauto. }
      destruct (adopters_tally _ _ _ Hadopt) as [T' A'].
      cbn [serve]. rewrite Hres, Hc, Hf, Hsv.
      eexists. eexists. split; [reflexivity|].
      unfold thrown_in. cbn [total fold_right pworld filter].
      rewrite Hret. cbn [is_thrown].
      fold (thrown_in func done).
      fold (total is_exec done). fold (total is_write done).
      rewrite X, W, X', W', T'.
      split; [auto|]. split; [reflexivity|]. split.
      * exists (cmd_stdout (qx (penv p) (cmd o))).
        constructor; [|exact A']. intros t Ht. congruence.
      * cbn. now rewrite Hlen.
    + destruct Hq as (Hres & _).
      destruct (IH Hrest) as (done & f2 & Hsv & W' & X' & [d Hd] & Hlen).
      cbn [serve]. rewrite Hres, Hc, Hf, Hsv.
      eexists. eexists. split; [reflexivity|].
      unfold thrown_in. cbn [total fold_right pworld filter].
      rewrite Hthr. cbn [List.length].
      fold (thrown_in func done).
      fold (total is_exec done). fold (total is_write done).
      rewrite X, W, X'.
      split; [exact W'|]. split; [cbn; lia|]. split.
      * exists d. constructor; [|exact Hd].
        intros t Ht. rewrite Ht in Hthr. discriminate.
      * cbn. now rewrite Hlen.
Qed.

(** X15.  A burst whose command may fail, with reuse by age off: all
    processes read the data file before the first of them writes it, the
    lock lets them through in any order, the system refuses nothing, and
    an output that is accepted is never empty.  Then the processes run
    the command one after the other until one run is accepted, and those
    behind it adopt its output: the data file is printed to at most
    once; the command was run once for that write and once for every
    caller that was thrown an error, and not otherwise; and all callers
    that were returned a text were returned the same text. *)
Theorem X15_burst_runs_until_success (func : string) (o : SpawnBurstOptions)
        (es : list env) (f0 : option Sys.file)
        (q q' : list (proc (regex * string))) (f1 : option Sys.file) :
  cacheMaxAgeSec o = 0 ->
  readable f0 ->
  Forall (fun e => healthy e /\ fresh f0 e
                   /\ (works o e = true ->
                       cmd_stdout (qx e (cmd o)) <> EmptyString)) es ->
  arrivals o es f0 = (q, f1) ->
  Permutation q q' ->
  exists done f2,
    serve o q' f1 = (done, f2)
    /\ (total is_write done <= 1)%nat
    /\ total is_exec done = (total is_write done + thrown_in func done)%nat
    /\ (exists d, all_returned func d done)
    /\ List.length done = List.length es.
Proof.
  intros Hmax Hr Hall Harr Hperm.
  assert (Forall healthy es) as Hh.
  { eapply Forall_impl; [|exact Hall]. cbn. tauto. }
  destruct (arrivals_queue o es f0 q f1 Hh Hr Harr)
    as (Hmap & Hq & Hr1 & Hw1 & Hsome).
  assert (List.length q' = List.length es) as Hlen.
  { rewrite <- (Permutation_length Hperm), <- Hmap. now rewrite length_map. }
  destruct es as [|e0 es0].
  { destruct q' as [|]; [|discriminate].
    exists [], f1. cbn. repeat split; auto.
    exists EmptyString. constructor. }
  destruct f1 as [f|]; [|elim Hsome; [discriminate|reflexivity]].
  destruct (serve_until_success func o f q' Hmax Hr1)
    as (done & f2 & Hs & W & X & D & L).
  { apply (Permutation_Forall Hperm).
    rewrite Forall_forall in *. intros p Hp.
    assert (In (penv p) (e0 :: es0)) as Hin
      by (rewrite <- Hmap; now apply in_map).
    destruct (Hall _ Hin) as (H1 & (H2 & H3) & H4).
    rewrite Hw1. unfold fresh. rewrite Hw1. auto. }
  exists done, f2. rewrite L. auto.
Qed.

(* ------------------------------------------------------------------ *)
(** ** An output that fails the validator, and a lock that is refused *)

Lemma includes_app_r (p x t : string) :
  includes x t -> includes (p ++ x) t.
Proof.
  intros (a & b & ->). exists (p ++ a), b. now rewrite append_assoc.
Qed.

(** X16.  In an invocation that ran the command, whose command ended
    with status 0 and an output that the validator is not found in, the
    script dies at line 154 having printed nothing to the file, and an
    existing file that no other process touches is left as it was.  The
    process's stderr is what the command wrote there followed by the
    complaint, which carries the output as it is; the caller is thrown
    an error whose message holds the words of the complaint. *)
Theorem X16_invalid_output_throws (func : string) (e : env)
        (o : SpawnBurstOptions) (f0 : option Sys.file)
        (r : result unit) (w' : world) :
  main e o (boot f0) = (r, w') ->
  count is_exec (log w') = 1%nat ->
  wait_status (qx e (cmd o)) = 0 ->
  matches (compiled o) (cmd_stdout (qx e (cmd o))) = false ->
  r = Die (NotValid (cmd_stdout (qx e (cmd o))))
  /\ count is_write (log w') = O
  /\ (forall f, f0 = Some f -> alone e -> dataFile w' = Some f)
  /\ err w' = cmd_stderr (qx e (cmd o)) ++ "response is not valid: "
                ++ cmd_stdout (qx e (cmd o)) ++ NL
  /\ (exists msg, fst (run func e o f0) = Thrown msg
                  /\ includes msg "response is not valid:").
Proof.
  intros Hm Hx Hst Hv.
  destruct (main_executed _ _ _ _ _ Hm Hx)
    as (w1 & rx & w2 & He & O1 & E1 & X1 & W1 & Hf & Hend).
  rewrite execute_eq in He. cbv zeta in He.
  rewrite Hst, Hv in He. cbn [negb Z.eqb] in He.
  injection He as <- <-. destruct Hend as [-> ->].
  assert (err (moaned ("response is not valid: "
                         ++ cmd_stdout (qx e (cmd o)) ++ NL)
                      (after_exec e o w1))
          = cmd_stderr (qx e (cmd o)) ++ "response is not valid: "
              ++ cmd_stdout (qx e (cmd o)) ++ NL) as Herr.
  { cbn [err moaned after_exec]. rewrite E1. reflexivity. }
  split; [reflexivity|]. split.
  { cbn [log moaned after_exec]. rewrite count_app, W1. reflexivity. }
  split; [intros f Hf0 Hal; exact (Hf f Hf0 Hal)|].
  split; [exact Herr|].
  unfold run, spawn. rewrite Hm. cbn [fst].
  rewrite processResult_thrown.
  2:{ cbn. intros [= H]. exact (die_status_nonzero _ _ H). }
  eexists. split; [reflexivity|].
  cbn [stderr status].
  match goal with
  | |- context [trim ?x] =>
      replace x with (cmd_stderr (qx e (cmd o)) ++ "response is not valid: "
                        ++ cmd_stdout (qx e (cmd o)) ++ NL)
        by (symmetry; exact Herr)
  end.
  assert (exists rest,
            trim (cmd_stderr (qx e (cmd o)) ++ "response is not valid: "
                    ++ cmd_stdout (qx e (cmd o)) ++ NL)
            = trimStart (cmd_stderr (qx e (cmd o)))
                ++ "response is not valid:" ++ rest) as [rest Hrest].
  { unfold trim.
    change ("response is not valid: " ++ cmd_stdout (qx e (cmd o)) ++ NL)
      with (String "r" ("esponse is not valid: "
                          ++ cmd_stdout (qx e (cmd o)) ++ NL)).
    rewrite trimStart_app by reflexivity.
    change (String "r" ("esponse is not valid: "
                          ++ cmd_stdout (qx e (cmd o)) ++ NL))
      with ("response is not valid"
              ++ String ":" (" " ++ cmd_stdout (qx e (cmd o)) ++ NL)).
    rewrite <- append_assoc.
    destruct (trimEnd_app (trimStart (cmd_stderr (qx e (cmd o)))
                             ++ "response is not valid")
                          ":" (" " ++ cmd_stdout (qx e (cmd o)) ++ NL)
                          eq_refl) as [t' ->].
    exists t'. rewrite append_assoc. reflexivity. }
  rewrite Hrest.
  rewrite (app_nonempty (trimStart (cmd_stderr (qx e (cmd o)))) "r"
             ("esponse is not valid:" ++ rest)
           : (_ ++ "response is not valid:" ++ _ =? _)%string = _).
  do 4 apply includes_app_r.
  exists (trimStart (cmd_stderr (qx e (cmd o)))), rest. reflexivity.
Qed.

(** X17.  A lock file that does not open, or a lock on it that is
    refused, is fatal and not tried again: the script dies there with
    the complaint of line 136 or of line 137 on its stderr, having gone
    through its first read only; it has run nothing and printed nothing
    to the file, and the data file is as the others left it. *)
Theorem X17_refused_lock_is_fatal (e : env) (o : SpawnBurstOptions)
        (f0 : option Sys.file) (re : regex) (oldWriter : string)
        (wa : world) :
  arrive e o (boot f0) = (Ret (re, oldWriter), wa) ->
  sys_ok e OpenLock = false \/ sys_ok e FlockLock = false ->
  exists why msg w',
    main e o (boot f0) = (Die why, w')
    /\ ((sys_ok e OpenLock = false /\ why = OpenLockFailed
         /\ msg = "open " ++ (cacheFile o ++ ".lock") ++ ": "
                         ++ errstr e ++ NL
         /\ log w' = (log wa ++ [EvOpen LockFile])%list)
        \/ (sys_ok e OpenLock = true /\ why = FlockLockFailed
            /\ msg = "flock LOCK_EX: " ++ errstr e ++ NL
            /\ log w' = (log wa ++ [EvOpen LockFile;
                                     EvFlock LockFile LOCK_EX])%list))
    /\ err w' = msg
    /\ dataFile w' = meanwhile e (dataFile wa)
    /\ count is_exec (log w') = O /\ count is_write (log w') = O.
Proof.
  intros Ha Hbad. rewrite main_eq, Ha.
  destruct (boot_arrive_counts _ _ _ _ _ Ha) as (X0 & _ & W0 & _).
  pose proof (arrive_streams _ _ _ _ _ _ Ha) as (_ & E0 & _ & _).
  cbn in E0.
  unfold critical. unfold checked, emit, die, bind, ret.
  cbn -[append readCache execute reuse_test run_test].
  destruct (sys_ok e OpenLock) eqn:Ho;
    cbn -[append readCache execute reuse_test run_test].
  - destruct Hbad as [Hbad|Hbad]; [discriminate|]. rewrite Hbad.
    cbn -[append readCache execute reuse_test run_test].
    do 3 eexists. split; [reflexivity|]. split.
    { right. repeat split. now rewrite <- app_assoc. }
    cbn [err dataFile log]. rewrite E0, !count_app, X0, W0.
    repeat split.
  - do 3 eexists. split; [reflexivity|]. split.
    { left. repeat split. }
    cbn [err dataFile log]. rewrite E0, !count_app, X0, W0.
    repeat split.
Qed.

(* ------------------------------------------------------------------ *)
(** ** The further properties at concrete invocations *)

(** A payload of two lines, written by process 1 and read four seconds
    later by process 2. *)
Lemma X1_witness :
  fst (readCache (later 2 1010 echo_ok) Pre path
         (snd (writeCache (process 1 echo_ok) path ("two" ++ NL ++ "lines")
                          (boot (Some empty_file)))))
  = Ret ("1: Mon Nov  2 12:00:06 2026", "two" ++ NL ++ "lines", 4).
Proof.
  pose proof (X1_write_then_read (process 1 echo_ok) (later 2 1010 echo_ok)
                Pre path path ("two" ++ NL ++ "lines")
                (boot (Some empty_file))
                (snd (writeCache (process 1 echo_ok) path
                        ("two" ++ NL ++ "lines") (boot (Some empty_file)))))
    as H.
  discharge H. destruct H as (l & H & _). rewrite H. reflexivity.
Defined.

Lemma X3_witness :
  dataFile (snd (readCache (process 1 echo_ok) Pre path (boot (Some recent))))
  = Some recent.
Proof.
  pose proof (X3_readCache_reads_only (process 1 echo_ok) Pre path
                (boot (Some recent))
                (snd (readCache (process 1 echo_ok) Pre path
                                (boot (Some recent))))
                recent
                (fst (readCache (process 1 echo_ok) Pre path
                                (boot (Some recent)))))
    as H.
  discharge H. destruct H as (H & _). exact H.
Defined.

Lemma X4_witness :
  found_in (mkMods true false) (list_ascii_of_string ("ok 17" ++ NL))
           (validator opts)
  = true.
Proof.
  pose proof (X4_returned_text_is_valid "spawnBurst" latecomer opts
                (Some empty_file) ("ok 17" ++ NL)
                (snd (run "spawnBurst" latecomer opts (Some empty_file))))
    as H.
  discharge H. exact H.
Defined.

Lemma X5_witness :
  processResult "spawnBurst"
    (mkResult (Some 1) EmptyString
              ("bad" ++ NL ++ "command exited with nonzero status 256"
                 ++ NL))
  = Thrown ("spawnBurst() failed with status 1: bad" ++ NL
              ++ "command exited with nonzero status 256").
Proof.
  pose proof (X5_outcome_follows_script "spawnBurst" (process 1 exit_one)
                opts (Some empty_file) (Die (NonzeroStatus 256))
                (snd (main (process 1 exit_one) opts
                           (boot (Some empty_file))))
                (mkResult (Some 1) EmptyString
                          ("bad" ++ NL
                             ++ "command exited with nonzero status 256"
                             ++ NL)))
    as H.
  discharge H. destruct H as [H _].
  assert (captured (process 1 exit_one) (Die (NonzeroStatus 256))
            (snd (main (process 1 exit_one) opts (boot (Some empty_file))))
            (mkResult (Some 1) EmptyString
                      ("bad" ++ NL
                         ++ "command exited with nonzero status 256"
                         ++ NL))) as X
    by (repeat split; vm_compute; reflexivity).
  specialize (H X). cbv iota beta in H. destruct H as (_ & _ & H).
  rewrite H. vm_compute. reflexivity.
Defined.

Lemma X6_witness :
  (count is_write
     (log (snd (main (process 1 echo_ok) opts (boot (Some empty_file)))))
   <= count is_exec
        (log (snd (main (process 1 echo_ok) opts (boot (Some empty_file))))))
    %nat.
Proof.
  pose proof (X6_at_most_one_run_and_one_write (process 1 echo_ok) opts
                (Some empty_file)
                (fst (main (process 1 echo_ok) opts (boot (Some empty_file))))
                (snd (main (process 1 echo_ok) opts (boot (Some empty_file)))))
    as H.
  discharge H. destruct H as (_ & H & _). exact H.
Defined.

Lemma X7_witness :
  exists before after,
    log (snd (main (process 1 echo_ok) opts (boot (Some empty_file))))
    = (before ++ EvFlock LockFile LOCK_EX :: after)%list
    /\ count is_exec before = O.
Proof.
  pose proof (X7_runs_only_under_the_lock (process 1 echo_ok) opts
                (Some empty_file)
                (fst (main (process 1 echo_ok) opts (boot (Some empty_file))))
                (snd (main (process 1 echo_ok) opts (boot (Some empty_file)))))
    as H.
  discharge H. destruct H as (_ & before & after & H1 & H2 & _).
  exists before, after. split; assumption.
Defined.

(** A process that finds a record whose payload [^ok] is not found in
    runs the command, though another process wrote the record. *)
Lemma X8_witness :
  count is_exec (log (snd (main misled opts_ok (boot (Some empty_file)))))
  = 1%nat.
Proof.
  pose proof (X8_unusable_cache_forces_run "spawnBurst" misled opts_ok
                (Some empty_file) (compiled opts_ok) EmptyString
                (snd (arrive misled opts_ok (boot (Some empty_file))))
                spoiled "17: Mon Nov  2 12:00:02 2026" "bad" 3
                (fst (main misled opts_ok (boot (Some empty_file))))
                (snd (main misled opts_ok (boot (Some empty_file)))))
    as H.
  discharge H. destruct H as (H & _). exact H.
Defined.

Lemma X9_witness :
  fst (main (process 1 echo_ok) opts30 (boot (Some recent))) = Exit 0.
Proof.
  pose proof (X9_alone_runs_unless_fresh (process 1 echo_ok) opts30 recent
                "17: Mon Nov  2 12:00:02 2026" ("ok 17" ++ NL) 3
                (fst (main (process 1 echo_ok) opts30 (boot (Some recent))))
                (snd (main (process 1 echo_ok) opts30 (boot (Some recent)))))
    as H.
  discharge H. destruct H as (_ & H & _).
  destruct H as (H & _); [vm_compute; discriminate|exact H].
Defined.

(** [echo ok] at 12:00:06, and a call with thirty seconds of reuse four
    seconds later. *)
Lemma X10_witness :
  exists w2,
    run "spawnBurst" (later 2 1010 echo_again) opts30
        (dataFile (snd (run "spawnBurst" (process 1 echo_ok) opts
                            (Some empty_file))))
    = (Returned ("ok" ++ NL), w2)
    /\ count is_exec (log w2) = O.
Proof.
  pose proof (X10_second_call_within_window "spawnBurst" (process 1 echo_ok)
                (later 2 1010 echo_again) opts opts30 (Some empty_file)
                ("ok" ++ NL)
                (snd (run "spawnBurst" (process 1 echo_ok) opts
                          (Some empty_file))))
    as H.
  discharge H. destruct H as (w2 & H1 & _ & H2 & _).
  exists w2. split; assumption.
Defined.

Lemma X11_witness :
  in_turn "spawnBurstSync" opts
          [process 1 echo_ok; later 2 1010 echo_again] (Some empty_file)
  = ([Returned ("ok" ++ NL); Returned ("again" ++ NL)],
     Some (written (later 2 1010 echo_again) ("again" ++ NL))).
Proof.
  pose proof (X11_calls_in_turn_each_run "spawnBurstSync" opts
                [process 1 echo_ok; later 2 1010 echo_again]
                (Some empty_file))
    as H.
  assert (cacheMaxAgeSec opts <= 0) as X1 by (vm_compute; discriminate).
  assert (readable (Some empty_file)) as X2 by (left; reflexivity).
  specialize (H X1 X2).
  assert (Forall (fun e => healthy e /\ alone e
                           /\ no_nl (localtime e) = true
                           /\ wait_status (qx e (cmd opts)) = 0
                           /\ matches (compiled opts)
                                (cmd_stdout (qx e (cmd opts))) = true)
                 [process 1 echo_ok; later 2 1010 echo_again]) as X3
    by (repeat constructor; try (intros ?; reflexivity)).
  specialize (H X3). exact H.
Defined.

(** [exit 1] where there is no data file: the empty file that the first
    read created stays. *)
Lemma X12_witness :
  dataFile (snd (main (process 1 exit_one) opts (boot None)))
  = Some (mkFile EmptyString 1000 420).
Proof.
  pose proof (X12_absent_file "spawnBurst" (process 1 exit_one) opts
                (fst (main (process 1 exit_one) opts (boot None)))
                (snd (main (process 1 exit_one) opts (boot None))))
    as H.
  discharge H. destruct H as (_ & _ & H).
  destruct H as (_ & H); [left; vm_compute; discriminate|exact H].
Defined.

Lemma X13_witness :
  processResult "spawnBurst" killed
  = Thrown "spawnBurst() failed with status null: <empty stderr>".
Proof.
  pose proof (X13_thrown_message_body "spawnBurst" killed) as H.
  discharge H. destruct H as (body & H & _ & _ & _ & Hb).
  rewrite H, (Hb eq_refl). reflexivity.
Defined.

(** A command of two lines in the options: the added line is one
    line. *)
Lemma X14_witness :
  no_nl (annotation "spawnBurstSync" test_values) = true
  /\ message (processError "spawnBurstSync" (mkError "boom" (Some a_stack))
                           test_values)
     = "boom".
Proof.
  pose proof (X14_processError_adds_one_line "spawnBurstSync"
                (mkError "boom" (Some a_stack)) test_values) as H.
  discharge H. destruct H as (H1 & _ & H2 & _). split; assumption.
Defined.

(** Five processes of which the second and the fourth let through find
    the command working: one write, two runs. *)
Lemma X15_witness :
  exists done f2,
    serve opts (fst (arrivals opts mixed (Some empty_file)))
          (snd (arrivals opts mixed (Some empty_file)))
    = (done, f2)
    /\ (total is_write done <= 1)%nat
    /\ total is_exec done
       = (total is_write done + thrown_in "spawnBurst" done)%nat.
Proof.
  pose proof (X15_burst_runs_until_success "spawnBurst" opts mixed
                (Some empty_file)
                (fst (arrivals opts mixed (Some empty_file)))
                (fst (arrivals opts mixed (Some empty_file)))
                (snd (arrivals opts mixed (Some empty_file))))
    as H.
  assert (readable (Some empty_file)) as X2 by (left; reflexivity).
  assert (Forall (fun e => healthy e /\ fresh (Some empty_file) e
                           /\ (works opts e = true ->
                               cmd_stdout (qx e (cmd opts)) <> EmptyString))
                 mixed) as X3
    by (repeat constructor; try (intros ?; reflexivity);
        vm_compute; discriminate).
  specialize (H eq_refl X2 X3 eq_refl (Permutation_refl _)).
  destruct H as (done & f2 & H1 & H2 & H3 & _).
  exists done, f2. auto.
Defined.

(** The output of two lines [a] and [b] under the validator [^b]. *)
Lemma X16_witness :
  fst (main (process 1 two_lines) opts_b (boot (Some empty_file)))
  = Die (NotValid ("a" ++ NL ++ "b"))
  /\ err (snd (main (process 1 two_lines) opts_b (boot (Some empty_file))))
     = "response is not valid: a" ++ NL ++ "b" ++ NL.
Proof.
  pose proof (X16_invalid_output_throws "spawnBurst" (process 1 two_lines)
                opts_b (Some empty_file)
                (fst (main (process 1 two_lines) opts_b
                           (boot (Some empty_file))))
                (snd (main (process 1 two_lines) opts_b
                           (boot (Some empty_file)))))
    as H.
  discharge H. destruct H as (H1 & _ & _ & H2 & _). split; assumption.
Defined.

Lemma X17_witness :
  exists w',
    main unlocked opts (boot (Some empty_file)) = (Die FlockLockFailed, w')
    /\ err w' = "flock LOCK_EX: No locks available" ++ NL
    /\ count is_exec (log w') = O.
Proof.
  pose proof (X17_refused_lock_is_fatal unlocked opts (Some empty_file)
                (compiled opts) EmptyString
                (snd (arrive unlocked opts (boot (Some empty_file)))))
    as H.
  discharge H.
  destruct H as (why & msg & w' & H1 & [(H2 & _)|(_ & -> & -> & _)]
                 & H3 & _ & H4 & _).
  - discriminate.
  - exists w'. auto.
Defined.
